(** * Content-decay diagnosis: a shallow embedding of the analyzers

    The repository ships two analyzers with the same entry points:
    - the basic weighted-score analyzer
      ([content-decay-extension/src/utils/decay-analyzer.js]), embedded in
      [Module Basic];
    - the "Revival Engine" classifier (the analyzer that follows the API client
      in the second unnamed source part), embedded in [Module Revival].

    The click and impression counts the reporting API delivers are integers
    ([Z]); click-through rate, position and the percent changes of the
    diagnosis are rationals ([Q]).  Where the code divides counts, sums scores
    or subtracts rates (the site summaries, the decay velocity, the query
    comparison), the operations are those of IEEE 754 double precision
    ([Module Double]).  [Math.round] rounds half-way cases towards plus
    infinity. *)

From Stdlib Require Import ZArith QArith Qround Lia Lqa Bool List SpecFloat.
From Stdlib Require Import Ascii String Permutation Sorted.
Import ListNotations.

Open Scope Q_scope.

(** ** JavaScript numbers *)

Module JS.

(** [a < b] on numbers. *)
Definition ltb (a b : Q) : bool := negb (Qle_bool b a).

(** [a === b] on numbers. *)
Definition eqb (a b : Q) : bool := Qeq_bool a b.

(** [Math.round(x)]: the integer nearest to [x], ties going up. *)
Definition Math_round (x : Q) : Z := Qfloor (x + (1 # 2)).

(** [Math.max(a, b)]. *)
Definition Math_max (a b : Q) : Q := if ltb a b then b else a.

(** [Math.abs(x)]. *)
Definition Math_abs (x : Q) : Q := if ltb x 0 then - x else x.

(** The idiom [Math.round(x * 10) / 10]. *)
Definition round1 (x : Q) : Q := inject_Z (Math_round (x * 10)) / 10.

End JS.

Infix "<?" := JS.ltb (at level 70) : Q_scope.
Infix "=?" := JS.eqb (at level 70) : Q_scope.

(** ** Double-precision numbers *)

Module Double.

(** A JavaScript number as the IEEE 754 binary64 value it is: a zero, an
    infinity, [NaN], or a finite [(-1)^s * m * 2^e].  The operations are the
    Standard Library's specification of floating-point arithmetic ([SpecFloat])
    at 53 bits of precision, rounding to nearest, ties to even. *)
Definition t : Type := spec_float.

Definition prec : Z := 53.
Definition emax : Z := 1024.

Definition PosInf : t := S754_infinity false.
Definition NegInf : t := S754_infinity true.
Definition NaN : t := S754_nan.

(** The number an integer is: the double nearest to it. *)
Definition ofZ (z : Z) : t := binary_normalize prec emax z 0 false.

Definition add : t -> t -> t := SFadd prec emax.
Definition sub : t -> t -> t := SFsub prec emax.
Definition mul : t -> t -> t := SFmul prec emax.
Definition div : t -> t -> t := SFdiv prec emax.

(** An integer as mantissa, with exponent 0. *)
Definition exact (z : Z) : t :=
  match z with
  | Z0 => S754_zero false
  | Zpos p => S754_finite false p 0
  | Zneg p => S754_finite true p 0
  end.

(** The number a decimal or a fraction denotes: the double nearest to it,
    which is the correctly rounded quotient of its numerator and
    denominator. *)
Definition ofQ (q : Q) : t := div (exact (Qnum q)) (exact (Zpos (Qden q))).

(** The value of a finite number; [0] for the others. *)
Definition toQ (x : t) : Q :=
  match x with
  | S754_finite s m e =>
      let v := match e with
               | Zneg k => Zpos m # Pos.pow 2 k
               | _ => inject_Z (Zpos m * 2 ^ e)
               end in
      if s then - v else v
  | _ => 0
  end.

(** [Math.round(x)]: the integer nearest to [x], ties going up, with the sign
    of [x] when it is zero; zeros, infinities and [NaN] are returned as they
    are. *)
Definition Math_round (x : t) : t :=
  match x with
  | S754_finite s _ _ =>
      match Qfloor (toQ x + (1 # 2)) with
      | Z0 => S754_zero s
      | n => ofZ n
      end
  | _ => x
  end.

(** The idiom [Math.round(x * 10) / 10]. *)
Definition round1 (x : t) : t := div (Math_round (mul x (ofZ 10))) (ofZ 10).

(** The integer a number is, for a number that is one. *)
Definition toZ (x : t) : Z := Qfloor (toQ x).

(** [Number.isFinite(x)]. *)
Definition isFinite (x : t) : bool :=
  match x with
  | S754_zero _ | S754_finite _ _ _ => true
  | _ => false
  end.

End Double.

(** ** Data shared by the two analyzers *)

(** One period of one URL: [{clicks, impressions, ctr, position}]. *)
Record Metrics : Type := mkMetrics {
  clicks : Z;
  impressions : Z;
  ctr : Q;
  position : Q
}.

(** A row of the comparison: [previous] and [recent] are [null] ([None]) when
    the period has no data for the URL. *)
Record Page : Type := mkPage {
  page : string;
  current : Metrics;
  previous : option Metrics;
  recent : option Metrics;
  isNew : bool
}.

(** The [changes] object.  Its properties are called [clicks], [impressions],
    [ctr] and [position] in the source. *)
Record Changes : Type := mkChanges {
  clicksPct : Q;
  impressionsPct : Q;
  ctrPct : Q;
  positionDelta : Q
}.

Inductive Severity : Type := critical | warning | monitoring | healthy.

Definition Severity_eqb (a b : Severity) : bool :=
  match a, b with
  | critical, critical | warning, warning
  | monitoring, monitoring | healthy, healthy => true
  | _, _ => false
  end.

(** The string a severity is in the source. *)
Definition severity_name (s : Severity) : string :=
  match s with
  | critical => "critical"
  | warning => "warning"
  | monitoring => "monitoring"
  | healthy => "healthy"
  end.

(** The tags pushed on [signals] by either analyzer. *)
Inductive Signal : Type :=
  | visibility_drop | traffic_loss | ctr_decline | ranking_drop
  | low_ctr_high_imp | velocity_cliff | slow_bleed.

Definition Signal_eqb (a b : Signal) : bool :=
  match a, b with
  | visibility_drop, visibility_drop | traffic_loss, traffic_loss
  | ctr_decline, ctr_decline | ranking_drop, ranking_drop
  | low_ctr_high_imp, low_ctr_high_imp | velocity_cliff, velocity_cliff
  | slow_bleed, slow_bleed => true
  | _, _ => false
  end.

Definition includes (signals : list Signal) (s : Signal) : bool :=
  existsb (Signal_eqb s) signals.

(** [calculatePercentChange(current, previous)], identical in both files. *)
Definition calculatePercentChange (current previous : Q) : Q :=
  if previous =? 0 then (if 0 <? current then 100 else 0)
  else ((current - previous) / previous) * 100.

(** The [changes] object both analyzers start from. *)
Definition standardDeltas (current previous : Metrics) : Changes :=
  {| clicksPct :=
       calculatePercentChange (inject_Z (clicks current)) (inject_Z (clicks previous));
     impressionsPct :=
       calculatePercentChange (inject_Z (impressions current))
                              (inject_Z (impressions previous));
     ctrPct := calculatePercentChange (ctr current) (ctr previous);
     positionDelta := position previous - position current |}.

(** The [changes] object both analyzers return: each component rounded to one
    decimal. *)
Definition roundChanges (c : Changes) : Changes :=
  {| clicksPct := JS.round1 (clicksPct c);
     impressionsPct := JS.round1 (impressionsPct c);
     ctrPct := JS.round1 (ctrPct c);
     positionDelta := JS.round1 (positionDelta c) |}.

(** ** Arrays *)

Section ArraySort.
Context {A : Type}.
(** The comparator of [Array.prototype.sort]: a positive [cmp a b] asks for
    [b] before [a]. *)
Variable cmp : A -> A -> Q.

Fixpoint insertSorted (x : A) (l : list A) : list A :=
  match l with
  | [] => [x]
  | y :: l' => if 0 <? cmp x y then y :: insertSorted x l' else x :: y :: l'
  end.

(** [array.sort(cmp)]: the sort is stable, which fixes its result for a
    comparator that orders by a key. *)
Definition sort (l : list A) : list A := fold_right insertSorted [] l.
End ArraySort.

(** [array.map(f)] for an [f] that may throw: the first exception aborts. *)
Fixpoint mapM {A B : Type} (f : A -> option B) (l : list A) : option (list B) :=
  match l with
  | [] => Some []
  | x :: l' =>
      match f x with
      | None => None
      | Some y => match mapM f l' with None => None | Some ys => Some (y :: ys) end
      end
  end.

(** [page.previous !== null]. *)
Definition hasPrevious (p : Page) : bool :=
  match previous p with Some _ => true | None => false end.

(** [{...page, decay}]: the input row with the [decay] property added. *)
Record Analyzed (D : Type) : Type := mkAnalyzed {
  base : Page;
  decay : D
}.
Arguments mkAnalyzed {D} _ _.
Arguments base {D} _.
Arguments decay {D} _.

(** ** Strings *)

Module Text.
Local Open Scope string_scope.

Definition dquote : ascii := Ascii.ascii_of_nat 34.
Definition comma : ascii := Ascii.ascii_of_nat 44.
Definition newline : ascii := Ascii.ascii_of_nat 10.

(** [array.join(sep)]. *)
Fixpoint join (sep : string) (l : list string) : string :=
  match l with
  | [] => ""
  | [s] => s
  | s :: l' => s ++ sep ++ join sep l'
  end.

(** The template literal that wraps a cell in double quotes. *)
Definition quoted (c : string) : string :=
  String dquote (c ++ String dquote "").

Definition digit (d : Z) : ascii := Ascii.ascii_of_nat (48 + Z.to_nat d).

(** The decimal digits of a natural number, most significant first. *)
Fixpoint digitsOf (fuel : nat) (n : Z) (acc : string) : string :=
  match fuel with
  | O => acc
  | S fuel' =>
      let acc' := String (digit (n mod 10)) acc in
      if (n / 10 =? 0)%Z then acc' else digitsOf fuel' (n / 10) acc'
  end.

(** A number of decimal digits no natural number [n] exceeds. *)
Definition digitFuel (n : Z) : nat := S (Z.to_nat (Z.log2 n)).

Definition natToString (n : Z) : string := digitsOf (digitFuel n) n "".

(** [String(x)] for a number with at most one decimal, which is what the
    analyzers print: integers and values rounded by [Math.round(x * 10) / 10].
    (Exponent notation, which JavaScript switches to from 1e21 on, is outside
    the model.) *)
Definition Number_toString (x : Q) : string :=
  let n := JS.Math_round (x * 10) in
  let a := Z.abs n in
  (if (n <? 0)%Z then "-" else "")
  ++ natToString (a / 10)
  ++ (if (a mod 10 =? 0)%Z then "" else String "." (String (digit (a mod 10)) "")).

End Text.

(** The period bounds reported next to the pages. *)
Record DateRange : Type := mkDateRange { startDate : string; endDate : string }.
Record DateRanges : Type := mkDateRanges {
  currentRange : DateRange;
  previousRange : DateRange
}.

(** ** The Revival Engine *)

Module Class.
(** The values [decayClass] takes. *)
Inductive t : Type :=
  ghost_town | zombie | plunge | bleeder | rank_rot | healthy | decaying.

Definition eqb (a b : t) : bool :=
  match a, b with
  | ghost_town, ghost_town | zombie, zombie | plunge, plunge
  | bleeder, bleeder | rank_rot, rank_rot | healthy, healthy
  | decaying, decaying => true
  | _, _ => false
  end.

Definition all : list t :=
  [ghost_town; zombie; plunge; bleeder; rank_rot; healthy; decaying].
End Class.

Module Revival.
Local Open Scope string_scope.

Record Weights : Type := mkWeights {
  w_clicks : Q;
  w_impressions : Q;
  w_ctr : Q;
  w_position : Q
}.

(** The [options] argument.  The analyzer reads [options.weights] and nothing
    else; [cliffThresholdPct] stands for a property a caller may set on the
    object. *)
Record Options : Type := mkOptions {
  weights : option Weights;
  cliffThresholdPct : option Q
}.

(** [options = {}]. *)
Definition noOptions : Options :=
  {| weights := None; cliffThresholdPct := None |}.

Definition defaultWeights : Weights :=
  {| w_clicks := 4 # 10; w_impressions := 3 # 10; w_ctr := 2 # 10; w_position := 2 |}.

Record Decay : Type := mkDecay {
  score : Q;
  decayClass : Class.t;
  severity : Severity;
  changes : Changes;
  signals : list Signal;
  symptoms : list string;
  recommendation : list string
}.

Definition idealCtr : Q := 20 # 100.

(** Step 2 of [diagnoseDecay]: [revivalScore]. *)
Definition revivalScore (current : Metrics) : Q :=
  let potentialClicks := inject_Z (impressions current) * idealCtr in
  JS.Math_max 0 (inject_Z (JS.Math_round (potentialClicks - inject_Z (clicks current)))).

(** Step 3: [velocityChange], computed when [recent] is there. *)
Definition velocityChange (current recent : Metrics) : Q :=
  let dailyClicksMonth := inject_Z (clicks current) / 30 in
  let dailyClicksWeek := inject_Z (clicks recent) / 7 in
  calculatePercentChange dailyClicksWeek dailyClicksMonth.

(** Step 3: the value of [isCliff] after the [if (recent)] block. *)
Definition isCliff (current : Metrics) (recent : option Metrics) : bool :=
  match recent with
  | Some r => (velocityChange current r <? - (30))%Q
  | None => false
  end.

(** The three variables step 4 assigns. *)
Record Taxonomy : Type := mkTaxonomy {
  t_class : Class.t;
  t_signals : list Signal;
  t_symptoms : list string
}.

(** Step 4: the [if / else if] chain. *)
Definition classify (current : Metrics) (changes : Changes) (isCliff : bool)
  : Taxonomy :=
  if (clicks current =? 0)%Z && (impressions current <? 100)%Z then
    mkTaxonomy Class.ghost_town [] ["👻 Ghost Town"]
  else if (1000 <? impressions current)%Z && (ctr current <? (5 # 10))%Q then
    mkTaxonomy Class.zombie [low_ctr_high_imp] ["🧟 Zombie Page"]
  else if isCliff then
    mkTaxonomy Class.plunge [velocity_cliff] ["📉 The Plunge"]
  else if (clicksPct changes <? - (10))%Q && (- (2) <? positionDelta changes)%Q then
    mkTaxonomy Class.bleeder [slow_bleed] ["🩸 The Bleeder"]
  else if (positionDelta changes <? - (3))%Q then
    mkTaxonomy Class.rank_rot [] ["⚔️ Rank Rot"]
  else if (- (5) <? clicksPct changes)%Q then
    mkTaxonomy Class.healthy [] []
  else
    mkTaxonomy Class.decaying [] ["Decay Detected"].

(** [severityMap[decayClass]]. *)
Definition severityMap (c : Class.t) : Severity :=
  match c with
  | Class.plunge => critical
  | Class.zombie => warning
  | Class.rank_rot => critical
  | Class.bleeder => warning
  | Class.ghost_town => monitoring
  | Class.decaying => monitoring
  | Class.healthy => healthy
  end.

Definition getRevivalRecommendations
  (decayClass : Class.t) (signals : list Signal) (revivalScore : Q) : list string :=
  let recs :=
    match decayClass with
    | Class.zombie =>
        ["🧟 **Revive this Zombie**: It has visibility but no clicks. Fix the Title & Meta Description ASAP.";
         "💰 **Opportunity**: Optimizing this could yield ~"
           ++ Text.Number_toString revivalScore ++ " more clicks."]
    | Class.plunge =>
        ["📉 **Stop the Plunge**: Technical audit required. Check robots.txt and recent code pushes."]
    | Class.bleeder =>
        ["🩸 **Stem the Bleed**: Your content is aging. Add a "
           ++ Text.quoted "Last Updated" ++ " section and fresh stats."]
    | Class.rank_rot =>
        ["⚔️ **Fight Back**: Competitors overtook you. Expand word count and add unique video/images."]
    | Class.ghost_town =>
        ["👻 **Exorcise**: This page is dead. Consider deleting or 301 redirecting to a healthy page."]
    | _ => []
    end in
  match recs with
  | [] => ["Monitor performance."]
  | _ => recs
  end.

(** [diagnoseDecay(page, weights)].  Reading [previous.clicks] throws when
    [page.previous] is [null]: that is the [None] result. *)
Definition diagnoseDecay (page : Page) (weights : Weights) : option Decay :=
  let current := current page in
  let recent := recent page in
  match previous page with
  | None => None
  | Some previous =>
      let changes := standardDeltas current previous in
      let revivalScore := revivalScore current in
      let isCliff := isCliff current recent in
      let taxonomy := classify current changes isCliff in
      let decayClass := t_class taxonomy in
      let signals := t_signals taxonomy in
      Some {| score := revivalScore;
              decayClass := decayClass;
              severity := severityMap decayClass;
              changes := roundChanges changes;
              signals := signals;
              symptoms := t_symptoms taxonomy;
              recommendation :=
                getRevivalRecommendations decayClass signals revivalScore |}
  end.

(** The argument of [analyzeContentDecay]: the comparison object, or the bare
    array of pages of the old format. *)
Inductive ComparisonResult : Type :=
  | PagesOnly (pages : list Page)
  | Comparison (pages : list Page) (dateRanges : option DateRanges).

Record Analysis : Type := mkAnalysis {
  pages : list (Analyzed Decay);
  dateRanges : option DateRanges
}.

(** The comparator [(a, b) => b.decay.score - a.decay.score]. *)
Definition byScore (a b : Analyzed Decay) : Q :=
  score (decay b) - score (decay a).

Definition analyzeContentDecay (comparisonResult : ComparisonResult)
  (options : Options) : option Analysis :=
  let weights :=
    match weights options with Some w => w | None => defaultWeights end in
  let pages :=
    match comparisonResult with PagesOnly ps => ps | Comparison ps _ => ps end in
  let dateRanges :=
    match comparisonResult with PagesOnly _ => None | Comparison _ d => d end in
  match
    mapM (fun page =>
            match diagnoseDecay page weights with
            | Some diagnosis => Some (mkAnalyzed page diagnosis)
            | None => None
            end)
         (filter hasPrevious pages)
  with
  | Some analyzed =>
      Some {| pages := sort byScore analyzed; dateRanges := dateRanges |}
  | None => None
  end.

(** The object [groupByDecaySeverity] returns; its properties are called
    [critical], [warning], [monitoring] and [healthy] in the source. *)
Record Grouped : Type := mkGrouped {
  criticalPages : list (Analyzed Decay);
  warningPages : list (Analyzed Decay);
  monitoringPages : list (Analyzed Decay);
  healthyPages : list (Analyzed Decay)
}.

Definition groupByDecaySeverity (analyzedPages : list (Analyzed Decay)) : Grouped :=
  let having s := fun p => Severity_eqb (severity (decay p)) s in
  {| criticalPages := filter (having critical) analyzedPages;
     warningPages := filter (having warning) analyzedPages;
     monitoringPages := filter (having monitoring) analyzedPages;
     healthyPages := filter (having healthy) analyzedPages |}.

Record Summary : Type := mkSummary {
  totalPages : Z;
  criticalCount : Z;
  warningCount : Z;
  monitoringCount : Z;
  healthyCount : Z;
  healthScore : Z;
  avgDecayScore : Double.t
}.

Definition createEmptySummary : Summary :=
  {| totalPages := 0; criticalCount := 0; warningCount := 0;
     monitoringCount := 0; healthyCount := 0; healthScore := 100;
     avgDecayScore := Double.ofZ 0 |}.

(** [array.length]. *)
Definition len {A : Type} (l : list A) : Z := Z.of_nat (List.length l).

(** The quotients and products are those of doubles: 23 healthy pages of 40
    give [57.49999999999999] and a [healthScore] of 57.  [healthScore] is an
    integer, the list being non-empty, and is kept as one. *)
Definition calculateSiteSummary (analyzedPages : list (Analyzed Decay)) : Summary :=
  if (len analyzedPages =? 0)%Z then createEmptySummary
  else
    let grouped := groupByDecaySeverity analyzedPages in
    let totalPages := len analyzedPages in
    {| totalPages := totalPages;
       criticalCount := len (criticalPages grouped);
       warningCount := len (warningPages grouped);
       monitoringCount := len (monitoringPages grouped);
       healthyCount := len (healthyPages grouped);
       healthScore :=
         Double.toZ
           (Double.Math_round
              (Double.mul
                 (Double.div
                    (Double.ofZ
                       (len (healthyPages grouped) + len (monitoringPages grouped)))
                    (Double.ofZ totalPages))
                 (Double.ofZ 100)));
       avgDecayScore :=
         Double.div
           (Double.Math_round
              (Double.mul
                 (Double.div
                    (fold_left
                       (fun sum p => Double.add sum (Double.ofQ (score (decay p))))
                       analyzedPages (Double.ofZ 0))
                    (Double.ofZ totalPages))
                 (Double.ofZ 10)))
           (Double.ofZ 10) |}.

(** A cell of the export before it is turned into text. *)
Inductive Cell : Type :=
  | Str (s : string)
  | Num (x : Q).

(** What the template literal makes of a cell. *)
Definition cellText (c : Cell) : string :=
  match c with
  | Str s => s
  | Num x => Text.Number_toString x
  end.

Definition headers : list Cell :=
  [Str "URL"; Str "Diagnosis"; Str "Severity"; Str "Score";
   Str "Clicks Change %"; Str "Impression Change %"; Str "CTR Change %";
   Str "Pos Change"; Str "Current Clicks"; Str "Previous Clicks"; Str "Recs"].

(** [a || b] on strings: the empty string is falsy. *)
Definition orElse (a b : string) : string :=
  match a with EmptyString => b | _ => a end.

Definition csvRow (p : Analyzed Decay) : list Cell :=
  [Str (page (base p));
   Str (orElse (Text.join " + " (symptoms (decay p))) "General Decay");
   Str (severity_name (severity (decay p)));
   Num (score (decay p));
   Num (clicksPct (changes (decay p)));
   Num (impressionsPct (changes (decay p)));
   Num (ctrPct (changes (decay p)));
   Num (positionDelta (changes (decay p)));
   Num (inject_Z (clicks (current (base p))));
   Num (inject_Z (match previous (base p) with Some m => clicks m | None => 0%Z end));
   Str (orElse (hd "" (recommendation (decay p))) "")].

Definition csvLine (r : list Cell) : string :=
  Text.join "," (map (fun c => Text.quoted (cellText c)) r).

Definition exportToCSV (analyzedPages : list (Analyzed Decay)) : string :=
  Text.join (String Text.newline "") (map csvLine (headers :: map csvRow analyzedPages)).

End Revival.

(** ** The basic analyzer *)

Module Basic.
Local Open Scope string_scope.

Record Decay : Type := mkDecay {
  score : Q;
  severity : Severity;
  changes : Changes;
  signals : list Signal;
  recommendation : list string
}.

(** The weighted score, before rounding. *)
Definition weightedScore (changes : Changes) : Q :=
  let score := 0%Q in
  let score :=
    if (clicksPct changes <? 0)%Q
    then (score + JS.Math_abs (clicksPct changes) * (4 # 10))%Q else score in
  let score :=
    if (impressionsPct changes <? 0)%Q
    then (score + JS.Math_abs (impressionsPct changes) * (3 # 10))%Q else score in
  let score :=
    if (ctrPct changes <? 0)%Q
    then (score + JS.Math_abs (ctrPct changes) * (2 # 10))%Q else score in
  let score :=
    if (positionDelta changes <? 0)%Q
    then (score + JS.Math_abs (positionDelta changes) * 2)%Q else score in
  score.

Definition severityOf (score : Q) : Severity :=
  if (30 <? score)%Q then critical
  else if (15 <? score)%Q then warning
  else if (5 <? score)%Q then monitoring
  else healthy.

(** The four [if (...) signals.push(...)] statements. *)
Definition decaySignals (changes : Changes) : list Signal :=
  ((if (impressionsPct changes <? - (20))%Q then [visibility_drop] else [])
   ++ (if (clicksPct changes <? - (30))%Q then [traffic_loss] else [])
   ++ (if (ctrPct changes <? - (15))%Q then [ctr_decline] else [])
   ++ (if (positionDelta changes <? - (3))%Q then [ranking_drop] else []))%list.

Definition getRecommendation (severity : Severity) (signals : list Signal)
  : list string :=
  let recommendations :=
    ((if includes signals visibility_drop then
       ["Review indexation status in Search Console";
        "Check for technical SEO issues (robots.txt, canonical tags)";
        "Verify no recent site structure changes affected this URL"]
     else [])
    ++ (if includes signals ctr_decline then
          ["Update title tag with compelling, current hooks";
           "Refresh meta description with clear value proposition";
           "Add current year to title if applicable";
           "Review competing SERP results for better positioning ideas"]
        else [])
    ++ (if includes signals ranking_drop then
          ["Analyze top-ranking competitors for this topic";
           "Update content with fresh information and statistics";
           "Add comprehensive coverage of related subtopics";
           "Improve content structure with better headings and formatting"]
        else [])
    ++ (if includes signals traffic_loss then
          ["Perform comprehensive content refresh";
           "Add internal links from high-authority pages";
           "Consider content consolidation if multiple similar pages exist";
           "Update with expert quotes or original research"]
        else []))%list in
  match severity with
  | critical =>
      "Schedule immediate review - significant traffic loss detected"
      :: "🚨 URGENT: High-priority content refresh needed" :: recommendations
  | warning =>
      "Monitor closely - decay pattern detected"
      :: "⚠️ Schedule content refresh within 2-4 weeks" :: recommendations
  | monitoring =>
      "Consider minor updates and optimization"
      :: "👀 Keep watching - early signs of potential decay" :: recommendations
  | healthy =>
      (recommendations
       ++ ["✅ Content is performing well - maintain current optimization"])%list
  end.

Definition calculateDecayMetrics (current previous : Metrics) : Decay :=
  let changes := standardDeltas current previous in
  let score := weightedScore changes in
  let severity := severityOf score in
  let signals := decaySignals changes in
  {| score := JS.round1 score;
     severity := severity;
     changes := roundChanges changes;
     signals := signals;
     recommendation := getRecommendation severity signals |}.

(** The comparator [(a, b) => b.decay.score - a.decay.score]. *)
Definition byScore (a b : Analyzed Decay) : Q :=
  (score (decay b) - score (decay a))%Q.

(** [analyzeContentDecay(pageComparisons)].  Passing a [null] [previous] to
    [calculateDecayMetrics] throws: the [None] of the mapped function. *)
Definition analyzeContentDecay (pageComparisons : list Page)
  : option (list (Analyzed Decay)) :=
  match
    mapM (fun page =>
            match previous page with
            | Some prev =>
                Some (mkAnalyzed page (calculateDecayMetrics (current page) prev))
            | None => None
            end)
         (filter hasPrevious pageComparisons)
  with
  | Some analyzed => Some (sort byScore analyzed)
  | None => None
  end.

Record Grouped : Type := mkGrouped {
  criticalPages : list (Analyzed Decay);
  warningPages : list (Analyzed Decay);
  monitoringPages : list (Analyzed Decay);
  healthyPages : list (Analyzed Decay)
}.

Definition groupByDecaySeverity (analyzedPages : list (Analyzed Decay)) : Grouped :=
  let having s := fun p => Severity_eqb (severity (decay p)) s in
  {| criticalPages := filter (having critical) analyzedPages;
     warningPages := filter (having warning) analyzedPages;
     monitoringPages := filter (having monitoring) analyzedPages;
     healthyPages := filter (having healthy) analyzedPages |}.

Record Summary : Type := mkSummary {
  totalPages : Z;
  criticalCount : Z;
  warningCount : Z;
  monitoringCount : Z;
  healthyCount : Z;
  healthScore : Z;
  avgDecayScore : Double.t;
  topDecayingPages : list (Analyzed Decay)
}.

Definition len {A : Type} (l : list A) : Z := Z.of_nat (List.length l).

(** The quotients, products and the sum of the scores are those of doubles;
    [healthScore] is an integer, the list being non-empty, and is kept as
    one. *)
Definition calculateSiteSummary (analyzedPages : list (Analyzed Decay)) : Summary :=
  if (len analyzedPages =? 0)%Z then
    {| totalPages := 0; criticalCount := 0; warningCount := 0;
       monitoringCount := 0; healthyCount := 0; healthScore := 100;
       avgDecayScore := Double.ofZ 0; topDecayingPages := [] |}
  else
    let grouped := groupByDecaySeverity analyzedPages in
    let totalPages := len analyzedPages in
    let healthyAndMonitoring :=
      (len (healthyPages grouped) + len (monitoringPages grouped))%Z in
    let healthScore :=
      Double.toZ
        (Double.Math_round
           (Double.mul
              (Double.div (Double.ofZ healthyAndMonitoring) (Double.ofZ totalPages))
              (Double.ofZ 100))) in
    let totalDecayScore :=
      fold_left (fun sum p => Double.add sum (Double.ofQ (score (decay p))))
        analyzedPages (Double.ofZ 0) in
    let avgDecayScore :=
      Double.div
        (Double.Math_round
           (Double.mul (Double.div totalDecayScore (Double.ofZ totalPages))
              (Double.ofZ 10)))
        (Double.ofZ 10) in
    let topDecayingPages :=
      firstn 15
        (firstn 10 (criticalPages grouped) ++ firstn 10 (warningPages grouped))%list in
    {| totalPages := totalPages;
       criticalCount := len (criticalPages grouped);
       warningCount := len (warningPages grouped);
       monitoringCount := len (monitoringPages grouped);
       healthyCount := len (healthyPages grouped);
       healthScore := healthScore;
       avgDecayScore := avgDecayScore;
       topDecayingPages := topDecayingPages |}.

End Basic.

(** ** The Search Console client *)

Module Api.

(** A row of a search-analytics response to a query with one dimension:
    [keys0] is [row.keys[0]], the value of the dimension, and [metrics] holds
    the row's [clicks], [impressions], [ctr] and [position]. *)
Record Row : Type := mkRow {
  keys0 : string;
  metrics : Metrics
}.

(** A JavaScript [Map] from strings to rows, the latest entry first. *)
Definition RowMap : Type := list (string * Row).

(** [map.set(key, row)]. *)
Definition mapSet (m : RowMap) (k : string) (r : Row) : RowMap := (k, r) :: m.

(** [map.get(key)]: [None] is [undefined]. *)
Fixpoint mapGet (m : RowMap) (k : string) : option Row :=
  match m with
  | [] => None
  | (k', r) :: m' => if String.eqb k' k then Some r else mapGet m' k
  end.

(** [new Map(rows.map(row => [row.keys[0], row]))], which is also what
    [rows.forEach(row => map.set(row.keys[0], row))] builds. *)
Definition mapOfRows (rows : list Row) : RowMap :=
  fold_left (fun m row => mapSet m (keys0 row) row) rows [].

(** The options of [getPagePerformanceComparison] that are read after the
    periods are fetched; [None] is a property that is not set.  The threshold
    on clicks is [options.minClicks || 0]. *)
Record Options : Type := mkOptions {
  minImpressions : option Z;
  minClicks : option Z
}.

(** [previous ? {clicks: previous.clicks, ...} : null]. *)
Definition metricsOrNull (r : option Row) : option Metrics :=
  match r with
  | Some row => Some (metrics row)
  | None => None
  end.

(** [!previous]. *)
Definition missing (r : option Row) : bool :=
  match r with
  | Some _ => false
  | None => true
  end.

(** [getPagePerformanceComparison] of the classifier's client, from the point
    where the three periods are fetched: [currentPeriod], [previousPeriod] and
    [recentPeriod] are the rows the three queries returned and [dateRanges]
    the period bounds sent with them. *)
Definition getPagePerformanceComparison
  (currentPeriod previousPeriod recentPeriod : list Row)
  (dateRanges : DateRanges) (options : Options) : Revival.ComparisonResult :=
  let minImpressions :=
    match minImpressions options with Some n => n | None => 100%Z end in
  let minClicks := match minClicks options with Some n => n | None => 0%Z end in
  let previousMap := mapOfRows previousPeriod in
  let recentMap := mapOfRows recentPeriod in
  let comparison :=
    map (fun current =>
           let pageUrl := keys0 current in
           let previous := mapGet previousMap pageUrl in
           let recent := mapGet recentMap pageUrl in
           {| page := pageUrl;
              current := metrics current;
              previous := metricsOrNull previous;
              recent := metricsOrNull recent;
              isNew := missing previous |})
        (filter (fun row =>
                   (minImpressions <=? impressions (metrics row))%Z
                   && (minClicks <=? clicks (metrics row))%Z)
                currentPeriod) in
  Revival.Comparison comparison (Some dateRanges).

(** [getPagePerformanceComparison] of the basic client
    ([content-decay-extension/src/utils/api.js]), from the point where the two
    periods are fetched. *)
Definition getPagePerformanceComparisonBasic
  (currentPeriod previousPeriod : list Row) (minImpressions : option Z)
  : list Page :=
  let minImpressions := match minImpressions with Some n => n | None => 100%Z end in
  let previousMap := mapOfRows previousPeriod in
  map (fun current =>
         let pageUrl := keys0 current in
         let previous := mapGet previousMap pageUrl in
         {| page := pageUrl;
            current := metrics current;
            previous := metricsOrNull previous;
            recent := None;
            isNew := missing previous |})
      (filter (fun row => (minImpressions <=? impressions (metrics row))%Z)
              currentPeriod).

(** The [change] of an entry.  The changes of the clicks and of the
    impressions are differences of integers; those of the click-through rate
    and of the position are differences of doubles, rounded as such, the rates
    the API delivers being the doubles nearest to their decimals. *)
Record QueryChange : Type := mkQueryChange {
  d_clicks : Z;
  d_impressions : Z;
  d_ctr : Double.t;
  d_position : Double.t
}.

(** An entry of the query comparison of a page. *)
Record QueryEntry : Type := mkQueryEntry {
  query : string;
  q_current : Metrics;
  q_previous : Metrics;
  q_change : QueryChange;
  q_isNew : bool
}.

(** What [getPageQueryData] returns: an empty array when there are no current
    rows, the sorted queries and the date ranges otherwise. *)
Inductive QueryData : Type :=
  | NoQueryData
  | QueryComparison (queries : list QueryEntry) (dateRanges : DateRanges).

(** The entry [getPageQueryData] makes of a current row. *)
Definition queryEntry (prevMap : RowMap) (curr : Row) : QueryEntry :=
  let query := keys0 curr in
  let prev := mapGet prevMap query in
  let prevClicks := match prev with Some r => clicks (metrics r) | None => 0%Z end in
  let prevImpressions :=
    match prev with Some r => impressions (metrics r) | None => 0%Z end in
  let prevCtr := match prev with Some r => ctr (metrics r) | None => 0 end in
  let prevPosition := match prev with Some r => position (metrics r) | None => 0 end in
  {| query := query;
     q_current := metrics curr;
     q_previous := mkMetrics prevClicks prevImpressions prevCtr prevPosition;
     q_change :=
       {| d_clicks := match prev with
                      | Some _ => clicks (metrics curr) - prevClicks
                      | None => clicks (metrics curr)
                      end;
          d_impressions := match prev with
                           | Some _ => impressions (metrics curr) - prevImpressions
                           | None => impressions (metrics curr)
                           end;
          d_ctr := match prev with
                   | Some _ =>
                       Double.sub (Double.ofQ (ctr (metrics curr)))
                         (Double.ofQ prevCtr)
                   | None => Double.ofQ (ctr (metrics curr))
                   end;
          d_position := match prev with
                        | Some _ =>
                            Double.sub (Double.ofQ (position (metrics curr)))
                              (Double.ofQ prevPosition)
                        | None => Double.ofZ 0
                        end |};
     q_isNew := missing prev |}.

(** The comparator [(a, b) => b.current.clicks - a.current.clicks]. *)
Definition byCurrentClicks (a b : QueryEntry) : Q :=
  inject_Z (clicks (q_current b) - clicks (q_current a)).

(** [getPageQueryData], from the point where the two periods are fetched. *)
Definition getPageQueryData (currentRows previousRows : list Row)
  (dateRange : DateRanges) : QueryData :=
  match currentRows with
  | [] => NoQueryData
  | _ =>
      let prevMap := mapOfRows previousRows in
      let comparison := map (queryEntry prevMap) currentRows in
      QueryComparison (sort byCurrentClicks comparison) dateRange
  end.

(** What a request to the API comes to: an exception with its message, or the
    response body, whose [rows] property may be missing. *)
Inductive Response : Type :=
  | Failed (message : string)
  | Body (rows : option (list Row)).

(** [data.rows || []] in [querySearchAnalytics]. *)
Definition rowsOf (rows : option (list Row)) : list Row :=
  match rows with
  | Some l => l
  | None => []
  end.

(** How [queryAllSearchAnalytics] ends: with all rows, with the exception of a
    request, or not within the given number of requests. *)
Inductive Outcome : Type :=
  | Done (allRows : list Row)
  | Threw (message : string)
  | StillRunning.

Definition rowLimit : nat := Z.to_nat 25000.

(** The loop of [queryAllSearchAnalytics].  [server startRow] is what the API
    answers to the request for the rows from [startRow] on; [fuel] bounds the
    number of requests. *)
Fixpoint queryAllFrom (fuel : nat) (server : nat -> Response) (startRow : nat)
  (allRows : list Row) : Outcome :=
  match fuel with
  | O => StillRunning
  | S fuel' =>
      match server startRow with
      | Failed message => Threw message
      | Body data =>
          let rows := rowsOf data in
          let allRows := (allRows ++ rows)%list in
          if (List.length rows <? rowLimit)%nat then Done allRows
          else queryAllFrom fuel' server (startRow + rowLimit)%nat allRows
      end
  end.

Definition queryAllSearchAnalytics (fuel : nat) (server : nat -> Response) : Outcome :=
  queryAllFrom fuel server 0%nat [].

End Api.

(** ** Daily history *)

Module History.

(** A day of the history of a page: [{date, clicks, impressions}]. *)
Record DataPoint : Type := mkPoint {
  date : string;
  clicks : Z;
  impressions : Z
}.

Record DailyChange : Type := mkDailyChange {
  dc_date : string;
  change : Q
}.

(** A pattern [{type, dates, severity}]. *)
Record Pattern : Type := mkPattern {
  p_type : string;
  p_dates : list string;
  p_severity : string
}.

(** The loop of [identifyDecayPattern] from day [i] on, [prev] being day
    [i - 1]. *)
Fixpoint dailyChangesFrom (prev : DataPoint) (rest : list DataPoint)
  : list DailyChange :=
  match rest with
  | [] => []
  | curr :: rest' =>
      let prevClicks := clicks prev in
      let currClicks := clicks curr in
      ((if (0 <? prevClicks)%Z then
          [{| dc_date := date curr;
              change := ((inject_Z currClicks - inject_Z prevClicks)
                         / inject_Z prevClicks) * 100 |}]
        else [])
       ++ dailyChangesFrom curr rest')%list
  end.

Definition identifyDecayPattern (historicalData : list DataPoint)
  (knownAlgorithmDates : list string) : list Pattern :=
  let dailyChanges :=
    match historicalData with
    | [] => []
    | first :: rest => dailyChangesFrom first rest
    end in
  let significantDrops := filter (fun d => change d <? - (30)) dailyChanges in
  if (0 <? List.length significantDrops)%nat then
    [{| p_type := "sudden_drop";
        p_dates := map dc_date significantDrops;
        p_severity := "high" |}]
  else [].

(** [arr.reduce((sum, d) => sum + d.clicks, 0)]. *)
Definition sumClicks (l : list DataPoint) : Z :=
  fold_left (fun sum d => (sum + clicks d)%Z) l 0%Z.

(** [arr.reduce((a, b) => a + b, 0)]. *)
Definition sumNumbers (l : list Q) : Q :=
  fold_left (fun a b => a + b) l 0.

Record Velocity : Type := mkVelocity {
  firstWeekClicks : Z;
  lastWeekClicks : Z;
  weeklyDecayRate : Double.t;
  totalWeeksAnalyzed : Z
}.

Inductive Trend : Type := insufficient_data | declining | stable | growing.

Section Dated.
(** [new Date(date)] as a number: the time value of a date string. *)
Variable timeOf : string -> Q.

(** The comparator [(a, b) => new Date(a.date) - new Date(b.date)]. *)
Definition byDate (a b : DataPoint) : Q := timeOf (date a) - timeOf (date b).

(** [calculateDecayVelocity(historicalData)]; [None] is [null].  The weekly
    sums are integers; the rate is computed in doubles, so that it is an
    infinity or [NaN] when the first week has no clicks. *)
Definition calculateDecayVelocity (historicalData : list DataPoint)
  : option Velocity :=
  if (List.length historicalData <? 7)%nat then None
  else
    let sorted := sort byDate historicalData in
    let firstWeek := sumClicks (firstn 7 sorted) in
    let lastWeek := sumClicks (skipn (List.length sorted - 7) sorted) in
    let totalWeeks := (Z.of_nat (List.length sorted) / 7)%Z in
    let weeklyDecayRate :=
      if (1 <? totalWeeks)%Z then
        Double.mul
          (Double.div
             (Double.div
                (Double.sub (Double.ofZ lastWeek) (Double.ofZ firstWeek))
                (Double.ofZ firstWeek))
             (Double.ofZ totalWeeks))
          (Double.ofZ 100)
      else Double.ofZ 0 in
    Some {| firstWeekClicks := firstWeek;
            lastWeekClicks := lastWeek;
            weeklyDecayRate :=
              Double.div
                (Double.Math_round (Double.mul weeklyDecayRate (Double.ofZ 10)))
                (Double.ofZ 10);
            totalWeeksAnalyzed := totalWeeks |}.

(** The 7-day moving averages of the clicks: one for every day from the
    seventh on. *)
Definition movingAveragesOf (sorted : list DataPoint) : list Q :=
  map (fun i =>
         let window := firstn 7 (skipn (i - 6) sorted) in
         inject_Z (sumClicks window) / 7)
      (seq 6 (List.length sorted - 6)).

Definition detectDecayTrend (historicalData : list DataPoint) : Trend :=
  if (List.length historicalData <? 14)%nat then insufficient_data
  else
    let sorted := sort byDate historicalData in
    let movingAverages := movingAveragesOf sorted in
    if (List.length movingAverages <? 4)%nat then insufficient_data
    else
      let midpoint := (List.length movingAverages / 2)%nat in
      let firstHalf := firstn midpoint movingAverages in
      let secondHalf := skipn midpoint movingAverages in
      let firstHalfAvg :=
        sumNumbers firstHalf / inject_Z (Z.of_nat (List.length firstHalf)) in
      let secondHalfAvg :=
        sumNumbers secondHalf / inject_Z (Z.of_nat (List.length secondHalf)) in
      if firstHalfAvg =? 0 then insufficient_data
      else
        let changePercent := ((secondHalfAvg - firstHalfAvg) / firstHalfAvg) * 100 in
        if changePercent <? - (15) then declining
        else if 15 <? changePercent then growing
        else stable.

End Dated.

End History.

(** ** The export of the basic analyzer *)

Module BasicExport.
Local Open Scope string_scope.

(** The string a signal is in the source. *)
Definition signal_name (s : Signal) : string :=
  match s with
  | visibility_drop => "visibility_drop"
  | traffic_loss => "traffic_loss"
  | ctr_decline => "ctr_decline"
  | ranking_drop => "ranking_drop"
  | low_ctr_high_imp => "low_ctr_high_imp"
  | velocity_cliff => "velocity_cliff"
  | slow_bleed => "slow_bleed"
  end.

Definition headers : list Revival.Cell :=
  [Revival.Str "URL"; Revival.Str "Severity"; Revival.Str "Decay Score";
   Revival.Str "Clicks Change %"; Revival.Str "Impressions Change %";
   Revival.Str "CTR Change %"; Revival.Str "Position Change";
   Revival.Str "Current Clicks"; Revival.Str "Previous Clicks";
   Revival.Str "Signals"].

Definition csvRow (p : Analyzed Basic.Decay) : list Revival.Cell :=
  [Revival.Str (page (base p));
   Revival.Str (severity_name (Basic.severity (decay p)));
   Revival.Num (Basic.score (decay p));
   Revival.Num (clicksPct (Basic.changes (decay p)));
   Revival.Num (impressionsPct (Basic.changes (decay p)));
   Revival.Num (ctrPct (Basic.changes (decay p)));
   Revival.Num (positionDelta (Basic.changes (decay p)));
   Revival.Num (inject_Z (clicks (current (base p))));
   Revival.Num
     (inject_Z (match previous (base p) with Some m => clicks m | None => 0%Z end));
   Revival.Str (Text.join "; " (map signal_name (Basic.signals (decay p))))].

(** [exportToCSV] of [decay-analyzer.js]; the rows are turned into text as in
    the other export. *)
Definition exportToCSV (analyzedPages : list (Analyzed Basic.Decay)) : string :=
  Text.join (String Text.newline "")
    (map Revival.csvLine (headers :: map csvRow analyzedPages)).

End BasicExport.

(** ** The service worker *)

Module Worker.
Local Open Scope string_scope.

(** A value of [chrome.storage.local]: a cached analysis
    [{timestamp, summary, pages}], or anything else, such as the access
    token. *)
Inductive Stored : Type :=
  | CachedAnalysis (timestamp : Z) (summary : Basic.Summary)
      (pages : list (Analyzed Basic.Decay))
  | Other (value : string).

(** The content of [chrome.storage.local]. *)
Definition Storage : Type := list (string * Stored).

(** [chrome.storage.local.get(key)]. *)
Fixpoint storageGet (s : Storage) (k : string) : option Stored :=
  match s with
  | [] => None
  | (k', v) :: s' => if String.eqb k' k then Some v else storageGet s' k
  end.

(** [chrome.storage.local.remove(key)]. *)
Definition storageRemove (s : Storage) (k : string) : Storage :=
  filter (fun e => negb (String.eqb (fst e) k)) s.

(** [chrome.storage.local.remove(keys)]. *)
Definition storageRemoveAll (s : Storage) (keys : list string) : Storage :=
  fold_left storageRemove keys s.

(** [chrome.storage.local.set({[key]: value})]. *)
Definition storageSet (s : Storage) (k : string) (v : Stored) : Storage :=
  (k, v) :: storageRemove s k.

(** The answers of the handlers: [{success: true, cached, cacheAge?,
    timestamp?, summary, pages}], [{success: false, cached: false}] and
    [{success: false, error}]. *)
Inductive Reply : Type :=
  | Analysis (cached : bool) (cacheAge : option Z) (timestamp : option Z)
      (summary : Basic.Summary) (pages : list (Analyzed Basic.Decay))
  | NotCached
  | Failure (error : string).

(** The answers of [handleExportCSV]. *)
Inductive ExportReply : Type :=
  | Exported (csv : string)
  | ExportFailure (error : string).

(** What the two queries of [getPagePerformanceComparison] come to at the
    API, for a request that carries a token: an exception of [apiRequest] that
    leaves the storage alone (a response that is not OK, a [fetch] that fails),
    with its message; a response with status 401, on which [apiRequest] removes
    the token from the storage before it throws; or the rows of the two
    periods. *)
Inductive Fetched : Type :=
  | FetchFailed (message : string)
  | TokenExpired
  | Periods (currentPeriod previousPeriod : list Api.Row).

(** The options of [handleAnalyzeSite] that matter once the periods are
    fetched. *)
Record Options : Type := mkOptions {
  minImpressions : option Z;
  forceRefresh : option bool
}.

(** 12 hours and 7 days in milliseconds. *)
Definition maxAge : Z := 12 * 60 * 60 * 1000.
Definition maxAgeOld : Z := 7 * 24 * 60 * 60 * 1000.

(** The message of the exception a read of a property of [null] throws. *)
Definition nullReadMessage : string :=
  "Cannot read properties of null (reading 'clicks')".

(** The messages of the exceptions of [apiRequest]. *)
Definition notAuthenticatedMessage : string := "Not authenticated".
Definition tokenExpiredMessage : string := "Token expired. Please sign in again.".

(** [accessToken], as the condition of [apiRequest]: the token is read from
    the storage, and a missing or empty one is falsy. *)
Definition hasAccessToken (s : Storage) : bool :=
  match storageGet s "accessToken" with
  | Some (Other EmptyString) => false
  | Some _ => true
  | None => false
  end.

(** The two queries of [getPagePerformanceComparison], each an [apiRequest]:
    without a token the first request throws before anything is fetched; a
    401 removes [accessToken] and [expiresAt] from the storage.  The result is
    the rows or the message of the exception, and the storage afterwards. *)
Definition fetchPeriods (s : Storage) (fetched : Fetched)
  : (string + list Api.Row * list Api.Row) * Storage :=
  if hasAccessToken s then
    match fetched with
    | FetchFailed message => (inl message, s)
    | TokenExpired =>
        (inl tokenExpiredMessage, storageRemoveAll s ["accessToken"; "expiresAt"])
    | Periods currentPeriod previousPeriod =>
        (inr (currentPeriod, previousPeriod), s)
    end
  else (inl notAuthenticatedMessage, s).

Section Keys.
(** [btoa]: the Base64 encoding of a string.  The characters of a [string]
    have codes below 256, the strings [btoa] is defined on; a site URL with
    other characters is outside the model. *)
Variable btoa : string -> string.

Definition cacheKey (siteUrl : string) : string := "analysis_" ++ btoa siteUrl.

(** [getCachedAnalysis(siteUrl)], reading the storage [s] at time [now]. *)
Definition getCachedAnalysis (s : Storage) (now : Z) (siteUrl : string) : Reply :=
  match storageGet s (cacheKey siteUrl) with
  | Some (CachedAnalysis timestamp summary pages) =>
      let age := (now - timestamp)%Z in
      if (age <? maxAge)%Z then
        Analysis true (Some (JS.Math_round (inject_Z age / 1000 / 60)))
          (Some timestamp) summary pages
      else NotCached
  | _ => NotCached
  end.

(** [handleAnalyzeSite(siteUrl, options)]: the cache is read at time
    [nowCheck]; [fetched] is what the queries come to at the API, and a fresh
    analysis is stored at time [nowStore].  The result is the answer and the
    storage afterwards; an exception is caught and answered with its
    message. *)
Definition handleAnalyzeSite (s : Storage) (siteUrl : string) (options : Options)
  (nowCheck : Z) (fetched : Fetched) (nowStore : Z) : Reply * Storage :=
  let minImpressions :=
    match minImpressions options with Some n => n | None => 50%Z end in
  let forceRefresh :=
    match forceRefresh options with Some b => b | None => false end in
  let fresh :=
    match fetchPeriods s fetched with
    | (inl message, s') => (Failure message, s')
    | (inr (currentPeriod, previousPeriod), s') =>
        let comparison :=
          Api.getPagePerformanceComparisonBasic currentPeriod previousPeriod
            (Some minImpressions) in
        match Basic.analyzeContentDecay comparison with
        | None => (Failure nullReadMessage, s')
        | Some analyzed =>
            let summary := Basic.calculateSiteSummary analyzed in
            (Analysis false None None summary analyzed,
             storageSet s' (cacheKey siteUrl)
               (CachedAnalysis nowStore summary analyzed))
        end
    end in
  if forceRefresh then fresh
  else
    match getCachedAnalysis s nowCheck siteUrl with
    | Analysis true cacheAge timestamp summary pages =>
        (Analysis true cacheAge timestamp summary pages, s)
    | _ => fresh
    end.

(** [handleExportCSV(siteUrl)] at time [now]. *)
Definition handleExportCSV (s : Storage) (now : Z) (siteUrl : string) : ExportReply :=
  match getCachedAnalysis s now siteUrl with
  | Analysis _ _ _ _ pages => Exported (BasicExport.exportToCSV pages)
  | _ => ExportFailure "No analysis data available. Run analysis first."
  end.

(** [handleClearCache(siteUrl)]: [None] is [null]; the empty string is falsy
    as well. *)
Definition handleClearCache (s : Storage) (siteUrl : option string) : Storage :=
  match siteUrl with
  | Some (String c rest) => storageRemove s (cacheKey (String c rest))
  | _ =>
      let cacheKeys := filter (String.prefix "analysis_") (map fst s) in
      storageRemoveAll s cacheKeys
  end.

End Keys.

(** [value.timestamp], as a condition. *)
Definition hasTimestamp (v : Stored) : bool :=
  match v with
  | CachedAnalysis timestamp _ _ => negb (timestamp =? 0)%Z
  | Other _ => false
  end.

Definition timestampOf (v : Stored) : Z :=
  match v with
  | CachedAnalysis timestamp _ _ => timestamp
  | Other _ => 0%Z
  end.

(** [clearOldCache()] at time [now]. *)
Definition clearOldCache (s : Storage) (now : Z) : Storage :=
  let keysToRemove :=
    map fst
      (filter (fun e =>
                 String.prefix "analysis_" (fst e) && hasTimestamp (snd e)
                 && (maxAgeOld <? now - timestampOf (snd e))%Z) s) in
  match keysToRemove with
  | [] => s
  | _ => storageRemoveAll s keysToRemove
  end.

End Worker.

(** * The specification's vocabulary

    The notions the design document states its properties with, written
    independently of the code above. *)

(** [r] is the integer nearest to [x], the upper one when two are. *)
Definition nearest (x : Q) (r : Z) : Prop :=
  inject_Z r - (1 # 2) <= x /\ x < inject_Z r + (1 # 2).

(** What step 1 asks of the change [pct] of one metric. *)
Definition percentChangeRule (current previous pct : Q) : Prop :=
  (previous == 0 -> 0 < current -> pct == 100)
  /\ (previous == 0 -> current == 0 -> pct == 0)
  /\ (~ previous == 0 -> pct == (current - previous) / previous * 100).

(** The trigger conditions of step 4, on the current metrics and on the
    (unrounded) change vector. *)
Definition ghost_town_rule (cur : Metrics) : Prop :=
  clicks cur = 0%Z /\ (impressions cur < 100)%Z.

Definition zombie_rule (cur : Metrics) : Prop :=
  (impressions cur > 1000)%Z /\ ctr cur < 5 # 10.

Definition bleeder_rule (c : Changes) : Prop :=
  clicksPct c < - (10) /\ positionDelta c > - (2).

Definition rank_rot_rule (c : Changes) : Prop := positionDelta c < - (3).

Definition healthy_rule (c : Changes) : Prop := clicksPct c > - (5).

(** "First matching rule wins, in this priority order." *)
Inductive firstMatch (cur : Metrics) (c : Changes) (isCliff : bool)
  : Class.t -> Prop :=
  | match_ghost_town :
      ghost_town_rule cur -> firstMatch cur c isCliff Class.ghost_town
  | match_zombie :
      ~ ghost_town_rule cur -> zombie_rule cur ->
      firstMatch cur c isCliff Class.zombie
  | match_plunge :
      ~ ghost_town_rule cur -> ~ zombie_rule cur -> isCliff = true ->
      firstMatch cur c isCliff Class.plunge
  | match_bleeder :
      ~ ghost_town_rule cur -> ~ zombie_rule cur -> isCliff = false ->
      bleeder_rule c ->
      firstMatch cur c isCliff Class.bleeder
  | match_rank_rot :
      ~ ghost_town_rule cur -> ~ zombie_rule cur -> isCliff = false ->
      ~ bleeder_rule c -> rank_rot_rule c ->
      firstMatch cur c isCliff Class.rank_rot
  | match_healthy :
      ~ ghost_town_rule cur -> ~ zombie_rule cur -> isCliff = false ->
      ~ bleeder_rule c -> ~ rank_rot_rule c -> healthy_rule c ->
      firstMatch cur c isCliff Class.healthy
  | match_decaying :
      ~ ghost_town_rule cur -> ~ zombie_rule cur -> isCliff = false ->
      ~ bleeder_rule c -> ~ rank_rot_rule c -> ~ healthy_rule c ->
      firstMatch cur c isCliff Class.decaying.

(** The severity table of step 5. *)
Definition severityTable : list (Class.t * Severity) :=
  [(Class.plunge, critical); (Class.rank_rot, critical);
   (Class.zombie, warning); (Class.bleeder, warning);
   (Class.ghost_town, monitoring); (Class.decaying, monitoring);
   (Class.healthy, healthy)].

Definition severities : list Severity := [critical; warning; monitoring; healthy].

(** The first end-to-end example, with the click-through rates given either
    as fractions (0.001 and 0.033) or in percent (0.1 and 3.3). *)
Definition zombieExample (inPercent : bool) : Page :=
  {| page := "https://example.com/zombie";
     current := mkMetrics 5 5000 (if inPercent then 1 # 10 else 1 # 1000) 8;
     previous := Some (mkMetrics 200 6000 (if inPercent then 33 # 10 else 33 # 1000) 6);
     recent := None;
     isNew := false |}.

(** A page that had impressions but no clicks in the previous period. *)
Definition firstClicksExample : Page :=
  {| page := "https://example.com/first-clicks";
     current := mkMetrics 7 400 (175 # 10000) 9;
     previous := Some (mkMetrics 0 120 0 14);
     recent := None;
     isNew := false |}.

(** Step 3 as the design states it: the cliff threshold is an option of the
    configuration, -30 unless set. *)
Definition configuredCliffThreshold (o : Revival.Options) : Q :=
  match Revival.cliffThresholdPct o with
  | Some t => t
  | None => - (30)
  end.

Definition velocityChangePct (cur recent : Metrics) : Q :=
  calculatePercentChange (inject_Z (clicks recent) / 7) (inject_Z (clicks cur) / 30).

Definition configuredIsCliff (o : Revival.Options) (cur : Metrics)
  (recent : option Metrics) : bool :=
  match recent with
  | Some r => velocityChangePct cur r <? configuredCliffThreshold o
  | None => false
  end.

(** A caller that asks for a threshold of -50. *)
Definition strictOptions : Revival.Options :=
  {| Revival.weights := None; Revival.cliffThresholdPct := Some (- (50)) |}.

(** 300 clicks in the month and 42 in the last week: the daily rate went from
    10 to 6, a change of -40%. *)
Definition slowdownExample : Page :=
  {| page := "https://example.com/slowdown";
     current := mkMetrics 300 800 (375 # 1000) 4;
     previous := Some (mkMetrics 320 820 (39 # 100) 4);
     recent := Some (mkMetrics 42 110 (38 # 100) 4);
     isNew := false |}.

(** The second end-to-end example; it leaves the rates and the recent position
    open. *)
Definition rankRotExample (ctrCur ctrPrev ctrRecent positionRecent : Q) : Page :=
  {| page := "https://example.com/rank-rot";
     current := mkMetrics 50 500 ctrCur 10;
     previous := Some (mkMetrics 300 2000 ctrPrev 5);
     recent := Some (mkMetrics 20 150 ctrRecent positionRecent);
     isNew := false |}.

(** A page that lost half of its clicks, a quarter of its impressions and five
    positions. *)
Definition lossesExample : Page :=
  {| page := "https://example.com/losses";
     current := mkMetrics 50 750 (1 # 15) 10;
     previous := Some (mkMetrics 100 1000 (1 # 10) 5);
     recent := None;
     isNew := false |}.

(** Step 6 as the design states it: the condition under which a tag is among
    the signals. *)
Definition signalCondition (cur : Metrics) (c : Changes) (isCliff : bool)
  (s : Signal) : Prop :=
  match s with
  | visibility_drop => impressionsPct c < - (20)
  | traffic_loss => clicksPct c < - (30)
  | ctr_decline => ctrPct c < - (15)
  | ranking_drop => positionDelta c < - (3)
  | velocity_cliff => isCliff = true
  | low_ctr_high_imp => zombie_rule cur
  | slow_bleed => False
  end.

(** The number of diagnoses of severity [s] in a list, [sev] reading the
    severity of a diagnosis. *)
Fixpoint countSeverity {D : Type} (sev : D -> Severity) (s : Severity)
  (l : list (Analyzed D)) : Z :=
  match l with
  | [] => 0
  | a :: l' =>
      ((if Severity_eqb (sev (decay a)) s then 1 else 0) + countSeverity sev s l')%Z
  end.

(** [round(part / whole * 100)], in the numbers of the program. *)
Definition roundedPercent (part whole : Z) : Z :=
  Double.toZ
    (Double.Math_round
       (Double.mul (Double.div (Double.ofZ part) (Double.ofZ whole)) (Double.ofZ 100))).

(** The sum of the scores of a list of diagnoses, from the first to the last,
    and their mean. *)
Definition totalScore {D : Type} (sc : D -> Q) (l : list (Analyzed D)) : Double.t :=
  fold_left (fun sum a => Double.add sum (Double.ofQ (sc (decay a)))) l (Double.ofZ 0).

Definition meanScore {D : Type} (sc : D -> Q) (l : list (Analyzed D)) : Double.t :=
  Double.div (totalScore sc l) (Double.ofZ (Z.of_nat (List.length l))).

(** [n] pages of severity [healthy] followed by [k] critical ones. *)
Definition mixedPages (n k : nat) : list (Analyzed Basic.Decay) :=
  let pageOf sev sc :=
    mkAnalyzed (mkPage "https://example.com/" (mkMetrics 10 200 (5 # 100) 4)
                  (Some (mkMetrics 10 200 (5 # 100) 4)) None false)
      (Basic.mkDecay sc sev (mkChanges 0 0 0 0) [] []) in
  (repeat (pageOf healthy 0) n ++ repeat (pageOf critical (401 # 10)) k)%list.

(** Worst first: no element has a higher score than one before it. *)
Definition worstFirst {D : Type} (sc : D -> Q) (l : list (Analyzed D)) : Prop :=
  StronglySorted (fun a b => sc (decay b) <= sc (decay a)) l.

(** The pages of either form of the analyzer's argument. *)
Definition pagesOf (input : Revival.ComparisonResult) : list Page :=
  match input with
  | Revival.PagesOnly ps => ps
  | Revival.Comparison ps _ => ps
  end.

(** ** Reading the export back *)

Module Reader.
Local Open Scope string_scope.

(** Every character of [s] satisfies [ok]. *)
Fixpoint allChars (ok : ascii -> bool) (s : string) : bool :=
  match s with
  | EmptyString => true
  | String c s' => ok c && allChars ok s'
  end.

(** [s] does not contain the character [a]. *)
Definition without (a : ascii) (s : string) : bool :=
  allChars (fun c => negb (Ascii.eqb c a)) s.

(** The characters of a printed number. *)
Definition numberChar (c : ascii) : bool :=
  (let n := Ascii.nat_of_ascii c in (48 <=? n)%nat && (n <=? 57)%nat)
  || Ascii.eqb c "-" || Ascii.eqb c ".".

(** Modelled from the spec: the reader of the quoted CSV is downstream tooling
    that the repository does not contain.  It reads what the spec describes:
    rows separated by line feeds, each row a list of cells separated by commas,
    each cell wrapped in double quotes.  [splitLines] cuts a text at its line
    feeds. *)
Fixpoint splitLines (cur s : string) : list string :=
  match s with
  | EmptyString => [cur]
  | String c s' =>
      if Ascii.eqb c Text.newline then cur :: splitLines "" s'
      else splitLines (cur ++ String c "") s'
  end.

(** Modelled from the spec: the cells of a row after its opening quote.  A
    cell runs up to the next double quote, which wraps it up; after it the row
    ends, or a comma and the opening quote of the next cell follow.  Anything
    else is no row of quoted cells. *)
Fixpoint cells (cur s : string) : option (list string) :=
  match s with
  | EmptyString => None
  | String c s1 =>
      if Ascii.eqb c Text.dquote then
        match s1 with
        | EmptyString => Some [cur]
        | String c2 (String c3 s3) =>
            if Ascii.eqb c2 Text.comma && Ascii.eqb c3 Text.dquote
            then option_map (cons cur) (cells "" s3)
            else None
        | String _ EmptyString => None
        end
      else cells (cur ++ String c "") s1
  end.

(** Modelled from the spec: the cells of a row, which has to open with a
    double quote. *)
Definition parseRow (row : string) : option (list string) :=
  match row with
  | String c s => if Ascii.eqb c Text.dquote then cells "" s else None
  | EmptyString => None
  end.

(** Modelled from the spec: the data rows of a text, which are all rows but
    the header. *)
Definition parseQuotedCSV (text : string) : option (list (list string)) :=
  match mapM parseRow (splitLines "" text) with
  | Some (_ :: rows) => Some rows
  | _ => None
  end.

(** The URL and the severity of a diagnosed page. *)
Definition keyOf (a : Analyzed Revival.Decay) : string * string :=
  (page (base a), severity_name (Revival.severity (decay a))).

(** The columns of the export, in the order of the interface contract. *)
Definition columns (a : Analyzed Revival.Decay) : list string :=
  let d := decay a in
  [page (base a);
   Revival.orElse (Text.join " + " (Revival.symptoms d)) "General Decay";
   severity_name (Revival.severity d);
   Text.Number_toString (Revival.score d);
   Text.Number_toString (clicksPct (Revival.changes d));
   Text.Number_toString (impressionsPct (Revival.changes d));
   Text.Number_toString (ctrPct (Revival.changes d));
   Text.Number_toString (positionDelta (Revival.changes d));
   Text.Number_toString (inject_Z (clicks (current (base a))));
   Text.Number_toString
     (inject_Z (match previous (base a) with Some m => clicks m | None => 0%Z end));
   hd "" (Revival.recommendation d)].

(** A row as text: every cell in double quotes, cells joined by commas. *)
Definition quotedRow (cs : list string) : string :=
  Text.join "," (map Text.quoted cs).

(** The text between the opening quote of a row and its end. *)
Fixpoint rowBody (cs : list string) : string :=
  match cs with
  | [] => ""
  | [c] => c ++ String Text.dquote ""
  | c :: cs' =>
      c ++ String Text.dquote (String Text.comma (String Text.dquote (rowBody cs')))
  end.

(** A page is diagnosed when its [decay] is what [diagnoseDecay] computes for
    it. *)
Definition diagnosed (a : Analyzed Revival.Decay) : Prop :=
  exists w, Revival.diagnoseDecay (base a) w = Some (decay a).

(** A URL the reader gets back: no double quote and no line feed in it. *)
Definition plainUrl (a : Analyzed Revival.Decay) : Prop :=
  without Text.dquote (page (base a)) = true
  /\ without Text.newline (page (base a)) = true.

(** Two pages, and a third one whose URL spells the end of the first page's
    row and the start of the second's. *)
Definition firstPage : Page :=
  {| page := "https://example.com/a";
     current := mkMetrics 50 750 (1 # 15) 10;
     previous := Some (mkMetrics 100 1000 (1 # 10) 5);
     recent := None;
     isNew := false |}.

Definition secondPage : Page :=
  {| page := "https://example.com/b";
     current := mkMetrics 40 400 (1 # 10) 3;
     previous := Some (mkMetrics 41 410 (1 # 10) 3);
     recent := None;
     isNew := false |}.

(** The diagnosed page of a page, as a list: empty when the diagnosis
    fails. *)
Definition diagnose (p : Page) : list (Analyzed Revival.Decay) :=
  match Revival.diagnoseDecay p Revival.defaultWeights with
  | Some d => [mkAnalyzed p d]
  | None => []
  end.

(** The row of the first page without its opening quote, a line feed, a
    double quote and the URL of the second page. *)
Definition spliceUrl : string :=
  match diagnose firstPage with
  | a :: _ =>
      match Revival.csvLine (Revival.csvRow a) with
      | String _ afterQuote =>
          afterQuote ++ String Text.newline (String Text.dquote (page secondPage))
      | EmptyString => ""
      end
  | [] => ""
  end.

Definition splicedPage : Page :=
  {| page := spliceUrl;
     current := current secondPage;
     previous := previous secondPage;
     recent := recent secondPage;
     isNew := isNew secondPage |}.

(** A page that loses a fifth of its clicks and holds its position. *)
Definition bleederPage : Page :=
  {| page := "https://example.com/c";
     current := mkMetrics 80 900 (9 # 100) 5;
     previous := Some (mkMetrics 100 1000 (1 # 10) 5);
     recent := None;
     isNew := false |}.

End Reader.

(** A last cell the reader gets back: read from its first character to the
    closing quote of the row, it is the whole cell. *)
Definition closesRow (c : string) : Prop :=
  Reader.cells "" (c ++ String Text.dquote "") = Some [c].

(** ** Vocabulary of the further properties *)

(** How bad a severity is. *)
Definition severityRank (s : Severity) : Z :=
  match s with
  | healthy => 0
  | monitoring => 1
  | warning => 2
  | critical => 3
  end.

(** No component of a change vector is a decline. *)
Definition noDecline (c : Changes) : Prop :=
  0 <= clicksPct c /\ 0 <= impressionsPct c /\ 0 <= ctrPct c /\ 0 <= positionDelta c.

(** A page whose click-through rate fell by a fifth and nothing else. *)
Definition ctrOnlyExample : Page :=
  {| page := "https://example.com/ctr-only";
     current := mkMetrics 100 1000 (8 # 100) 5;
     previous := Some (mkMetrics 100 1000 (10 # 100) 5);
     recent := None;
     isNew := false |}.

(** The diagnosed pages of a list of comparisons, in the order of the list,
    before they are sorted. *)
Definition basicDiagnoses (ps : list Page) : list (Analyzed Basic.Decay) :=
  flat_map
    (fun p => match previous p with
              | Some prev =>
                  [mkAnalyzed p (Basic.calculateDecayMetrics (current p) prev)]
              | None => []
              end) ps.

Definition revivalDiagnoses (ps : list Page) : list (Analyzed Revival.Decay) :=
  flat_map Reader.diagnose ps.

(** The diagnoses of a list that have the score [k]. *)
Definition withScore {D : Type} (sc : D -> Q) (k : Q) (l : list (Analyzed D))
  : list (Analyzed D) :=
  filter (fun a => sc (decay a) =? k) l.

(** The text of the Diagnosis column of an exported row. *)
Definition diagnosisCell (a : Analyzed Revival.Decay) : string :=
  nth 1 (map Revival.cellText (Revival.csvRow a)) EmptyString.

(** A row qualifies for the comparison: it reaches the thresholds on
    impressions and clicks. *)
Definition qualifies (minImpressions minClicks : Z) (r : Api.Row) : bool :=
  (minImpressions <=? impressions (Api.metrics r))%Z
  && (minClicks <=? clicks (Api.metrics r))%Z.

(** The URL or query [k] has a row in a period. *)
Definition seenIn (period : list Api.Row) (k : string) : bool :=
  existsb (fun r => String.eqb (Api.keys0 r) k) period.

(** The last row of a period for [k]. *)
Definition lastRowOf (period : list Api.Row) (k : string) : option Api.Row :=
  find (fun r => String.eqb (Api.keys0 r) k) (rev period).

(** The thresholds an options object stands for. *)
Definition impressionsThreshold (o : Api.Options) : Z :=
  match Api.minImpressions o with Some n => n | None => 100%Z end.

Definition clicksThreshold (o : Api.Options) : Z :=
  match Api.minClicks o with Some n => n | None => 0%Z end.

(** An API that holds the rows [data] and answers a request with the next
    [Api.rowLimit] of them, leaving [rows] out when none is left. *)
Definition serve (data : list Api.Row) (startRow : nat) : Api.Response :=
  match firstn Api.rowLimit (skipn startRow data) with
  | [] => Api.Body None
  | rows => Api.Body (Some rows)
  end.

(** Sample rows. *)
Definition sampleRow (k : string) (c i : Z) : Api.Row :=
  Api.mkRow k (mkMetrics c i (1 # 10) 4).

Definition sampleRanges : DateRanges :=
  {| currentRange := mkDateRange "2024-03-01" "2024-03-31";
     previousRange := mkDateRange "2024-01-31" "2024-03-01" |}.

(** What holds of every entry of a query comparison: the current clicks and
    impressions are the previous value plus the change; for a query that is
    not new the changes of the click-through rate and of the position are the
    current value minus the previous one, subtracted as doubles; a new query
    has zero previous metrics, its current values as changes and no change of
    position. *)
Definition entryInvariant (e : Api.QueryEntry) : Prop :=
  clicks (Api.q_current e)
  = (clicks (Api.q_previous e) + Api.d_clicks (Api.q_change e))%Z
  /\ impressions (Api.q_current e)
     = (impressions (Api.q_previous e) + Api.d_impressions (Api.q_change e))%Z
  /\ (Api.q_isNew e = false ->
      Api.d_ctr (Api.q_change e)
      = Double.sub (Double.ofQ (ctr (Api.q_current e)))
          (Double.ofQ (ctr (Api.q_previous e)))
      /\ Api.d_position (Api.q_change e)
         = Double.sub (Double.ofQ (position (Api.q_current e)))
             (Double.ofQ (position (Api.q_previous e))))
  /\ (Api.q_isNew e = true ->
      Api.q_previous e = mkMetrics 0 0 0 0
      /\ Api.d_clicks (Api.q_change e) = clicks (Api.q_current e)
      /\ Api.d_impressions (Api.q_change e) = impressions (Api.q_current e)
      /\ Api.d_ctr (Api.q_change e) = Double.ofQ (ctr (Api.q_current e))
      /\ Api.d_position (Api.q_change e) = Double.ofZ 0).

(** The previous metrics of a query: those of the last row of the previous
    period for it, zeros when there is none. *)
Definition previousOf (previousRows : list Api.Row) (q : string) : Metrics :=
  match lastRowOf previousRows q with
  | Some x => Api.metrics x
  | None => mkMetrics 0 0 0 0
  end.

(** An API whose every answer is a full page. *)
Definition alwaysFull (server : nat -> Api.Response) : Prop :=
  forall startRow, exists rows,
    server startRow = Api.Body (Some rows)
    /\ (Api.rowLimit <= List.length rows)%nat.

(** The days of a history on which the clicks fell below 70% of the clicks of
    the day before, that day having had clicks: counted from the second entry
    on, in the order of the list. *)
Fixpoint suddenDropsFrom (prev : History.DataPoint) (rest : list History.DataPoint)
  : list string :=
  match rest with
  | [] => []
  | curr :: rest' =>
      ((if (0 <? History.clicks prev)%Z
           && (10 * History.clicks curr <? 7 * History.clicks prev)%Z
        then [History.date curr] else [])
       ++ suddenDropsFrom curr rest')%list
  end.

Definition suddenDrops (data : list History.DataPoint) : list string :=
  match data with
  | [] => []
  | first :: rest => suddenDropsFrom first rest
  end.

(** No day of a history has less than 70% of the clicks of the day before. *)
Fixpoint steadyFrom (prev : History.DataPoint) (rest : list History.DataPoint) : Prop :=
  match rest with
  | [] => True
  | curr :: rest' =>
      (7 * History.clicks prev <= 10 * History.clicks curr)%Z /\ steadyFrom curr rest'
  end.

Definition steady (data : list History.DataPoint) : Prop :=
  match data with
  | [] => True
  | first :: rest => steadyFrom first rest
  end.

(** A history of [n] days with [c] clicks each, dated by their number. *)
Definition flatHistory (n : nat) (c : Z) : list History.DataPoint :=
  map (fun i => History.mkPoint (Text.natToString (Z.of_nat i)) c (10 * c)) (seq 1 n).

(** The weekly rate of change between the clicks of the first and of the last
    week, in percent and rounded to one decimal, in the numbers of the
    program. *)
Definition weeklyRate (firstWeek lastWeek weeks : Z) : Double.t :=
  Double.round1
    (Double.mul
       (Double.div
          (Double.div (Double.sub (Double.ofZ lastWeek) (Double.ofZ firstWeek))
             (Double.ofZ firstWeek))
          (Double.ofZ weeks))
       (Double.ofZ 100)).

(** Fourteen days in order: 40 clicks in the first week, 29 in the second. *)
Definition fadingHistory : list History.DataPoint :=
  map (fun dc => History.mkPoint (fst dc) (snd dc) (10 * snd dc))
    [("2024-03-01", 6); ("2024-03-02", 6); ("2024-03-03", 6); ("2024-03-04", 6);
     ("2024-03-05", 6); ("2024-03-06", 5); ("2024-03-07", 5); ("2024-03-08", 5);
     ("2024-03-09", 4); ("2024-03-10", 4); ("2024-03-11", 4); ("2024-03-12", 4);
     ("2024-03-13", 4); ("2024-03-14", 4)]%Z%string.

(** A stand-in for the clock: the time value of a date is its length. *)
Definition lengthClock (s : string) : Q := inject_Z (Z.of_nat (String.length s)).

(** Every key of a storage occurs once. *)
Definition wellFormed (s : Worker.Storage) : Prop := NoDup (map fst s).

(** An entry of the cache that [clearOldCache] removes at time [now]. *)
Definition outdated (now : Z) (k : string) (v : Worker.Stored) : bool :=
  String.prefix "analysis_" k && Worker.hasTimestamp v
  && (Worker.maxAgeOld <? now - Worker.timestampOf v)%Z.

(** A stand-in for Base64 in examples: every string is its own code. *)
Definition plainKey (s : string) : string := s.

(** A storage that holds an access token. *)
Definition tokenOnly : Worker.Storage := [("accessToken"%string, Worker.Other "ya29.token")].

(** The cells of a row of the basic export, as text. *)
Definition basicColumns (a : Analyzed Basic.Decay) : list string :=
  map Revival.cellText (BasicExport.csvRow a).

(** A text without double quote and without line feed. *)
Definition plainText (s : string) : Prop :=
  Reader.without Text.dquote s = true /\ Reader.without Text.newline s = true.

(** * Properties *)

(** ** Numbers *)

Section NumberFacts.

Lemma ltb_lt (a b : Q) : (a <? b) = true <-> a < b.
Proof.
  unfold JS.ltb. rewrite negb_true_iff. split; intro H.
  - apply Qnot_le_lt. intro Hle. apply Qle_bool_iff in Hle. congruence.
  - destruct (Qle_bool b a) eqn:E; [|reflexivity].
    apply Qle_bool_iff in E. exfalso. exact (Qlt_not_le _ _ H E).
Qed.

Lemma ltb_ge (a b : Q) : (a <? b) = false <-> b <= a.
Proof.
  unfold JS.ltb. rewrite negb_false_iff. apply Qle_bool_iff.
Qed.

Lemma ltbP (a b : Q) : reflect (a < b) (a <? b).
Proof.
  destruct (a <? b) eqn:E; constructor.
  - now apply ltb_lt.
  - apply ltb_ge in E. now apply Qle_not_lt.
Qed.

Lemma eqbP (a b : Q) : reflect (a == b) (a =? b).
Proof.
  unfold JS.eqb. destruct (Qeq_bool a b) eqn:E; constructor.
  - now apply Qeq_bool_iff.
  - now apply Qeq_bool_neq.
Qed.

Lemma ltb_inject_Z (a b : Z) : (inject_Z a <? inject_Z b) = (a <? b)%Z.
Proof.
  destruct (ltbP (inject_Z a) (inject_Z b)) as [H|H];
    destruct (Z.ltb_spec a b) as [H'|H']; try reflexivity.
  - rewrite <- Zlt_Qlt in H. lia.
  - exfalso. apply H. now rewrite <- Zlt_Qlt.
Qed.

Lemma eqb_inject_Z (a b : Z) : (inject_Z a =? inject_Z b) = (a =? b)%Z.
Proof.
  destruct (eqbP (inject_Z a) (inject_Z b)) as [H|H];
    destruct (Z.eqb_spec a b) as [H'|H']; try reflexivity.
  - unfold Qeq in H. simpl in H. lia.
  - subst. exfalso. apply H. reflexivity.
Qed.

#[export] Instance ltb_compat : Proper (Qeq ==> Qeq ==> eq) JS.ltb.
Proof.
  intros a a' Ha b b' Hb.
  destruct (ltbP a b) as [H|H]; destruct (ltbP a' b') as [H'|H']; try reflexivity.
  - rewrite Ha, Hb in H. contradiction.
  - rewrite <- Ha, <- Hb in H'. contradiction.
Qed.

#[export] Instance eqb_compat : Proper (Qeq ==> Qeq ==> eq) JS.eqb.
Proof.
  intros a a' Ha b b' Hb.
  destruct (eqbP a b) as [H|H]; destruct (eqbP a' b') as [H'|H']; try reflexivity.
  - rewrite Ha, Hb in H. contradiction.
  - rewrite <- Ha, <- Hb in H'. contradiction.
Qed.

#[export] Instance Math_round_compat : Proper (Qeq ==> eq) JS.Math_round.
Proof.
  intros x y H. unfold JS.Math_round. now rewrite H.
Qed.

#[export] Instance round1_compat : Proper (Qeq ==> Qeq) JS.round1.
Proof.
  intros x y H. unfold JS.round1. now rewrite H.
Qed.

Lemma Math_round_nearest (x : Q) : nearest x (JS.Math_round x).
Proof.
  unfold nearest, JS.Math_round.
  pose proof (Qfloor_le (x + (1 # 2))) as Hlo.
  pose proof (Qlt_floor (x + (1 # 2))) as Hhi.
  rewrite inject_Z_plus in Hhi. change (inject_Z 1) with 1 in Hhi.
  set (r := inject_Z (Qfloor (x + (1 # 2)))) in *. split; lra.
Qed.

Lemma nearest_unique (x : Q) (r r' : Z) : nearest x r -> nearest x r' -> r = r'.
Proof.
  intros [H1 H2] [H1' H2'].
  assert (inject_Z r < inject_Z r' + 1) as A by lra.
  assert (inject_Z r' < inject_Z r + 1) as B by lra.
  change 1 with (inject_Z 1) in A, B.
  rewrite <- inject_Z_plus, <- Zlt_Qlt in A, B. lia.
Qed.

Lemma Math_round_inject_Z (z : Z) : JS.Math_round (inject_Z z) = z.
Proof.
  apply (nearest_unique (inject_Z z)); [apply Math_round_nearest|].
  unfold nearest. split; lra.
Qed.

Lemma Math_round_nonpos (x : Q) : x <= 0 -> (JS.Math_round x <= 0)%Z.
Proof.
  intros Hx. destruct (Math_round_nearest x) as [Hlo _].
  assert (inject_Z (JS.Math_round x) < inject_Z 1) as A
    by (change (inject_Z 1) with 1; lra).
  rewrite <- Zlt_Qlt in A. lia.
Qed.

Lemma Math_max_spec (a b : Q) :
  (a < b /\ JS.Math_max a b = b) \/ (b <= a /\ JS.Math_max a b = a).
Proof.
  unfold JS.Math_max. destruct (ltbP a b) as [H|H]; [left|right]; split; auto.
  now apply Qnot_lt_le.
Qed.

Lemma round1_inject_Z (z : Z) : JS.round1 (inject_Z z) == inject_Z z.
Proof.
  unfold JS.round1.
  assert (inject_Z z * 10 == inject_Z (z * 10)) as E
    by (rewrite inject_Z_mult; reflexivity).
  rewrite E, Math_round_inject_Z, inject_Z_mult. field.
Qed.

End NumberFacts.

(** ** Doubles *)

Section DoubleFacts.
Local Open Scope Z_scope.

Lemma digits2_pos_bound (p : positive) :
  2 ^ (Zpos (digits2_pos p) - 1) <= Zpos p < 2 ^ Zpos (digits2_pos p).
Proof.
  induction p as [p IH|p IH|]; cbn [digits2_pos]; [| |cbn; lia];
    rewrite Pos2Z.inj_succ;
    replace (Z.succ (Zpos (digits2_pos p)) - 1) with (Z.succ (Zpos (digits2_pos p) - 1))
      by lia;
    rewrite !Z.pow_succ_r by lia; lia.
Qed.

Lemma shr_1_m (mrs : shr_record) :
  0 <= shr_m mrs -> shr_m (shr_1 mrs) = Z.div2 (shr_m mrs).
Proof.
  destruct mrs as [m r s]. cbn [shr_m]. intros H.
  destruct m as [|p|p]; [reflexivity | destruct p; reflexivity | lia].
Qed.

Lemma iter_pos_shr_m (k : positive) :
  forall mrs : shr_record,
    0 <= shr_m mrs ->
    shr_m (iter_pos shr_1 k mrs) = Z.shiftr (shr_m mrs) (Zpos k).
Proof.
  induction k as [k IH|k IH|]; intros mrs H; cbn [iter_pos].
  - assert (0 <= shr_m (shr_1 mrs)) as H1
      by (rewrite shr_1_m by exact H; rewrite Z.div2_spec; now apply Z.shiftr_nonneg).
    assert (0 <= shr_m (iter_pos shr_1 k (shr_1 mrs))) as H2
      by (rewrite IH by exact H1; now apply Z.shiftr_nonneg).
    rewrite IH by exact H2. rewrite IH by exact H1. rewrite shr_1_m by exact H.
    rewrite Z.div2_spec, !Z.shiftr_shiftr by lia. f_equal. lia.
  - assert (0 <= shr_m (iter_pos shr_1 k mrs)) as H2
      by (rewrite IH by exact H; now apply Z.shiftr_nonneg).
    rewrite IH by exact H2. rewrite IH by exact H.
    rewrite Z.shiftr_shiftr by lia. f_equal. lia.
  - rewrite shr_1_m by exact H. now rewrite Z.div2_spec.
Qed.

Lemma shr_record_of_loc_m (m : Z) (l : location) : shr_m (shr_record_of_loc m l) = m.
Proof. destruct l as [|[ | | ]]; reflexivity. Qed.

Lemma shr_fexp_pos (m e : Z) (l : location) :
  0 < m -> emin Double.prec Double.emax <= e ->
  0 < shr_m (fst (shr_fexp Double.prec Double.emax m e l))
  /\ emin Double.prec Double.emax <= snd (shr_fexp Double.prec Double.emax m e l).
Proof.
  intros Hm He. unfold shr_fexp, shr.
  destruct m as [|p|p]; try lia. cbn [Zdigits2].
  pose proof (digits2_pos_bound p) as [Hlo _].
  set (d := Zpos (digits2_pos p)) in *.
  destruct (fexp Double.prec Double.emax (d + e) - e) as [|k|k] eqn:En;
    cbn [fst snd]; rewrite ?shr_record_of_loc_m; try (split; lia).
  unfold fexp in En. rewrite iter_pos_shr_m by (rewrite shr_record_of_loc_m; lia).
  rewrite shr_record_of_loc_m.
  assert (Zpos k = d - Double.prec) as Hk by lia.
  unfold Double.prec in Hk. split; [|lia].
  rewrite Z.shiftr_div_pow2 by lia.
  apply Z.lt_le_trans with 1; [lia|].
  apply Z.div_le_lower_bound; [apply Z.pow_pos_nonneg; lia|].
  rewrite Z.mul_1_r. apply Z.le_trans with (2 ^ (d - 1)); [|exact Hlo].
  apply Z.pow_le_mono_r; lia.
Qed.

Lemma round_nearest_even_ge (m : Z) (l : location) : m <= round_nearest_even m l.
Proof.
  destruct l as [|[ | | ]]; cbn [round_nearest_even]; try lia.
  destruct (Z.even m); lia.
Qed.

(** Rounding a positive number that is not below the smallest double gives a
    finite number or the infinity of its sign. *)
Lemma binary_round_aux_pos (sx : bool) (m e : Z) (l : location) :
  0 < m -> emin Double.prec Double.emax <= e ->
  (exists m' e', binary_round_aux Double.prec Double.emax sx m e l = S754_finite sx m' e')
  \/ binary_round_aux Double.prec Double.emax sx m e l = S754_infinity sx.
Proof.
  intros Hm He. unfold binary_round_aux.
  destruct (shr_fexp_pos m e l Hm He) as [H1 H2].
  destruct (shr_fexp Double.prec Double.emax m e l) as [mrs' e'].
  cbn [fst snd] in H1, H2.
  pose proof (round_nearest_even_ge (shr_m mrs') (loc_of_shr_record mrs')) as Hr.
  set (m1 := round_nearest_even (shr_m mrs') (loc_of_shr_record mrs')) in *.
  assert (0 < m1) as Hm1 by lia.
  destruct (shr_fexp_pos m1 e' loc_Exact Hm1 H2) as [H3 _].
  destruct (shr_fexp Double.prec Double.emax m1 e' loc_Exact) as [mrs'' e''].
  cbn [fst] in H3.
  destruct (shr_m mrs'') as [|q|q]; try lia.
  destruct (e'' <=? Double.emax - Double.prec); [left; eauto | now right].
Qed.

Lemma shl_align_exponent (p : positive) (e e' : Z) :
  snd (shl_align p e e') = Z.min e e'.
Proof.
  unfold shl_align. destruct (e' - e) eqn:E; cbn [snd]; lia.
Qed.

(** A non-zero integer becomes a finite double or the infinity of its sign. *)
Lemma ofZ_nonzero (z : Z) :
  z <> 0 ->
  (exists m e, Double.ofZ z = S754_finite (z <? 0) m e)
  \/ Double.ofZ z = S754_infinity (z <? 0).
Proof.
  intros Hz. unfold Double.ofZ, binary_normalize.
  destruct z as [|p|p]; [contradiction| |];
    unfold binary_round;
    pose proof (shl_align_exponent p 0
                  (fexp Double.prec Double.emax (Zpos (digits2_pos p) + 0))) as Hs;
    destruct (shl_align p 0 (fexp Double.prec Double.emax (Zpos (digits2_pos p) + 0)))
      as [mz ez];
    cbn [snd] in Hs;
    apply binary_round_aux_pos; try lia;
    subst ez; unfold fexp, emin, Double.prec, Double.emax; lia.
Qed.
Lemma shr_fexp_id (m e : Z) (l : location) :
  fexp Double.prec Double.emax (Zdigits2 m + e) <= e ->
  shr_fexp Double.prec Double.emax m e l = (shr_record_of_loc m l, e).
Proof.
  intros H. unfold shr_fexp, shr.
  destruct (fexp Double.prec Double.emax (Zdigits2 m + e) - e) eqn:E;
    [reflexivity | lia | reflexivity].
Qed.

(** A mantissa that needs no rounding is kept. *)
Lemma binary_round_aux_exact (sx : bool) (p : positive) (e : Z) :
  fexp Double.prec Double.emax (Zpos (digits2_pos p) + e) <= e ->
  e <= Double.emax - Double.prec ->
  binary_round_aux Double.prec Double.emax sx (Zpos p) e loc_Exact
  = S754_finite sx p e.
Proof.
  intros H1 H2. unfold binary_round_aux.
  rewrite shr_fexp_id by exact H1. cbn [shr_record_of_loc shr_m loc_of_shr_record
                                        round_nearest_even].
  rewrite shr_fexp_id by exact H1. cbn [shr_record_of_loc shr_m].
  now apply Z.leb_le in H2 as ->.
Qed.

Lemma digits2_pos_iter (p k : positive) :
  digits2_pos (Pos.iter xO p k) = (digits2_pos p + k)%positive.
Proof.
  induction k as [|k IH] using Pos.peano_ind.
  - cbn. lia.
  - rewrite Pos.iter_succ. cbn [digits2_pos]. rewrite IH. lia.
Qed.

(** An integer below [2^53] is a finite double. *)
Lemma ofZ_small (z : Z) :
  0 < z < 2 ^ 53 -> exists m e, Double.ofZ z = S754_finite false m e.
Proof.
  intros [Hpos Hlt]. destruct z as [|p|p]; try lia.
  pose proof (digits2_pos_bound p) as [Hlo _].
  assert (Zpos (digits2_pos p) <= 53) as Hd.
  { destruct (Z_le_gt_dec (Zpos (digits2_pos p)) 53) as [H|H]; [exact H|].
    assert (2 ^ 53 <= 2 ^ (Zpos (digits2_pos p) - 1))
      by (apply Z.pow_le_mono_r; lia).
    lia. }
  unfold Double.ofZ, binary_normalize, binary_round.
  replace (fexp Double.prec Double.emax (Zpos (digits2_pos p) + 0))
    with (Zpos (digits2_pos p) - 53)
    by (unfold fexp, emin, Double.prec, Double.emax; lia).
  unfold shl_align.
  destruct (Zpos (digits2_pos p) - 53 - 0) as [|k|k] eqn:E; try lia.
  - eexists. eexists. apply binary_round_aux_exact;
      unfold fexp, emin, Double.prec, Double.emax; lia.
  - eexists. eexists. apply binary_round_aux_exact;
      rewrite ?digits2_pos_iter;
      unfold fexp, emin, Double.prec, Double.emax; lia.
Qed.

Lemma ofZ_positive (z : Z) :
  0 < z ->
  (exists m e, Double.ofZ z = S754_finite false m e)
  \/ Double.ofZ z = S754_infinity false.
Proof.
  intros Hz. replace false with (z <? 0) by (apply Z.ltb_ge; lia).
  apply ofZ_nonzero. lia.
Qed.

End DoubleFacts.

(** ** Percent change *)

Lemma calculatePercentChange_rule (c p : Q) :
  percentChangeRule c p (calculatePercentChange c p).
Proof.
  unfold percentChangeRule, calculatePercentChange.
  destruct (eqbP p 0) as [Hp|Hp]; destruct (ltbP 0 c) as [Hc|Hc];
    repeat split; intros; try reflexivity; try contradiction.
  exfalso. rewrite H0 in Hc. exact (Qlt_irrefl 0 Hc).
Qed.

#[export] Instance calculatePercentChange_compat :
  Proper (Qeq ==> Qeq ==> Qeq) calculatePercentChange.
Proof.
  intros c c' Hc p p' Hp. unfold calculatePercentChange.
  rewrite <- Hp, <- Hc.
  destruct (eqbP p 0) as [H|H]; [reflexivity|].
  rewrite Hc. rewrite Hp at 1 2. reflexivity.
Qed.

Lemma round1_100 : JS.round1 100 == 100.
Proof. exact (round1_inject_Z 100). Qed.

Lemma round1_0 : JS.round1 0 == 0.
Proof. exact (round1_inject_Z 0). Qed.

(** The rounded change of a metric whose previous value is zero. *)
Lemma reported_zero_previous (c p : Q) :
  p == 0 ->
  (0 < c -> JS.round1 (calculatePercentChange c p) == 100)
  /\ (c == 0 -> JS.round1 (calculatePercentChange c p) == 0).
Proof.
  intros Hp. destruct (calculatePercentChange_rule c p) as (H1 & H2 & _).
  split; intros Hc.
  - rewrite (H1 Hp Hc). apply round1_100.
  - rewrite (H2 Hp Hc). apply round1_0.
Qed.

(** ** What [diagnoseDecay] returns *)

Lemma diagnoseDecay_previous (p : Page) (prev : Metrics) (w : Revival.Weights) :
  previous p = Some prev ->
  exists d,
    Revival.diagnoseDecay p w = Some d
    /\ Revival.score d = Revival.revivalScore (current p)
    /\ Revival.decayClass d =
         Revival.t_class
           (Revival.classify (current p) (standardDeltas (current p) prev)
              (Revival.isCliff (current p) (recent p)))
    /\ Revival.signals d =
         Revival.t_signals
           (Revival.classify (current p) (standardDeltas (current p) prev)
              (Revival.isCliff (current p) (recent p)))
    /\ Revival.severity d = Revival.severityMap (Revival.decayClass d)
    /\ Revival.changes d = roundChanges (standardDeltas (current p) prev).
Proof.
  intros Hprev. unfold Revival.diagnoseDecay. rewrite Hprev.
  eexists. split; [reflexivity|]. cbn. repeat split; reflexivity.
Qed.

Lemma diagnoseDecay_null (p : Page) (w : Revival.Weights) :
  previous p = None -> Revival.diagnoseDecay p w = None.
Proof.
  intros Hprev. unfold Revival.diagnoseDecay. now rewrite Hprev.
Qed.

(** C4. [calculatePercentChange] returns 100 for a positive current value over
    a zero previous value, 0 for zero over zero, and
    [(current - previous) / previous * 100] otherwise; the three changes of a
    page obey this rule, clicks, impressions and ctr alike, and the change a
    diagnosis reports for clicks (rounded to one decimal) is 100, respectively
    0, when the previous clicks are zero. *)
Theorem percent_change_zero_previous :
  forall (p : Page) (prev : Metrics) (w : Revival.Weights),
    previous p = Some prev ->
    let cur := current p in
    let raw := standardDeltas cur prev in
    (forall x y : Q, percentChangeRule x y (calculatePercentChange x y))
    /\ percentChangeRule (inject_Z (clicks cur)) (inject_Z (clicks prev)) (clicksPct raw)
    /\ percentChangeRule (inject_Z (impressions cur)) (inject_Z (impressions prev))
         (impressionsPct raw)
    /\ percentChangeRule (ctr cur) (ctr prev) (ctrPct raw)
    /\ (clicks prev = 0%Z -> (0 < clicks cur)%Z -> clicksPct raw == 100)
    /\ (clicks prev = 0%Z -> clicks cur = 0%Z -> clicksPct raw == 0)
    /\ exists d,
         Revival.diagnoseDecay p w = Some d
         /\ (clicks prev = 0%Z -> (0 < clicks cur)%Z ->
             clicksPct (Revival.changes d) == 100)
         /\ (clicks prev = 0%Z -> clicks cur = 0%Z ->
             clicksPct (Revival.changes d) == 0)
         /\ clicksPct (Revival.changes d) ==
              clicksPct (Basic.changes (Basic.calculateDecayMetrics cur prev)).
Proof.
  intros p prev w Hprev cur raw.
  assert (forall z : Z, (0 < z)%Z -> 0 < inject_Z z) as Hpos
    by (intros z Hz; change 0 with (inject_Z 0); now rewrite <- Zlt_Qlt).
  split; [exact calculatePercentChange_rule|].
  repeat (split; [apply calculatePercentChange_rule|]).
  split; [|split].
  - intros H0 Hc. apply (calculatePercentChange_rule _ _); [rewrite H0; reflexivity|auto].
  - intros H0 Hc. apply (calculatePercentChange_rule _ _);
      [rewrite H0; reflexivity|rewrite Hc; reflexivity].
  - destruct (diagnoseDecay_previous p prev w Hprev) as (d & Hd & _ & _ & _ & _ & Hch).
    exists d. split; [exact Hd|]. rewrite Hch. cbn.
    split; [|split].
    + intros H0 Hc. apply reported_zero_previous; [rewrite H0; reflexivity|auto].
    + intros H0 Hc. apply reported_zero_previous;
        [rewrite H0; reflexivity|fold cur; rewrite Hc; reflexivity].
    + reflexivity.
Qed.

(** ** The revival score *)

Lemma revivalScore_nonneg (cur : Metrics) : 0 <= Revival.revivalScore cur.
Proof.
  unfold Revival.revivalScore.
  destruct (Math_max_spec 0
              (inject_Z (JS.Math_round
                 (inject_Z (impressions cur) * Revival.idealCtr - inject_Z (clicks cur)))))
    as [[H E]|[H E]]; rewrite E; [now apply Qlt_le_weak | apply Qle_refl].
Qed.

Lemma revivalScore_max (cur : Metrics) :
  Revival.revivalScore cur ==
  inject_Z (Z.max 0 (JS.Math_round
     (inject_Z (impressions cur) * (20 # 100) - inject_Z (clicks cur)))).
Proof.
  unfold Revival.revivalScore, Revival.idealCtr.
  set (r := JS.Math_round _).
  destruct (Math_max_spec 0 (inject_Z r)) as [[H E]|[H E]]; rewrite E.
  - change 0 with (inject_Z 0) in H. rewrite <- Zlt_Qlt in H.
    now rewrite Z.max_r by lia.
  - change 0 with (inject_Z 0) in H. rewrite <- Zle_Qle in H.
    now rewrite Z.max_l by lia.
Qed.

(** C3. The score of a diagnosis is [max(0, round(impressions * 0.20 - clicks))],
    [round] being the nearest integer; it is never negative, and it is 0 when
    the current clicks reach [impressions * 0.20]. *)
Theorem revival_score_formula :
  forall (p : Page) (prev : Metrics) (w : Revival.Weights),
    previous p = Some prev ->
    exists d,
      Revival.diagnoseDecay p w = Some d
      /\ (exists r : Z,
            nearest (inject_Z (impressions (current p)) * (20 # 100)
                     - inject_Z (clicks (current p))) r
            /\ Revival.score d == inject_Z (Z.max 0 r))
      /\ 0 <= Revival.score d
      /\ (inject_Z (impressions (current p)) * (20 # 100)
            <= inject_Z (clicks (current p)) ->
          Revival.score d == 0).
Proof.
  intros p prev w Hprev.
  destruct (diagnoseDecay_previous p prev w Hprev) as (d & Hd & Hs & _).
  exists d. split; [exact Hd|]. rewrite Hs. split; [|split].
  - eexists. split; [apply Math_round_nearest | apply revivalScore_max].
  - apply revivalScore_nonneg.
  - intros Hle. rewrite revivalScore_max.
    rewrite Z.max_l; [reflexivity|].
    apply Math_round_nonpos. lra.
Qed.

(** ** Classification *)

Lemma classify_firstMatch (cur : Metrics) (c : Changes) (cliff : bool) :
  firstMatch cur c cliff (Revival.t_class (Revival.classify cur c cliff)).
Proof.
  unfold Revival.classify.
  destruct (Z.eqb_spec (clicks cur) 0) as [G1|G1];
    destruct (Z.ltb_spec (impressions cur) 100) as [G2|G2]; cbn [andb];
    try (apply match_ghost_town; split; assumption).
  all: assert (~ ghost_town_rule cur) as NG by (intros [? ?]; lia).
  all: destruct (Z.ltb_spec 1000 (impressions cur)) as [Z1|Z1];
    destruct (ltbP (ctr cur) (5 # 10)) as [Z2|Z2]; cbn [andb];
    try (apply match_zombie; [exact NG | split; [lia | exact Z2]]).
  all: assert (~ zombie_rule cur) as NZ
    by (intros [? ?]; first [lia | contradiction]).
  all: destruct cliff; [now apply match_plunge|].
  all: destruct (ltbP (clicksPct c) (- (10))) as [B1|B1];
    destruct (ltbP (- (2)) (positionDelta c)) as [B2|B2]; cbn [andb];
    try (apply match_bleeder; [exact NG | exact NZ | reflexivity | split; assumption]).
  all: assert (~ bleeder_rule c) as NB by (intros [? ?]; contradiction).
  all: destruct (ltbP (positionDelta c) (- (3))) as [R|R];
    [now apply match_rank_rot|].
  all: destruct (ltbP (- (5)) (clicksPct c)) as [Hh|Hh];
    [now apply match_healthy | now apply match_decaying].
Qed.

Lemma firstMatch_functional (cur : Metrics) (c : Changes) (cliff : bool)
  (a b : Class.t) :
  firstMatch cur c cliff a -> firstMatch cur c cliff b -> a = b.
Proof.
  intros Ha Hb. destruct Ha; destruct Hb; try reflexivity;
    try contradiction; congruence.
Qed.

Lemma ghost_town_zombie_disjoint (cur : Metrics) :
  ~ (ghost_town_rule cur /\ zombie_rule cur).
Proof.
  intros [[_ H1] [H2 _]]. lia.
Qed.

(** C1. With [previous] present, [decayClass] is the class of the first rule
    that matches in the order ghost_town, zombie, plunge, bleeder, rank_rot,
    healthy, decaying; the ghost_town and zombie conditions exclude each other
    and the first match is unique, so the class is a function of the input. *)
Theorem classification_priority :
  forall (p : Page) (prev : Metrics) (w : Revival.Weights),
    previous p = Some prev ->
    let cur := current p in
    let c := standardDeltas cur prev in
    let cliff := Revival.isCliff cur (recent p) in
    exists d,
      Revival.diagnoseDecay p w = Some d
      /\ firstMatch cur c cliff (Revival.decayClass d)
      /\ (forall k, firstMatch cur c cliff k -> k = Revival.decayClass d)
      /\ ~ (ghost_town_rule cur /\ zombie_rule cur).
Proof.
  intros p prev w Hprev cur c cliff.
  destruct (diagnoseDecay_previous p prev w Hprev) as (d & Hd & _ & Hc & _).
  exists d. split; [exact Hd|].
  assert (firstMatch cur c cliff (Revival.decayClass d)) as Hm
    by (rewrite Hc; apply classify_firstMatch).
  split; [exact Hm|]. split.
  - intros k Hk. exact (firstMatch_functional _ _ _ _ _ Hk Hm).
  - apply ghost_town_zombie_disjoint.
Qed.

Lemma percent_change_zero_previous_witness :
  previous firstClicksExample = Some (mkMetrics 0 120 0 14)
  /\ clicksPct (standardDeltas (current firstClicksExample) (mkMetrics 0 120 0 14))
     == 100.
Proof.
  split; [reflexivity|].
  destruct (percent_change_zero_previous firstClicksExample (mkMetrics 0 120 0 14)
              Revival.defaultWeights eq_refl) as (_ & _ & _ & _ & H & _).
  apply H; reflexivity.
Defined.

Lemma revival_score_formula_witness :
  previous (zombieExample false) = Some (mkMetrics 200 6000 (33 # 1000) 6)
  /\ exists d,
       Revival.diagnoseDecay (zombieExample false) Revival.defaultWeights = Some d
       /\ 0 <= Revival.score d.
Proof.
  split; [reflexivity|].
  destruct (revival_score_formula (zombieExample false) _ Revival.defaultWeights eq_refl)
    as (d & Hd & _ & H & _).
  exists d. split; [exact Hd | exact H].
Defined.

Lemma classification_priority_witness :
  previous (zombieExample false) = Some (mkMetrics 200 6000 (33 # 1000) 6)
  /\ exists d,
       Revival.diagnoseDecay (zombieExample false) Revival.defaultWeights = Some d
       /\ firstMatch (current (zombieExample false))
            (standardDeltas (current (zombieExample false))
               (mkMetrics 200 6000 (33 # 1000) 6))
            false (Revival.decayClass d).
Proof.
  split; [reflexivity|].
  destruct (classification_priority (zombieExample false) _ Revival.defaultWeights eq_refl)
    as (d & Hd & H & _).
  exists d. split; [exact Hd | exact H].
Defined.

(** ** Severity *)

Lemma severityMap_table (c : Class.t) (s : Severity) :
  In (c, s) severityTable <-> Revival.severityMap c = s.
Proof.
  unfold severityTable. split.
  - intros H. repeat (destruct H as [H|H]; [now inversion H|]). destruct H.
  - intros <-. destruct c; cbn; tauto.
Qed.

Lemma severity_closed (s : Severity) : In s severities.
Proof. destruct s; cbn; tauto. Qed.

(** C7. The severity of a diagnosis is the entry of the fixed table for its
    class: plunge and rank_rot are critical, zombie and bleeder warning,
    ghost_town and decaying monitoring, healthy healthy.  The table has exactly
    one entry for each of the seven classes, so the severity is always one of
    critical, warning, monitoring and healthy. *)
Theorem severity_table :
  forall (p : Page) (prev : Metrics) (w : Revival.Weights),
    previous p = Some prev ->
    exists d,
      Revival.diagnoseDecay p w = Some d
      /\ In (Revival.decayClass d, Revival.severity d) severityTable
      /\ In (Revival.severity d) severities
      /\ (forall c : Class.t,
            In c Class.all
            /\ exists s, In (c, s) severityTable
                         /\ forall s', In (c, s') severityTable -> s' = s)
      /\ map fst severityTable
         = [Class.plunge; Class.rank_rot; Class.zombie; Class.bleeder;
            Class.ghost_town; Class.decaying; Class.healthy]
      /\ map Revival.severityMap (map fst severityTable) = map snd severityTable.
Proof.
  intros p prev w Hprev.
  destruct (diagnoseDecay_previous p prev w Hprev) as (d & Hd & _ & _ & _ & Hs & _).
  exists d. split; [exact Hd|]. split; [|split; [|split; [|split]]].
  - apply severityMap_table. now symmetry.
  - apply severity_closed.
  - intros c. split; [destruct c; cbn; tauto|].
    exists (Revival.severityMap c). split; [now apply severityMap_table|].
    intros s' Hs'. apply severityMap_table in Hs'. now symmetry.
  - reflexivity.
  - reflexivity.
Qed.

Lemma severity_table_witness :
  previous (zombieExample true) = Some (mkMetrics 200 6000 (33 # 10) 6)
  /\ exists d,
       Revival.diagnoseDecay (zombieExample true) Revival.defaultWeights = Some d
       /\ In (Revival.decayClass d, Revival.severity d) severityTable.
Proof.
  split; [reflexivity|].
  destruct (severity_table (zombieExample true) _ Revival.defaultWeights eq_refl)
    as (d & Hd & H & _).
  exists d. split; [exact Hd | exact H].
Defined.

(** ** The first end-to-end example *)

(** C6. For current = (5 clicks, 5000 impressions, ctr 0.1%, position 8) and
    previous = (200, 6000, 3.3%, 6) without recent data, the impressions change
    is -16.66..., reported as -16.7, the clicks change is -97.5, the position
    delta is -2, and the diagnosis is zombie, warning, with score
    [round(5000 * 0.20 - 5) = 995]; this is so whether the rates are given as
    fractions or in percent. *)
Theorem zombie_example :
  forall (w : Revival.Weights) (inPercent : bool),
    let p := zombieExample inPercent in
    exists d,
      Revival.diagnoseDecay p w = Some d
      /\ calculatePercentChange 5000 6000 == - (50 # 3)
      /\ - (167 # 10) - (5 # 100) < calculatePercentChange 5000 6000
      /\ calculatePercentChange 5000 6000 < - (167 # 10) + (5 # 100)
      /\ impressionsPct (Revival.changes d) == - (167 # 10)
      /\ calculatePercentChange 5 200 == - (975 # 10)
      /\ clicksPct (Revival.changes d) == - (975 # 10)
      /\ positionDelta (Revival.changes d) == - (2)
      /\ zombie_rule (current p)
      /\ Revival.decayClass d = Class.zombie
      /\ Revival.severity d = warning
      /\ Revival.score d == 995
      /\ JS.Math_round (5000 * (20 # 100) - 5) = 995%Z.
Proof.
  intros w inPercent p. subst p.
  destruct inPercent; (eexists; split; [reflexivity|]);
    repeat split; vm_compute; try reflexivity; intro; discriminate.
Qed.

(** ** The velocity check *)

Lemma isCliff_recent (cur r : Metrics) :
  Revival.isCliff cur (Some r) = true <-> velocityChangePct cur r < - (30).
Proof.
  unfold Revival.isCliff, Revival.velocityChange, velocityChangePct.
  apply ltb_lt.
Qed.

Lemma classify_no_cliff (cur : Metrics) (c : Changes) :
  Class.eqb (Revival.t_class (Revival.classify cur c false)) Class.plunge = false.
Proof.
  unfold Revival.classify.
  repeat match goal with
         | |- context [if ?b then _ else _] => destruct b
         end; reflexivity.
Qed.

Lemma analyzeContentDecay_options (input : Revival.ComparisonResult)
  (o o' : Revival.Options) :
  Revival.analyzeContentDecay input o = Revival.analyzeContentDecay input o'.
Proof. reflexivity. Qed.

(** C8, as the code has it.  The design's threshold option does not exist: a
    caller asking for -50 still gets a -40% slowdown flagged and classified as
    plunge. *)
Lemma cliff_threshold_is_not_configurable :
  velocityChangePct (current slowdownExample) (mkMetrics 42 110 (38 # 100) 4) == - (40)
  /\ configuredIsCliff strictOptions (current slowdownExample) (recent slowdownExample)
     = false
  /\ Revival.isCliff (current slowdownExample) (recent slowdownExample) = true
  /\ option_map
       (fun r => map (fun a => Revival.decayClass (decay a)) (Revival.pages r))
       (Revival.analyzeContentDecay (Revival.PagesOnly [slowdownExample]) strictOptions)
     = Some [Class.plunge].
Proof.
  repeat split; vm_compute; reflexivity.
Qed.

(** C8 (amended). The velocity check runs only when [recent] is present, on
    [percentChange(recent.clicks / 7, current.clicks / 30)]; [isCliff] is true
    exactly when that change is below the constant -30, whatever the options
    are; without [recent], [isCliff] is false and no page is classified plunge.
    In the second end-to-end example the change is 500/7, about +71%, no cliff,
    and the page is rank_rot with severity critical. *)
Theorem velocity_cliff_check :
  forall (cur r : Metrics),
    (Revival.isCliff cur (Some r) = true <-> velocityChangePct cur r < - (30))
    /\ Revival.isCliff cur None = false
    /\ (forall input o o',
          Revival.analyzeContentDecay input o = Revival.analyzeContentDecay input o')
    /\ (forall p prev w,
          previous p = Some prev -> recent p = None ->
          exists d,
            Revival.diagnoseDecay p w = Some d
            /\ Class.eqb (Revival.decayClass d) Class.plunge = false)
    /\ (forall w ctrCur ctrPrev ctrRecent positionRecent,
          let p := rankRotExample ctrCur ctrPrev ctrRecent positionRecent in
          exists d,
            Revival.diagnoseDecay p w = Some d
            /\ velocityChangePct (current p) (mkMetrics 20 150 ctrRecent positionRecent)
               == 500 # 7
            /\ 71 < 500 # 7 < 72
            /\ Revival.isCliff (current p) (recent p) = false
            /\ positionDelta (Revival.changes d) == - (5)
            /\ Revival.decayClass d = Class.rank_rot
            /\ Revival.severity d = critical).
Proof.
  intros cur r. split; [apply isCliff_recent|]. split; [reflexivity|].
  split; [exact analyzeContentDecay_options|]. split.
  - intros p prev w Hprev Hrec.
    destruct (diagnoseDecay_previous p prev w Hprev) as (d & Hd & _ & Hc & _).
    exists d. split; [exact Hd|]. rewrite Hc, Hrec. cbn [Revival.isCliff].
    apply classify_no_cliff.
  - intros w ctrCur ctrPrev ctrRecent positionRecent p. subst p.
    eexists. split; [reflexivity|].
    repeat split; vm_compute; reflexivity.
Qed.

Lemma velocity_cliff_check_witness :
  previous lossesExample = Some (mkMetrics 100 1000 (1 # 10) 5)
  /\ recent lossesExample = None
  /\ exists d,
       Revival.diagnoseDecay lossesExample Revival.defaultWeights = Some d
       /\ Class.eqb (Revival.decayClass d) Class.plunge = false.
Proof.
  split; [reflexivity|]. split; [reflexivity|].
  destruct (velocity_cliff_check (current lossesExample) (current lossesExample))
    as (_ & _ & _ & H & _).
  exact (H lossesExample _ Revival.defaultWeights eq_refl eq_refl).
Defined.

(** ** Signals *)

Lemma decaySignals_spec (c : Changes) (s : Signal) :
  In s (Basic.decaySignals c) <->
  match s with
  | visibility_drop => impressionsPct c < - (20)
  | traffic_loss => clicksPct c < - (30)
  | ctr_decline => ctrPct c < - (15)
  | ranking_drop => positionDelta c < - (3)
  | _ => False
  end.
Proof.
  unfold Basic.decaySignals.
  destruct (ltbP (impressionsPct c) (- (20)));
    destruct (ltbP (clicksPct c) (- (30)));
    destruct (ltbP (ctrPct c) (- (15)));
    destruct (ltbP (positionDelta c) (- (3)));
    destruct s; cbn; intuition congruence.
Qed.

Lemma classify_signals (cur : Metrics) (c : Changes) (cliff : bool) (s : Signal) :
  let t := Revival.classify cur c cliff in
  In s (Revival.t_signals t) <->
  match s with
  | low_ctr_high_imp => Revival.t_class t = Class.zombie
  | velocity_cliff => Revival.t_class t = Class.plunge
  | slow_bleed => Revival.t_class t = Class.bleeder
  | _ => False
  end.
Proof.
  unfold Revival.classify.
  repeat match goal with
         | |- context [if ?b then _ else _] => destruct b
         end; destruct s; cbn; intuition congruence.
Qed.

Lemma classify_zombie (cur : Metrics) (c : Changes) (cliff : bool) :
  Revival.t_class (Revival.classify cur c cliff) = Class.zombie <-> zombie_rule cur.
Proof.
  pose proof (classify_firstMatch cur c cliff) as Hm. split.
  - intros E. rewrite E in Hm. now inversion Hm.
  - intros Hz. apply (firstMatch_functional cur c cliff); [exact Hm|].
    apply match_zombie; [|exact Hz].
    intros Hg. exact (ghost_town_zombie_disjoint cur (conj Hg Hz)).
Qed.

(** C2, as the code has it.  The page that lost 50% of its clicks and 25% of
    its impressions is classified rank_rot by [diagnoseDecay] and carries no
    signal at all. *)
Lemma revival_signals_follow_the_class :
  clicksPct (standardDeltas (current lossesExample) (mkMetrics 100 1000 (1 # 10) 5))
  == - (50)
  /\ impressionsPct (standardDeltas (current lossesExample) (mkMetrics 100 1000 (1 # 10) 5))
     == - (25)
  /\ option_map (fun d => (Revival.decayClass d, Revival.signals d))
       (Revival.diagnoseDecay lossesExample Revival.defaultWeights)
     = Some (Class.rank_rot, [])
  /\ ~ (forall s,
          signalCondition (current lossesExample)
            (standardDeltas (current lossesExample) (mkMetrics 100 1000 (1 # 10) 5))
            (Revival.isCliff (current lossesExample) (recent lossesExample)) s ->
          exists d,
            Revival.diagnoseDecay lossesExample Revival.defaultWeights = Some d
            /\ In s (Revival.signals d)).
Proof.
  split; [vm_compute; reflexivity|].
  split; [vm_compute; reflexivity|].
  split; [vm_compute; reflexivity|].
  intros H. destruct (H traffic_loss) as (d & Hd & Hin).
  - vm_compute. reflexivity.
  - vm_compute in Hd. inversion Hd; subst d. exact Hin.
Qed.

(** C2 (amended). [calculateDecayMetrics] computes the signals from the change
    vector alone, whatever the severity: visibility_drop iff impressionsPct <
    -20, traffic_loss iff clicksPct < -30, ctr_decline iff ctrPct < -15,
    ranking_drop iff positionDelta < -3, and no other tag; there the page with
    clicksPct = -50 and impressionsPct = -25 carries traffic_loss and
    visibility_drop.  [diagnoseDecay] records the tag of the class it assigned:
    low_ctr_high_imp iff the zombie rule matched, velocity_cliff iff the class
    is plunge, slow_bleed iff the class is bleeder, and none of the four
    threshold tags. *)
Theorem signals_of_the_two_analyzers :
  forall (p : Page) (prev : Metrics) (w : Revival.Weights),
    previous p = Some prev ->
    let cur := current p in
    let c := standardDeltas cur prev in
    let basic := Basic.calculateDecayMetrics cur prev in
    (In visibility_drop (Basic.signals basic) <-> impressionsPct c < - (20))
    /\ (In traffic_loss (Basic.signals basic) <-> clicksPct c < - (30))
    /\ (In ctr_decline (Basic.signals basic) <-> ctrPct c < - (15))
    /\ (In ranking_drop (Basic.signals basic) <-> positionDelta c < - (3))
    /\ (forall s, In s (Basic.signals basic) ->
          In s [visibility_drop; traffic_loss; ctr_decline; ranking_drop])
    /\ (clicksPct c == - (50) -> impressionsPct c == - (25) ->
        In traffic_loss (Basic.signals basic)
        /\ In visibility_drop (Basic.signals basic))
    /\ exists d,
         Revival.diagnoseDecay p w = Some d
         /\ (In low_ctr_high_imp (Revival.signals d) <-> zombie_rule cur)
         /\ (In low_ctr_high_imp (Revival.signals d)
             <-> Revival.decayClass d = Class.zombie)
         /\ (In velocity_cliff (Revival.signals d)
             <-> Revival.decayClass d = Class.plunge)
         /\ (In slow_bleed (Revival.signals d)
             <-> Revival.decayClass d = Class.bleeder)
         /\ (forall s, In s (Revival.signals d) ->
               In s [low_ctr_high_imp; velocity_cliff; slow_bleed]).
Proof.
  intros p prev w Hprev cur c basic.
  change (Basic.signals basic) with (Basic.decaySignals c).
  split; [exact (decaySignals_spec c visibility_drop)|].
  split; [exact (decaySignals_spec c traffic_loss)|].
  split; [exact (decaySignals_spec c ctr_decline)|].
  split; [exact (decaySignals_spec c ranking_drop)|].
  split.
  { intros s Hs. apply decaySignals_spec in Hs. destruct s; cbn; tauto. }
  split.
  { intros Hc Hi. split.
    - apply (decaySignals_spec c traffic_loss). rewrite Hc. reflexivity.
    - apply (decaySignals_spec c visibility_drop). rewrite Hi. reflexivity. }
  destruct (diagnoseDecay_previous p prev w Hprev) as (d & Hd & _ & Hc & Hs & _).
  exists d. split; [exact Hd|]. rewrite Hs, Hc. fold cur c.
  set (cliff := Revival.isCliff cur (recent p)).
  split.
  { rewrite <- (classify_zombie cur c cliff).
    exact (classify_signals cur c cliff low_ctr_high_imp). }
  split; [exact (classify_signals cur c cliff low_ctr_high_imp)|].
  split; [exact (classify_signals cur c cliff velocity_cliff)|].
  split; [exact (classify_signals cur c cliff slow_bleed)|].
  intros s Hin. apply (classify_signals cur c cliff) in Hin.
  destruct s; cbn; tauto.
Qed.

Lemma signals_of_the_two_analyzers_witness :
  previous lossesExample = Some (mkMetrics 100 1000 (1 # 10) 5)
  /\ In traffic_loss
       (Basic.signals
          (Basic.calculateDecayMetrics (current lossesExample)
             (mkMetrics 100 1000 (1 # 10) 5)))
  /\ In visibility_drop
       (Basic.signals
          (Basic.calculateDecayMetrics (current lossesExample)
             (mkMetrics 100 1000 (1 # 10) 5))).
Proof.
  split; [reflexivity|].
  destruct (signals_of_the_two_analyzers lossesExample _ Revival.defaultWeights eq_refl)
    as (_ & _ & _ & _ & _ & H & _).
  apply H; reflexivity.
Defined.

(** ** The site summary *)

Section Counting.
Context {D : Type}.
Variable sev : D -> Severity.

Lemma filter_count (s : Severity) (l : list (Analyzed D)) :
  Z.of_nat (List.length (filter (fun p => Severity_eqb (sev (decay p)) s) l))
  = countSeverity sev s l.
Proof.
  induction l as [|a l IH]; [reflexivity|].
  cbn [filter countSeverity].
  destruct (Severity_eqb (sev (decay a)) s); cbn [List.length]; lia.
Qed.

Lemma counts_partition (l : list (Analyzed D)) :
  (countSeverity sev critical l + countSeverity sev warning l
   + countSeverity sev monitoring l + countSeverity sev healthy l)%Z
  = Z.of_nat (List.length l).
Proof.
  induction l as [|a l IH]; [reflexivity|].
  cbn [countSeverity List.length]. destruct (sev (decay a)); cbn [Severity_eqb]; lia.
Qed.

Lemma count_all_critical (l : list (Analyzed D)) :
  Forall (fun a => sev (decay a) = critical) l ->
  countSeverity sev healthy l = 0%Z /\ countSeverity sev monitoring l = 0%Z.
Proof.
  induction 1 as [|a l Ha _ [IH1 IH2]]; [split; reflexivity|].
  cbn [countSeverity]. rewrite Ha, IH1, IH2. split; reflexivity.
Qed.

End Counting.

Lemma percent_of_nothing (n : Z) : (0 < n)%Z -> roundedPercent 0 n = 0%Z.
Proof.
  intros Hn. unfold roundedPercent.
  destruct (ofZ_positive n Hn) as [(m & e & ->)| ->]; reflexivity.
Qed.

(** The quotient is rounded before it is multiplied: 23 healthy pages of 40
    give 57, where the exact percentage, 57.5, would be rounded to 58. *)
Lemma health_score_rounds_the_double :
  Basic.healthScore (Basic.calculateSiteSummary (mixedPages 23 17)) = 57%Z
  /\ roundedPercent 23 40 = 57%Z
  /\ JS.Math_round (inject_Z 23 / inject_Z 40 * 100) = 58%Z.
Proof. repeat split; vm_compute; reflexivity. Qed.

(** C5. On a non-empty list the summary counts the pages of each severity, the
    four counts adding up to [totalPages], the length of the list;
    [healthScore = round((healthyCount + monitoringCount) / totalPages * 100)]
    and the average score is [round(mean(score) * 10) / 10], the quotients,
    products and sums being those of the program's numbers, doubles.  On the
    empty list [healthScore] is 100 and [totalPages] and the four counts are 0.
    On a list of critical pages [healthScore] is 0.  Both analyzers agree on
    this. *)
Theorem site_summary :
  forall (a : Analyzed Revival.Decay) (l : list (Analyzed Revival.Decay))
         (b : Analyzed Basic.Decay) (m : list (Analyzed Basic.Decay)),
    let s := Revival.calculateSiteSummary (a :: l) in
    let e := Revival.calculateSiteSummary [] in
    let s' := Basic.calculateSiteSummary (b :: m) in
    let e' := Basic.calculateSiteSummary [] in
    (Revival.totalPages s = Z.of_nat (List.length (a :: l))
     /\ Revival.criticalCount s = countSeverity Revival.severity critical (a :: l)
     /\ Revival.warningCount s = countSeverity Revival.severity warning (a :: l)
     /\ Revival.monitoringCount s = countSeverity Revival.severity monitoring (a :: l)
     /\ Revival.healthyCount s = countSeverity Revival.severity healthy (a :: l)
     /\ (Revival.criticalCount s + Revival.warningCount s
         + Revival.monitoringCount s + Revival.healthyCount s)%Z
        = Revival.totalPages s
     /\ Revival.healthScore s
        = roundedPercent (Revival.healthyCount s + Revival.monitoringCount s)
            (Revival.totalPages s)
     /\ Revival.avgDecayScore s
        = Double.div
            (Double.Math_round
               (Double.mul (meanScore Revival.score (a :: l)) (Double.ofZ 10)))
            (Double.ofZ 10)
     /\ (Forall (fun x => Revival.severity (decay x) = critical) (a :: l) ->
         Revival.healthScore s = 0%Z))
    /\ (Revival.healthScore e = 100%Z
        /\ Revival.totalPages e = 0%Z
        /\ Revival.criticalCount e = 0%Z /\ Revival.warningCount e = 0%Z
        /\ Revival.monitoringCount e = 0%Z /\ Revival.healthyCount e = 0%Z)
    /\ (Basic.totalPages s' = Z.of_nat (List.length (b :: m))
        /\ Basic.criticalCount s' = countSeverity Basic.severity critical (b :: m)
        /\ Basic.warningCount s' = countSeverity Basic.severity warning (b :: m)
        /\ Basic.monitoringCount s' = countSeverity Basic.severity monitoring (b :: m)
        /\ Basic.healthyCount s' = countSeverity Basic.severity healthy (b :: m)
        /\ (Basic.criticalCount s' + Basic.warningCount s'
            + Basic.monitoringCount s' + Basic.healthyCount s')%Z
           = Basic.totalPages s'
        /\ Basic.healthScore s'
           = roundedPercent (Basic.healthyCount s' + Basic.monitoringCount s')
               (Basic.totalPages s')
        /\ Basic.avgDecayScore s'
           = Double.div
               (Double.Math_round
                  (Double.mul (meanScore Basic.score (b :: m)) (Double.ofZ 10)))
               (Double.ofZ 10)
        /\ (Forall (fun x => Basic.severity (decay x) = critical) (b :: m) ->
            Basic.healthScore s' = 0%Z))
    /\ (Basic.healthScore e' = 100%Z
        /\ Basic.totalPages e' = 0%Z
        /\ Basic.criticalCount e' = 0%Z /\ Basic.warningCount e' = 0%Z
        /\ Basic.monitoringCount e' = 0%Z /\ Basic.healthyCount e' = 0%Z).
Proof.
  intros a l b m s e s' e'.
  split; [|split; [repeat split|split; [|repeat split]]].
  - subst s. unfold Revival.calculateSiteSummary.
    replace (Revival.len (a :: l) =? 0)%Z with false
      by (symmetry; apply Z.eqb_neq; unfold Revival.len; cbn [List.length]; lia).
    cbn [Revival.totalPages Revival.criticalCount Revival.warningCount
         Revival.monitoringCount Revival.healthyCount Revival.healthScore
         Revival.avgDecayScore Revival.groupByDecaySeverity
         Revival.criticalPages Revival.warningPages Revival.monitoringPages
         Revival.healthyPages].
    unfold Revival.len. rewrite !(filter_count Revival.severity).
    split; [reflexivity|]. repeat (split; [reflexivity|]).
    split; [apply counts_partition|]. split; [reflexivity|].
    split; [reflexivity|].
    intros Hall. destruct (count_all_critical Revival.severity _ Hall) as [-> ->].
    apply percent_of_nothing. cbn [List.length]. lia.
  - subst s'. unfold Basic.calculateSiteSummary.
    replace (Basic.len (b :: m) =? 0)%Z with false
      by (symmetry; apply Z.eqb_neq; unfold Basic.len; cbn [List.length]; lia).
    cbn [Basic.totalPages Basic.criticalCount Basic.warningCount
         Basic.monitoringCount Basic.healthyCount Basic.healthScore
         Basic.avgDecayScore Basic.groupByDecaySeverity
         Basic.criticalPages Basic.warningPages Basic.monitoringPages
         Basic.healthyPages].
    unfold Basic.len. rewrite !(filter_count Basic.severity).
    split; [reflexivity|]. repeat (split; [reflexivity|]).
    split; [apply counts_partition|]. split; [reflexivity|].
    split; [reflexivity|].
    intros Hall. destruct (count_all_critical Basic.severity _ Hall) as [-> ->].
    apply percent_of_nothing. cbn [List.length]. lia.
Qed.

Lemma site_summary_witness :
  let pages := (Reader.diagnose lossesExample ++ Reader.diagnose lossesExample)%list in
  Forall (fun x => Revival.severity (decay x) = critical) pages
  /\ Revival.healthScore (Revival.calculateSiteSummary pages) = 0%Z.
Proof.
  intros pages. subst pages.
  let l := eval vm_compute in (Reader.diagnose lossesExample) in
  match l with
  | [?a] => change (Reader.diagnose lossesExample) with [a]; pose (x := a)
  end.
  fold x. cbn [List.app].
  assert (Forall (fun a => Revival.severity (decay a) = critical) [x; x]) as Hall
    by (repeat constructor).
  split; [exact Hall|].
  pose (b := mkAnalyzed lossesExample
               (Basic.calculateDecayMetrics (current lossesExample)
                  (mkMetrics 100 1000 (1 # 10) 5))).
  destruct (site_summary x [x] b []) as ((_ & _ & _ & _ & _ & _ & _ & _ & H) & _).
  exact (H Hall).
Defined.

(** ** Sorting, filtering and mapping *)

Section SortFacts.
Context {A : Type}.
Variable key : A -> Q.

(** The comparator [(a, b) => key(b) - key(a)]. *)
Let cmp (a b : A) : Q := key b - key a.

Lemma insertSorted_perm (x : A) (l : list A) :
  Permutation (insertSorted cmp x l) (x :: l).
Proof.
  induction l as [|y l IH]; cbn [insertSorted]; [reflexivity|].
  destruct (0 <? cmp x y); [|reflexivity].
  rewrite IH. apply perm_swap.
Qed.

Lemma sort_perm (l : list A) : Permutation (sort cmp l) l.
Proof.
  induction l as [|x l IH]; cbn [sort fold_right]; [reflexivity|].
  fold (sort cmp l). rewrite insertSorted_perm. now constructor.
Qed.

Lemma insertSorted_descending (x : A) (l : list A) :
  StronglySorted (fun a b => key b <= key a) l ->
  StronglySorted (fun a b => key b <= key a) (insertSorted cmp x l).
Proof.
  induction 1 as [|y l Hs IH Hy]; cbn [insertSorted].
  - constructor; constructor.
  - destruct (ltbP 0 (cmp x y)) as [Hlt|Hge]; unfold cmp in *.
    + constructor; [exact IH|].
      apply (Permutation_Forall (x := x :: l)).
      * symmetry. apply insertSorted_perm.
      * constructor; [lra | exact Hy].
    + constructor; [constructor; assumption|].
      constructor; [lra|].
      apply (Forall_impl (P := fun b => key b <= key y)); [|exact Hy].
      intros b Hb. cbn beta in *. lra.
Qed.

Lemma sort_descending (l : list A) :
  StronglySorted (fun a b => key b <= key a) (sort cmp l).
Proof.
  induction l as [|x l IH]; cbn [sort fold_right]; [constructor|].
  apply insertSorted_descending. exact IH.
Qed.

End SortFacts.

Section MapFacts.
Context {A B : Type}.
Variable f : A -> option B.

Lemma mapM_total (l : list A) :
  Forall (fun x => exists y, f x = Some y) l ->
  exists ys, mapM f l = Some ys /\ Forall2 (fun x y => f x = Some y) l ys.
Proof.
  induction 1 as [|x l [y Hy] _ (ys & Hys & IH)]; cbn [mapM].
  - exists []. split; [reflexivity | constructor].
  - exists (y :: ys). rewrite Hy, Hys. split; [reflexivity|].
    constructor; assumption.
Qed.

End MapFacts.

Lemma filter_hasPrevious (ps : list Page) :
  Forall (fun p => exists prev, previous p = Some prev) (filter hasPrevious ps).
Proof.
  apply Forall_forall. intros p Hin. apply filter_In in Hin as [_ H].
  unfold hasPrevious in H. destruct (previous p) as [prev|]; [eauto|discriminate].
Qed.

Lemma annotated_bases {D : Type} (diag : Page -> option D) (l : list Page)
  (ys : list (Analyzed D)) :
  Forall2 (fun p y => match diag p with
                      | Some d => Some (mkAnalyzed p d)
                      | None => None
                      end = Some y) l ys ->
  map base ys = l /\ Forall (fun y => diag (base y) = Some (decay y)) ys.
Proof.
  induction 1 as [|p y l ys Hy _ [IH1 IH2]]; [split; [reflexivity|constructor]|].
  destruct (diag p) as [d|] eqn:E; [|discriminate].
  inversion Hy; subst y. cbn [map base]. rewrite IH1. split; [reflexivity|].
  constructor; [exact E | exact IH2].
Qed.

(** ** The analysis *)

Lemma revival_analysis (input : Revival.ComparisonResult) (o : Revival.Options) :
  exists out,
    Revival.analyzeContentDecay input o = Some out
    /\ Permutation (map base (Revival.pages out)) (filter hasPrevious (pagesOf input))
    /\ Forall (fun a => forall w, Revival.diagnoseDecay (base a) w = Some (decay a))
         (Revival.pages out)
    /\ worstFirst Revival.score (Revival.pages out).
Proof.
  unfold Revival.analyzeContentDecay. fold (pagesOf input).
  set (w := match Revival.weights o with
            | Some w => w
            | None => Revival.defaultWeights
            end).
  destruct (mapM_total
              (fun page => match Revival.diagnoseDecay page w with
                           | Some diagnosis => Some (mkAnalyzed page diagnosis)
                           | None => None
                           end)
              (filter hasPrevious (pagesOf input))) as (ys & Hys & H2).
  { eapply Forall_impl; [|apply filter_hasPrevious].
    intros p [prev Hp].
    destruct (diagnoseDecay_previous p prev w Hp) as (d & Hd & _).
    rewrite Hd. eauto. }
  rewrite Hys. eexists. split; [reflexivity|].
  cbn [Revival.pages].
  apply (annotated_bases (fun p => Revival.diagnoseDecay p w)) in H2 as [Hb Hd].
  pose proof (sort_perm (fun a => Revival.score (decay a)) ys) as Hperm.
  change (Permutation (sort Revival.byScore ys) ys) in Hperm.
  split; [|split].
  - rewrite <- Hb. now apply Permutation_map.
  - apply (Permutation_Forall (x := ys)); [now symmetry|].
    eapply Forall_impl; [|exact Hd]. intros a Ha w'. exact Ha.
  - exact (sort_descending (fun a => Revival.score (decay a)) ys).
Qed.

Lemma basic_analysis (ps : list Page) :
  exists out,
    Basic.analyzeContentDecay ps = Some out
    /\ Permutation (map base out) (filter hasPrevious ps)
    /\ Forall (fun a => exists prev,
                 previous (base a) = Some prev
                 /\ decay a = Basic.calculateDecayMetrics (current (base a)) prev) out
    /\ worstFirst Basic.score out.
Proof.
  unfold Basic.analyzeContentDecay.
  set (diag := fun page : Page =>
                 match previous page with
                 | Some prev => Some (Basic.calculateDecayMetrics (current page) prev)
                 | None => None
                 end).
  destruct (mapM_total
              (fun page =>
                 match previous page with
                 | Some prev =>
                     Some (mkAnalyzed page
                             (Basic.calculateDecayMetrics (current page) prev))
                 | None => None
                 end)
              (filter hasPrevious ps)) as (ys & Hys & H2).
  { eapply Forall_impl; [|apply filter_hasPrevious].
    intros p [prev Hp]. rewrite Hp. eauto. }
  rewrite Hys. eexists. split; [reflexivity|].
  assert (Forall2 (fun p y => match diag p with
                              | Some d => Some (mkAnalyzed p d)
                              | None => None
                              end = Some y) (filter hasPrevious ps) ys) as H2'.
  { eapply Forall2_impl; [|exact H2].
    intros p y Hy. unfold diag. cbn beta in Hy.
    destruct (previous p); exact Hy. }
  clear H2. rename H2' into H2.
  apply (annotated_bases diag) in H2 as [Hb Hd].
  pose proof (sort_perm (fun a => Basic.score (decay a)) ys) as Hperm.
  change (Permutation (sort Basic.byScore ys) ys) in Hperm.
  split; [|split].
  - rewrite <- Hb. now apply Permutation_map.
  - apply (Permutation_Forall (x := ys)); [now symmetry|].
    eapply Forall_impl; [|exact Hd]. intros a Ha. unfold diag in Ha.
    destruct (previous (base a)) as [prev|]; [|discriminate].
    exists prev. split; [reflexivity|]. now inversion Ha.
  - exact (sort_descending (fun a => Basic.score (decay a)) ys).
Qed.

(** C10. The analysis returns, up to order, exactly the input entries whose
    [previous] is present, each unchanged and paired with the diagnosis computed
    from it, and the result is sorted by score in non-increasing order.  This
    holds for both analyzers, and the analysis never fails. *)
Theorem analysis_filters_and_sorts :
  forall (input : Revival.ComparisonResult) (o : Revival.Options) (ps : list Page),
    (exists out,
       Revival.analyzeContentDecay input o = Some out
       /\ Permutation (map base (Revival.pages out))
            (filter hasPrevious (pagesOf input))
       /\ Forall (fun a => hasPrevious (base a) = true) (Revival.pages out)
       /\ Forall (fun a => forall w, Revival.diagnoseDecay (base a) w = Some (decay a))
            (Revival.pages out)
       /\ worstFirst Revival.score (Revival.pages out))
    /\ (exists out,
          Basic.analyzeContentDecay ps = Some out
          /\ Permutation (map base out) (filter hasPrevious ps)
          /\ Forall (fun a => hasPrevious (base a) = true) out
          /\ Forall (fun a => exists prev,
                       previous (base a) = Some prev
                       /\ decay a = Basic.calculateDecayMetrics (current (base a)) prev)
               out
          /\ worstFirst Basic.score out).
Proof.
  intros input o ps.
  assert (forall (D : Type) (l : list (Analyzed D)) (qs : list Page),
             Permutation (map base l) (filter hasPrevious qs) ->
             Forall (fun a => hasPrevious (base a) = true) l) as Hex.
  { intros D l qs Hperm. apply Forall_forall. intros a Ha.
    assert (In (base a) (filter hasPrevious qs)) as Hin
      by (eapply Permutation_in; [exact Hperm | now apply in_map]).
    now apply filter_In in Hin. }
  split.
  - destruct (revival_analysis input o) as (out & H1 & H2 & H3 & H4).
    exists out. repeat split; try assumption. exact (Hex _ _ _ H2).
  - destruct (basic_analysis ps) as (out & H1 & H2 & H3 & H4).
    exists out. repeat split; try assumption. exact (Hex _ _ _ H2).
Qed.

(** ** Strings *)

Section StringFacts.
Local Open Scope string_scope.

Lemma append_assoc (a b c : string) : (a ++ b) ++ c = a ++ b ++ c.
Proof.
  induction a as [|x a IH]; cbn; [reflexivity|]. now rewrite IH.
Qed.

Lemma append_nil_r (a : string) : a ++ "" = a.
Proof.
  induction a as [|x a IH]; cbn; [reflexivity|]. now rewrite IH.
Qed.

Lemma allChars_app (ok : ascii -> bool) (a b : string) :
  Reader.allChars ok (a ++ b) = Reader.allChars ok a && Reader.allChars ok b.
Proof.
  induction a as [|x a IH]; cbn; [reflexivity|].
  now rewrite IH, andb_assoc.
Qed.

Lemma allChars_impl (ok ok' : ascii -> bool) (s : string) :
  (forall c, ok c = true -> ok' c = true) ->
  Reader.allChars ok s = true -> Reader.allChars ok' s = true.
Proof.
  intros Himp. induction s as [|x s IH]; cbn; [reflexivity|].
  rewrite !andb_true_iff. intros [Hx Hs]. split; auto.
Qed.

Lemma numberChar_without (a : ascii) (s : string) :
  Reader.numberChar a = false ->
  Reader.allChars Reader.numberChar s = true -> Reader.without a s = true.
Proof.
  intros Ha. apply allChars_impl. intros c Hc.
  destruct (Ascii.eqb_spec c a) as [->|_]; [congruence | reflexivity].
Qed.

Lemma digit_numberChar (d : Z) :
  (0 <= d < 10)%Z -> Reader.numberChar (Text.digit d) = true.
Proof.
  intros Hd.
  assert (d = 0 \/ d = 1 \/ d = 2 \/ d = 3 \/ d = 4 \/ d = 5 \/ d = 6 \/ d = 7
          \/ d = 8 \/ d = 9)%Z as H by lia.
  repeat (destruct H as [->|H]; [reflexivity|]). subst d. reflexivity.
Qed.

Lemma digitsOf_chars (fuel : nat) :
  forall (n : Z) (acc : string),
    Reader.allChars Reader.numberChar acc = true ->
    Reader.allChars Reader.numberChar (Text.digitsOf fuel n acc) = true.
Proof.
  induction fuel as [|fuel IH]; intros n acc Hacc; cbn [Text.digitsOf]; [exact Hacc|].
  assert (Reader.allChars Reader.numberChar (String (Text.digit (n mod 10)) acc) = true)
    as Hacc'.
  { cbn [Reader.allChars]. rewrite Hacc, andb_true_r.
    apply digit_numberChar. apply Z.mod_pos_bound. lia. }
  destruct (n / 10 =? 0)%Z; [exact Hacc' | now apply IH].
Qed.

Lemma Number_toString_chars (x : Q) :
  Reader.allChars Reader.numberChar (Text.Number_toString x) = true.
Proof.
  unfold Text.Number_toString. cbv zeta. rewrite !allChars_app.
  repeat (apply andb_true_iff; split).
  - destruct (_ <? 0)%Z; reflexivity.
  - apply digitsOf_chars. reflexivity.
  - destruct (_ =? 0)%Z; [reflexivity|].
    cbn [Reader.allChars]. rewrite andb_true_r. cbn [andb].
    apply digit_numberChar. apply Z.mod_pos_bound. lia.
Qed.

Lemma Number_toString_plain (x : Q) :
  Reader.without Text.dquote (Text.Number_toString x) = true
  /\ Reader.without Text.newline (Text.Number_toString x) = true.
Proof.
  split; (apply numberChar_without; [reflexivity | apply Number_toString_chars]).
Qed.

Lemma severity_name_plain (s : Severity) :
  Reader.without Text.dquote (severity_name s) = true
  /\ Reader.without Text.newline (severity_name s) = true.
Proof. destruct s; split; reflexivity. Qed.

(** *** Lines *)

Lemma splitLines_line (l : string) :
  forall cur rest,
    Reader.without Text.newline l = true ->
    Reader.splitLines cur (l ++ String Text.newline rest)
    = (cur ++ l) :: Reader.splitLines "" rest.
Proof.
  induction l as [|c l IH]; intros cur rest Hl.
  - cbn. now rewrite append_nil_r.
  - unfold Reader.without in *. cbn [Reader.allChars] in Hl.
    apply andb_true_iff in Hl as [Hc Hl]. apply negb_true_iff in Hc.
    cbn [append Reader.splitLines]. rewrite Hc, IH by exact Hl.
    now rewrite append_assoc.
Qed.

Lemma splitLines_last (l : string) :
  forall cur,
    Reader.without Text.newline l = true -> Reader.splitLines cur l = [cur ++ l].
Proof.
  induction l as [|c l IH]; intros cur Hl.
  - cbn. now rewrite append_nil_r.
  - unfold Reader.without in *. cbn [Reader.allChars] in Hl.
    apply andb_true_iff in Hl as [Hc Hl]. apply negb_true_iff in Hc.
    cbn [Reader.splitLines]. rewrite Hc, IH by exact Hl.
    now rewrite append_assoc.
Qed.

Lemma splitLines_join (l : string) (ls : list string) :
  Forall (fun l => Reader.without Text.newline l = true) (l :: ls) ->
  Reader.splitLines "" (Text.join (String Text.newline "") (l :: ls)) = l :: ls.
Proof.
  revert l. induction ls as [|l' ls IH]; intros l Hall.
  - cbn [Text.join]. apply splitLines_last. now inversion Hall.
  - inversion Hall as [|? ? Hl Hrest]; subst.
    change (Text.join (String Text.newline "") (l :: l' :: ls))
      with (l ++ String Text.newline (Text.join (String Text.newline "") (l' :: ls))).
    rewrite splitLines_line by exact Hl. cbn [append]. f_equal. now apply IH.
Qed.

End StringFacts.

(** ** Rows *)

Section ReaderFacts.
Local Open Scope string_scope.

Lemma cells_cell (u : string) :
  forall cur rest,
    Reader.without Text.dquote u = true ->
    Reader.cells cur
      (u ++ String Text.dquote (String Text.comma (String Text.dquote rest)))
    = option_map (cons (cur ++ u)) (Reader.cells "" rest).
Proof.
  induction u as [|c u IH]; intros cur rest Hu.
  - rewrite append_nil_r. reflexivity.
  - unfold Reader.without in *. cbn [Reader.allChars] in Hu.
    apply andb_true_iff in Hu as [Hc Hu]. apply negb_true_iff in Hc.
    cbn [append]. cbn [Reader.cells]. rewrite Hc.
    rewrite IH by exact Hu. now rewrite append_assoc.
Qed.

Lemma cells_end (u : string) :
  forall cur,
    Reader.without Text.dquote u = true ->
    Reader.cells cur (u ++ String Text.dquote "") = Some [cur ++ u].
Proof.
  induction u as [|c u IH]; intros cur Hu.
  - rewrite append_nil_r. reflexivity.
  - unfold Reader.without in *. cbn [Reader.allChars] in Hu.
    apply andb_true_iff in Hu as [Hc Hu]. apply negb_true_iff in Hc.
    cbn [append]. cbn [Reader.cells]. rewrite Hc.
    rewrite IH by exact Hu. now rewrite append_assoc.
Qed.

Lemma quotedRow_body (c : string) (cs : list string) :
  Reader.quotedRow (c :: cs) = String Text.dquote (Reader.rowBody (c :: cs)).
Proof.
  revert c. induction cs as [|c' cs IH]; intros c; [reflexivity|].
  change (Reader.quotedRow (c :: c' :: cs))
    with (Text.quoted c ++ "," ++ Reader.quotedRow (c' :: cs)).
  rewrite IH. unfold Text.quoted. cbn [append]. rewrite append_assoc. reflexivity.
Qed.

Lemma cells_rowBody (cs : list string) (last : string) :
  Forall (fun c => Reader.without Text.dquote c = true) cs ->
  closesRow last ->
  Reader.cells "" (Reader.rowBody (cs ++ [last])) = Some (cs ++ [last])%list.
Proof.
  intros Hcs Hlast. induction Hcs as [|c cs Hc _ IH]; [exact Hlast|].
  cbn [List.app]. destruct (cs ++ [last])%list as [|x l] eqn:E.
  - now destruct cs.
  - change (Reader.rowBody (c :: x :: l))
      with (c ++ String Text.dquote
                   (String Text.comma (String Text.dquote (Reader.rowBody (x :: l))))).
    rewrite cells_cell by exact Hc. now rewrite IH.
Qed.

Lemma parseRow_quotedRow (cs : list string) (last : string) :
  Forall (fun c => Reader.without Text.dquote c = true) cs ->
  closesRow last ->
  Reader.parseRow (Reader.quotedRow (cs ++ [last])) = Some (cs ++ [last])%list.
Proof.
  intros Hcs Hlast.
  destruct (cs ++ [last])%list as [|x l] eqn:E; [now destruct cs|].
  rewrite quotedRow_body. cbn [Reader.parseRow].
  replace (Ascii.eqb Text.dquote Text.dquote) with true by reflexivity.
  rewrite <- E. now apply cells_rowBody.
Qed.

Lemma quotedRow_chars (ok : ascii -> bool) (cs : list string) :
  ok Text.dquote = true -> ok Text.comma = true ->
  Forall (fun c => Reader.allChars ok c = true) cs ->
  Reader.allChars ok (Reader.quotedRow cs) = true.
Proof.
  intros Hq Hc Hcs. induction Hcs as [|c cs Hok Hrest IH]; [reflexivity|].
  assert (Reader.allChars ok (Text.quoted c) = true) as Hqc.
  { unfold Text.quoted. cbn [Reader.allChars]. rewrite allChars_app, Hq, Hok.
    cbn [Reader.allChars]. rewrite Hq. reflexivity. }
  destruct cs as [|c' cs]; [exact Hqc|].
  change (Reader.quotedRow (c :: c' :: cs))
    with (Text.quoted c ++ "," ++ Reader.quotedRow (c' :: cs)).
  rewrite !allChars_app, Hqc, IH. cbn [Reader.allChars andb].
  replace (ok ","%char) with true by (symmetry; exact Hc). reflexivity.
Qed.

Lemma orElse_empty (s : string) : Revival.orElse s "" = s.
Proof. now destruct s. Qed.

Lemma csvLine_columns (a : Analyzed Revival.Decay) :
  Revival.csvLine (Revival.csvRow a) = Reader.quotedRow (Reader.columns a).
Proof.
  unfold Revival.csvLine, Revival.csvRow, Reader.quotedRow, Reader.columns.
  cbn [map Revival.cellText]. now rewrite orElse_empty.
Qed.

Lemma exportToCSV_rows (pages : list (Analyzed Revival.Decay)) :
  Revival.exportToCSV pages
  = Text.join (String Text.newline "")
      (Reader.quotedRow (map Revival.cellText Revival.headers)
       :: map (fun a => Reader.quotedRow (Reader.columns a)) pages).
Proof.
  unfold Revival.exportToCSV. cbn [map]. f_equal. f_equal.
  rewrite map_map. apply map_ext. exact csvLine_columns.
Qed.

Lemma diagnose_diagnosed (p : Page) : Forall Reader.diagnosed (Reader.diagnose p).
Proof.
  unfold Reader.diagnose.
  destruct (Revival.diagnoseDecay p Revival.defaultWeights) as [d|] eqn:E;
    constructor; [|constructor].
  exists Revival.defaultWeights. exact E.
Qed.

End ReaderFacts.

(** ** The export *)

(** The export escapes nothing.  Two diagnosed pages and one diagnosed page
    whose URL contains double quotes and a line feed are exported to the same
    text, so that no reader at all gets the URLs and severities of both
    back. *)
Lemma csv_cells_are_not_escaped :
  Revival.exportToCSV (Reader.diagnose Reader.firstPage ++ Reader.diagnose Reader.secondPage)
  = Revival.exportToCSV (Reader.diagnose Reader.splicedPage)
  /\ List.length (Reader.diagnose Reader.firstPage ++ Reader.diagnose Reader.secondPage) = 2%nat
  /\ List.length (Reader.diagnose Reader.splicedPage) = 1%nat
  /\ ~ (exists parse : string -> list (string * string),
          forall pages,
            Forall Reader.diagnosed pages ->
            parse (Revival.exportToCSV pages) = map Reader.keyOf pages).
Proof.
  assert (Revival.exportToCSV
            (Reader.diagnose Reader.firstPage ++ Reader.diagnose Reader.secondPage)
          = Revival.exportToCSV (Reader.diagnose Reader.splicedPage)) as Hsame
    by (vm_compute; reflexivity).
  split; [exact Hsame|]. split; [reflexivity|]. split; [reflexivity|].
  intros [parse Hparse].
  pose proof (Hparse _ (diagnose_diagnosed Reader.splicedPage)) as H1.
  assert (Forall Reader.diagnosed
            (Reader.diagnose Reader.firstPage ++ Reader.diagnose Reader.secondPage))
    as Hboth by (apply Forall_app; split; apply diagnose_diagnosed).
  pose proof (Hparse _ Hboth) as H2.
  rewrite Hsame, H1 in H2. apply (f_equal (@List.length _)) in H2.
  rewrite !length_map in H2. vm_compute in H2. discriminate H2.
Qed.

(** C9, at a page on which the code breaks the round trip.  The page has a
    plain URL and is diagnosed a bleeder of severity warning.  Its export is
    the header row and one row of the eleven cells in the order of the
    contract, every cell wrapped in double quotes; but the top recommendation
    of a bleeder contains double quotes, which are written as they are, so
    that the row is no row of quoted cells: reading the export back yields no
    rows at all, where the claim promises one row with the URL and the
    severity of the page. *)
Theorem csv_export_does_not_escape :
  let pages := Reader.diagnose Reader.bleederPage in
  Forall Reader.diagnosed pages
  /\ Forall Reader.plainUrl pages
  /\ map Reader.keyOf pages = [("https://example.com/c", "warning")]%string
  /\ map (fun a => Revival.decayClass (decay a)) pages = [Class.bleeder]
  /\ map (fun a =>
            Reader.without Text.dquote (hd EmptyString (Revival.recommendation (decay a))))
       pages = [false]
  /\ Revival.exportToCSV pages
     = Text.join (String Text.newline "")
         (Reader.quotedRow
            ["URL"; "Diagnosis"; "Severity"; "Score"; "Clicks Change %";
             "Impression Change %"; "CTR Change %"; "Pos Change";
             "Current Clicks"; "Previous Clicks"; "Recs"]%string
          :: map (fun a => Reader.quotedRow (Reader.columns a)) pages)
  /\ map (fun a => List.length (Reader.columns a)) pages = [11%nat]
  /\ Reader.parseQuotedCSV (Revival.exportToCSV pages) = None.
Proof.
  intros pages. split; [apply diagnose_diagnosed|].
  split; [repeat constructor|].
  split; [vm_compute; reflexivity|]. split; [vm_compute; reflexivity|].
  split; [vm_compute; reflexivity|].
  split; [apply exportToCSV_rows|].
  split; vm_compute; reflexivity.
Qed.

(** * Further properties of the code *)

(** ** The weighted score of the basic analyzer *)

Lemma Math_abs_neg (x : Q) : x < 0 -> JS.Math_abs x == - x.
Proof.
  intros H. unfold JS.Math_abs. destruct (ltbP x 0); [reflexivity | contradiction].
Qed.

Lemma weightedScore_terms (c : Changes) :
  Basic.weightedScore c ==
  (if clicksPct c <? 0 then - clicksPct c * (4 # 10) else 0)
  + (if impressionsPct c <? 0 then - impressionsPct c * (3 # 10) else 0)
  + (if ctrPct c <? 0 then - ctrPct c * (2 # 10) else 0)
  + (if positionDelta c <? 0 then - positionDelta c * 2 else 0).
Proof.
  unfold Basic.weightedScore.
  destruct (ltbP (clicksPct c) 0) as [H1|H1];
    destruct (ltbP (impressionsPct c) 0) as [H2|H2];
    destruct (ltbP (ctrPct c) 0) as [H3|H3];
    destruct (ltbP (positionDelta c) 0) as [H4|H4];
    cbv zeta;
    rewrite ?(Math_abs_neg _ H1), ?(Math_abs_neg _ H2), ?(Math_abs_neg _ H3),
      ?(Math_abs_neg _ H4); ring.
Qed.

Lemma round1_nonneg (x : Q) : 0 <= x -> 0 <= JS.round1 x.
Proof.
  intros Hx. unfold JS.round1.
  destruct (Math_round_nearest (x * 10)) as [_ Hhi].
  assert (inject_Z (-1) < inject_Z (JS.Math_round (x * 10))) as A
    by (change (inject_Z (-1)) with (- (1)); lra).
  rewrite <- Zlt_Qlt in A.
  assert (inject_Z 0 <= inject_Z (JS.Math_round (x * 10))) as B
    by (rewrite <- Zle_Qle; lia).
  change (inject_Z 0) with 0 in B.
  set (r := inject_Z (JS.Math_round (x * 10))) in *.
  unfold Qdiv. change (/ 10) with (1 # 10). lra.
Qed.

Lemma weightedScore_sign (c : Changes) :
  0 <= Basic.weightedScore c /\ (Basic.weightedScore c == 0 <-> noDecline c).
Proof.
  rewrite (weightedScore_terms c). unfold noDecline.
  destruct (ltbP (clicksPct c) 0) as [H1|H1];
    destruct (ltbP (impressionsPct c) 0) as [H2|H2];
    destruct (ltbP (ctrPct c) 0) as [H3|H3];
    destruct (ltbP (positionDelta c) 0) as [H4|H4];
    (split; [lra | split; [intros E | intros (A & B & C & D)]; try lra]);
    repeat split; lra.
Qed.

(** X1. The weighted decay score is never negative, neither before nor after
    rounding, and it is zero exactly when no metric declined. *)
Theorem decay_score_zero_iff_no_decline :
  forall cur prev : Metrics,
    let c := standardDeltas cur prev in
    0 <= Basic.weightedScore c
    /\ 0 <= Basic.score (Basic.calculateDecayMetrics cur prev)
    /\ (Basic.weightedScore c == 0 <-> noDecline c).
Proof.
  intros cur prev c.
  destruct (weightedScore_sign c) as [Hpos Hiff].
  split; [exact Hpos|]. split; [|exact Hiff].
  cbn [Basic.calculateDecayMetrics Basic.score]. now apply round1_nonneg.
Qed.

Lemma noDecline_signals (c : Changes) : noDecline c -> Basic.decaySignals c = [].
Proof.
  intros (A & B & C & D). unfold Basic.decaySignals.
  destruct (ltbP (impressionsPct c) (- (20))); [lra|].
  destruct (ltbP (clicksPct c) (- (30))); [lra|].
  destruct (ltbP (ctrPct c) (- (15))); [lra|].
  destruct (ltbP (positionDelta c) (- (3))); [lra|]. reflexivity.
Qed.

Lemma severityOf_compat (x y : Q) : x == y -> Basic.severityOf x = Basic.severityOf y.
Proof.
  intros E. unfold Basic.severityOf.
  rewrite !(ltb_compat _ _ (Qeq_refl _) _ _ E). reflexivity.
Qed.

(** X2. A page none of whose metrics declined is reported with score 0,
    severity healthy, no signal and the single recommendation that the
    content is performing well. *)
Theorem no_decline_is_healthy :
  forall cur prev : Metrics,
    noDecline (standardDeltas cur prev) ->
    let d := Basic.calculateDecayMetrics cur prev in
    Basic.score d == 0
    /\ Basic.severity d = healthy
    /\ Basic.signals d = []
    /\ Basic.recommendation d
       = ["✅ Content is performing well - maintain current optimization"%string].
Proof.
  intros cur prev Hno d.
  destruct (weightedScore_sign (standardDeltas cur prev)) as [_ Hiff].
  apply Hiff in Hno as Hzero.
  assert (Basic.severity d = healthy) as Hsev
    by (cbn; now rewrite (severityOf_compat _ 0 Hzero)).
  assert (Basic.signals d = []) as Hsig by (cbn; now apply noDecline_signals).
  split; [|split; [exact Hsev|split; [exact Hsig|]]].
  - cbn. rewrite Hzero. apply round1_0.
  - subst d. cbn [Basic.recommendation Basic.calculateDecayMetrics].
    cbn [Basic.severity Basic.signals Basic.calculateDecayMetrics] in Hsev, Hsig.
    rewrite Hsev, Hsig. reflexivity.
Qed.

Lemma no_decline_is_healthy_witness :
  noDecline (standardDeltas (mkMetrics 12 300 (4 # 100) 7) (mkMetrics 10 250 (4 # 100) 9))
  /\ Basic.severity
       (Basic.calculateDecayMetrics (mkMetrics 12 300 (4 # 100) 7)
          (mkMetrics 10 250 (4 # 100) 9)) = healthy.
Proof.
  assert (noDecline (standardDeltas (mkMetrics 12 300 (4 # 100) 7)
                       (mkMetrics 10 250 (4 # 100) 9))) as H
    by (repeat split; vm_compute; discriminate).
  split; [exact H|].
  exact (proj1 (proj2 (no_decline_is_healthy _ _ H))).
Defined.

Lemma severityOf_rank (x : Q) :
  (x <= 5 /\ Basic.severityOf x = healthy)
  \/ (5 < x <= 15 /\ Basic.severityOf x = monitoring)
  \/ (15 < x <= 30 /\ Basic.severityOf x = warning)
  \/ (30 < x /\ Basic.severityOf x = critical).
Proof.
  unfold Basic.severityOf.
  destruct (ltbP 30 x); [right; right; right; now split|].
  destruct (ltbP 15 x); [right; right; left; split; [split|]; auto; lra|].
  destruct (ltbP 5 x); [right; left; split; [split|]; auto; lra|].
  left. split; [lra | reflexivity].
Qed.

(** X3. The severity grows with the score: a page with a higher weighted score
    never gets a milder severity, and the severity is critical, warning,
    monitoring or healthy as the score is above 30, above 15, above 5 or not. *)
Theorem severity_grows_with_score :
  forall x y : Q,
    (x <= y -> (severityRank (Basic.severityOf x) <= severityRank (Basic.severityOf y))%Z)
    /\ (Basic.severityOf x = critical <-> 30 < x)
    /\ (Basic.severityOf x = warning <-> 15 < x <= 30)
    /\ (Basic.severityOf x = monitoring <-> 5 < x <= 15)
    /\ (Basic.severityOf x = healthy <-> x <= 5).
Proof.
  intros x y.
  destruct (severityOf_rank x) as [[Hx Ex]|[[Hx Ex]|[[Hx Ex]|[Hx Ex]]]];
    rewrite Ex.
  all: split;
    [intros Hxy;
     destruct (severityOf_rank y) as [[Hy Ey]|[[Hy Ey]|[[Hy Ey]|[Hy Ey]]]];
     rewrite Ey; cbn; first [lia | exfalso; lra]|].
  all: repeat split; intros; first [discriminate | reflexivity | lra | idtac].
  all: try (exfalso; lra).
Qed.

Lemma severity_grows_with_score_witness :
  (severityRank (Basic.severityOf 7) <= severityRank (Basic.severityOf 16))%Z.
Proof.
  assert (7 <= 16) as H by (unfold Qle; simpl; lia).
  exact (proj1 (severity_grows_with_score 7 16) H).
Defined.

(** X4. A visibility, traffic or ranking signal is never reported on a healthy
    page: each of them alone puts the weighted score above 5.  A drop of the
    click-through rate alone can leave the page healthy. *)
Theorem signals_exclude_healthy :
  forall (cur prev : Metrics) (s : Signal),
    let d := Basic.calculateDecayMetrics cur prev in
    (In s (Basic.signals d) ->
     s = visibility_drop \/ s = traffic_loss \/ s = ranking_drop ->
     5 < Basic.weightedScore (standardDeltas cur prev)
     /\ (1 <= severityRank (Basic.severity d))%Z)
    /\ (exists prev',
          previous ctrOnlyExample = Some prev'
          /\ In ctr_decline
               (Basic.signals (Basic.calculateDecayMetrics (current ctrOnlyExample) prev'))
          /\ Basic.severity (Basic.calculateDecayMetrics (current ctrOnlyExample) prev')
             = healthy).
Proof.
  intros cur prev s d. split.
  - intros Hin Hs. set (c := standardDeltas cur prev).
    assert (5 < Basic.weightedScore c) as Hscore.
    { apply (decaySignals_spec c s) in Hin.
      rewrite (weightedScore_terms c).
      destruct (ltbP (clicksPct c) 0) as [H1|H1];
        destruct (ltbP (impressionsPct c) 0) as [H2|H2];
        destruct (ltbP (ctrPct c) 0) as [H3|H3];
        destruct (ltbP (positionDelta c) 0) as [H4|H4];
        destruct Hs as [->|[->| ->]]; lra. }
    split; [exact Hscore|].
    change (Basic.severity d) with (Basic.severityOf (Basic.weightedScore c)).
    destruct (severityOf_rank (Basic.weightedScore c))
      as [[Hx Ex]|[[Hx Ex]|[[Hx Ex]|[Hx Ex]]]]; rewrite Ex; cbn;
      first [lia | exfalso; lra].
  - eexists. split; [reflexivity|]. split; [|reflexivity].
    apply (decaySignals_spec _ ctr_decline). vm_compute. reflexivity.
Qed.

Lemma signals_exclude_healthy_witness :
  In traffic_loss
    (Basic.signals
       (Basic.calculateDecayMetrics (current lossesExample)
          (mkMetrics 100 1000 (1 # 10) 5)))
  /\ (1 <= severityRank
            (Basic.severity
               (Basic.calculateDecayMetrics (current lossesExample)
                  (mkMetrics 100 1000 (1 # 10) 5))))%Z.
Proof.
  assert (In traffic_loss
            (Basic.signals
               (Basic.calculateDecayMetrics (current lossesExample)
                  (mkMetrics 100 1000 (1 # 10) 5)))) as Hin
    by (vm_compute; tauto).
  split; [exact Hin|].
  destruct (signals_exclude_healthy (current lossesExample)
              (mkMetrics 100 1000 (1 # 10) 5) traffic_loss) as [H _].
  exact (proj2 (H Hin (or_intror (or_introl eq_refl)))).
Defined.

(** ** The sort is stable *)

Section StableSort.
Context {A : Type}.
Variable key : A -> Q.

Lemma insertSorted_same (x : A) (l : list A) (k : Q) :
  key x == k ->
  filter (fun a => key a =? k) (insertSorted (fun a b => key b - key a) x l)
  = x :: filter (fun a => key a =? k) l.
Proof.
  intros Hx. induction l as [|y l IH]; cbn [insertSorted filter].
  - destruct (eqbP (key x) k); [reflexivity | contradiction].
  - destruct (ltbP 0 (key y - key x)) as [Hlt|Hge]; cbn [filter].
    + destruct (eqbP (key y) k) as [Hy|_]; [lra | exact IH].
    + destruct (eqbP (key x) k); [reflexivity | contradiction].
Qed.

Lemma insertSorted_other (x : A) (l : list A) (k : Q) :
  ~ key x == k ->
  filter (fun a => key a =? k) (insertSorted (fun a b => key b - key a) x l)
  = filter (fun a => key a =? k) l.
Proof.
  intros Hx. induction l as [|y l IH]; cbn [insertSorted filter].
  - destruct (eqbP (key x) k); [contradiction | reflexivity].
  - destruct (ltbP 0 (key y - key x)) as [Hlt|Hge]; cbn [filter].
    + now rewrite IH.
    + destruct (eqbP (key x) k); [contradiction | reflexivity].
Qed.

Lemma sort_stable (l : list A) (k : Q) :
  filter (fun a => key a =? k) (sort (fun a b => key b - key a) l)
  = filter (fun a => key a =? k) l.
Proof.
  induction l as [|x l IH]; [reflexivity|].
  cbn [sort fold_right]. fold (sort (fun a b => key b - key a) l).
  cbn [filter]. destruct (eqbP (key x) k) as [Hx|Hx].
  - rewrite insertSorted_same by exact Hx. now rewrite IH.
  - rewrite insertSorted_other by exact Hx. exact IH.
Qed.

End StableSort.

Lemma basic_mapM (ps : list Page) :
  mapM (fun page =>
          match previous page with
          | Some prev =>
              Some (mkAnalyzed page (Basic.calculateDecayMetrics (current page) prev))
          | None => None
          end) (filter hasPrevious ps)
  = Some (basicDiagnoses ps).
Proof.
  induction ps as [|p ps IH]; [reflexivity|].
  unfold basicDiagnoses, hasPrevious in *. cbn [filter flat_map].
  destruct (previous p) as [prev|] eqn:E; [|exact IH].
  cbn [mapM]. rewrite E, IH. reflexivity.
Qed.

Lemma revival_mapM (ps : list Page) (w : Revival.Weights) :
  mapM (fun page =>
          match Revival.diagnoseDecay page w with
          | Some diagnosis => Some (mkAnalyzed page diagnosis)
          | None => None
          end) (filter hasPrevious ps)
  = Some (revivalDiagnoses ps).
Proof.
  induction ps as [|p ps IH]; [reflexivity|].
  unfold revivalDiagnoses, hasPrevious in *. cbn [filter flat_map].
  destruct (previous p) as [prev|] eqn:E.
  - cbn [mapM]. rewrite IH. unfold Reader.diagnose, Revival.diagnoseDecay.
    rewrite E. reflexivity.
  - rewrite IH. unfold Reader.diagnose, Revival.diagnoseDecay. now rewrite E.
Qed.

(** X5. The analysis keeps the input order among pages of equal score: for
    every score, the pages of the result that have this score are the diagnosed
    pages of the input that have it, in input order.  This holds for both
    analyzers. *)
Theorem analysis_is_stable :
  forall (input : Revival.ComparisonResult) (o : Revival.Options) (ps : list Page)
         (k : Q),
    (exists out,
       Revival.analyzeContentDecay input o = Some out
       /\ withScore Revival.score k (Revival.pages out)
          = withScore Revival.score k (revivalDiagnoses (pagesOf input)))
    /\ (exists out,
          Basic.analyzeContentDecay ps = Some out
          /\ withScore Basic.score k out = withScore Basic.score k (basicDiagnoses ps)).
Proof.
  intros input o ps k. split.
  - unfold Revival.analyzeContentDecay. fold (pagesOf input).
    rewrite revival_mapM. eexists. split; [reflexivity|].
    cbn [Revival.pages].
    exact (sort_stable (fun a => Revival.score (decay a)) _ k).
  - unfold Basic.analyzeContentDecay. rewrite basic_mapM.
    eexists. split; [reflexivity|].
    exact (sort_stable (fun a => Basic.score (decay a)) _ k).
Qed.

(** ** The revival score *)

Lemma Math_round_monotone (x y : Q) : x <= y -> (JS.Math_round x <= JS.Math_round y)%Z.
Proof.
  intros H. unfold JS.Math_round. apply Qfloor_resp_le. lra.
Qed.

(** X6. The revival score grows with the impressions and falls with the
    clicks: a page with at least as many impressions and at most as many clicks
    as another has at least its score. *)
Theorem revival_score_monotone :
  forall a b : Metrics,
    (impressions a <= impressions b)%Z ->
    (clicks b <= clicks a)%Z ->
    Revival.revivalScore a <= Revival.revivalScore b.
Proof.
  intros a b Hi Hc. rewrite !revivalScore_max. rewrite <- Zle_Qle.
  apply Z.max_le_compat_l. apply Math_round_monotone.
  rewrite Zle_Qle in Hi, Hc. lra.
Qed.

Lemma revival_score_monotone_witness :
  Revival.revivalScore (mkMetrics 30 400 (75 # 1000) 6)
  <= Revival.revivalScore (mkMetrics 20 900 (22 # 1000) 11).
Proof.
  apply revival_score_monotone; cbn; lia.
Defined.

(** ** The Diagnosis column *)

Lemma classify_label (cur : Metrics) (c : Changes) (cliff : bool) :
  let t := Revival.classify cur c cliff in
  (Revival.t_symptoms t = [] <-> Revival.t_class t = Class.healthy)
  /\ (Revival.orElse (Text.join " + " (Revival.t_symptoms t)) "General Decay"
      = "General Decay"%string <-> Revival.t_class t = Class.healthy)
  /\ (List.length (Revival.t_symptoms t) <= 1)%nat.
Proof.
  unfold Revival.classify.
  repeat match goal with
         | |- context [if ?b then _ else _] => destruct b
         end; lazy; repeat split; intros; first [reflexivity | discriminate | lia].
Qed.

(** X7. A diagnosis lists at most one symptom, and none exactly when the class
    is healthy; so the Diagnosis column of the export never holds a joined
    list, and it reads General Decay exactly on the rows of healthy pages. *)
Theorem diagnosis_column :
  forall (p : Page) (prev : Metrics) (w : Revival.Weights),
    previous p = Some prev ->
    exists d,
      Revival.diagnoseDecay p w = Some d
      /\ (List.length (Revival.symptoms d) <= 1)%nat
      /\ (Revival.symptoms d = [] <-> Revival.decayClass d = Class.healthy)
      /\ (diagnosisCell (mkAnalyzed p d) = "General Decay"%string
          <-> Revival.decayClass d = Class.healthy)
      /\ (Revival.decayClass d = Class.healthy <-> Revival.severity d = healthy).
Proof.
  intros p prev w Hprev. unfold Revival.diagnoseDecay. rewrite Hprev.
  eexists. split; [reflexivity|]. unfold diagnosisCell.
  cbn [Revival.symptoms Revival.decayClass Revival.severity Revival.csvRow
       decay map nth Revival.cellText].
  destruct (classify_label (current p) (standardDeltas (current p) prev)
              (Revival.isCliff (current p) (recent p))) as (H1 & H2 & H3).
  split; [exact H3|]. split; [exact H1|]. split; [exact H2|].
  destruct (Revival.t_class _); cbn; split; intros; first [reflexivity | discriminate].
Qed.

Lemma diagnosis_column_witness :
  previous Reader.secondPage = Some (mkMetrics 41 410 (1 # 10) 3)
  /\ exists d,
       Revival.diagnoseDecay Reader.secondPage Revival.defaultWeights = Some d
       /\ (diagnosisCell (mkAnalyzed Reader.secondPage d) = "General Decay"%string
           <-> Revival.decayClass d = Class.healthy).
Proof.
  split; [reflexivity|].
  destruct (diagnosis_column Reader.secondPage _ Revival.defaultWeights eq_refl)
    as (d & Hd & _ & _ & H & _).
  exists d. split; [exact Hd | exact H].
Defined.

(** ** Joining the periods *)

Lemma mapOfRows_rev (rows : list Api.Row) :
  Api.mapOfRows rows = map (fun r => (Api.keys0 r, r)) (rev rows).
Proof.
  unfold Api.mapOfRows.
  assert (forall m,
             fold_left (fun m row => Api.mapSet m (Api.keys0 row) row) rows m
             = (map (fun r => (Api.keys0 r, r)) (rev rows) ++ m)%list) as H.
  { induction rows as [|r rows IH]; intros m; [reflexivity|].
    cbn [fold_left rev]. rewrite IH, map_app, <- app_assoc. reflexivity. }
  rewrite H. apply app_nil_r.
Qed.

Lemma mapGet_find (l : list Api.Row) (k : string) :
  Api.mapGet (map (fun r => (Api.keys0 r, r)) l) k
  = find (fun r => String.eqb (Api.keys0 r) k) l.
Proof.
  induction l as [|r l IH]; [reflexivity|].
  cbn [map Api.mapGet find]. now rewrite IH.
Qed.

Lemma mapGet_last (period : list Api.Row) (k : string) :
  Api.mapGet (Api.mapOfRows period) k = lastRowOf period k.
Proof.
  rewrite mapOfRows_rev. apply mapGet_find.
Qed.

Lemma lastRowOf_seen (period : list Api.Row) (k : string) :
  Api.missing (lastRowOf period k) = negb (seenIn period k).
Proof.
  unfold lastRowOf, seenIn.
  destruct (find _ (rev period)) as [r|] eqn:E; cbn [Api.missing].
  - apply find_some in E as [Hin Hk]. symmetry. apply negb_false_iff.
    apply existsb_exists. exists r. split; [now apply in_rev | exact Hk].
  - symmetry. apply negb_true_iff. apply not_true_is_false. intros H.
    apply existsb_exists in H as (r & Hin & Hk).
    apply in_rev in Hin. now rewrite (find_none _ _ E r Hin) in Hk.
Qed.

Lemma lastRowOf_last (period : list Api.Row) (k : string) (r : Api.Row) :
  lastRowOf period k = Some r ->
  Api.keys0 r = k
  /\ exists before after,
       period = (before ++ r :: after)%list /\ seenIn after k = false.
Proof.
  unfold lastRowOf. intros E.
  assert (forall l, find (fun r => String.eqb (Api.keys0 r) k) l = Some r ->
                    exists l1 l2, l = (l1 ++ r :: l2)%list
                                  /\ existsb (fun r => String.eqb (Api.keys0 r) k) l1 = false)
    as Hsplit.
  { induction l as [|x l IH]; [discriminate|]. cbn [find].
    destruct (String.eqb (Api.keys0 x) k) eqn:Ex.
    - intros H. inversion H; subst x. exists [], l. split; reflexivity.
    - intros H. destruct (IH H) as (l1 & l2 & -> & Hl1).
      exists (x :: l1), l2. split; [reflexivity|]. cbn [existsb]. now rewrite Ex. }
  split.
  - apply find_some in E as [_ Hk]. now apply String.eqb_eq.
  - destruct (Hsplit _ E) as (l1 & l2 & Hrev & Hl1).
    exists (rev l2), (rev l1). split.
    + rewrite <- (rev_involutive period), Hrev, rev_app_distr. cbn [rev].
      now rewrite <- app_assoc.
    + unfold seenIn. apply not_true_is_false. intros H.
      apply existsb_exists in H as (x & Hin & Hx). apply in_rev in Hin.
      assert (existsb (fun r => String.eqb (Api.keys0 r) k) l1 = true) as C
        by (apply existsb_exists; eauto).
      congruence.
Qed.

(** X8. The comparison holds one page per current row that reaches the
    thresholds (100 impressions and 0 clicks unless the options say otherwise),
    in the order of the rows, with the row's metrics as current metrics; rows
    below a threshold never get into it. *)
Theorem comparison_keeps_qualifying_rows :
  forall (currentPeriod previousPeriod recentPeriod : list Api.Row)
         (dr : DateRanges) (o : Api.Options),
    let ps := pagesOf
                (Api.getPagePerformanceComparison currentPeriod previousPeriod
                   recentPeriod dr o) in
    let kept := filter (qualifies (impressionsThreshold o) (clicksThreshold o))
                  currentPeriod in
    map page ps = map Api.keys0 kept
    /\ map current ps = map Api.metrics kept
    /\ Forall (fun p => (impressionsThreshold o <= impressions (current p))%Z
                        /\ (clicksThreshold o <= clicks (current p))%Z) ps
    /\ (Api.minImpressions o = None -> Api.minClicks o = None ->
        Forall (fun p => (100 <= impressions (current p))%Z) ps).
Proof.
  intros cur prev rec dr o ps kept. subst ps kept.
  unfold Api.getPagePerformanceComparison, pagesOf. cbv zeta.
  fold (impressionsThreshold o) (clicksThreshold o).
  fold (qualifies (impressionsThreshold o) (clicksThreshold o)).
  rewrite !map_map. cbn [page current].
  assert (Forall (fun r => (impressionsThreshold o <= impressions (Api.metrics r))%Z
                           /\ (clicksThreshold o <= clicks (Api.metrics r))%Z)
            (filter (qualifies (impressionsThreshold o) (clicksThreshold o)) cur))
    as Hall.
  { apply Forall_forall. intros r Hr. apply filter_In in Hr as [_ Hq].
    unfold qualifies in Hq. apply andb_true_iff in Hq as [H1 H2].
    split; now apply Z.leb_le. }
  split; [reflexivity|]. split; [reflexivity|]. split.
  - apply Forall_map. exact Hall.
  - intros Hi Hc. apply Forall_map. eapply Forall_impl; [|exact Hall].
    intros r [H _]. unfold impressionsThreshold in H. rewrite Hi in H. exact H.
Qed.

Lemma comparison_keeps_qualifying_rows_witness :
  Forall (fun p => (100 <= impressions (current p))%Z)
    (pagesOf
       (Api.getPagePerformanceComparison
          [sampleRow "/a" 12 640; sampleRow "/b" 3 80; sampleRow "/c" 0 100]
          [sampleRow "/a" 20 700] [] sampleRanges (Api.mkOptions None None))).
Proof.
  apply (comparison_keeps_qualifying_rows
           [sampleRow "/a" 12 640; sampleRow "/b" 3 80; sampleRow "/c" 0 100]
           [sampleRow "/a" 20 700] [] sampleRanges (Api.mkOptions None None));
    reflexivity.
Defined.

Lemma comparison_new_pages
  (currentPeriod previousPeriod recentPeriod : list Api.Row)
  (dr : DateRanges) (o : Api.Options) :
  Forall (fun p => isNew p = negb (hasPrevious p))
    (pagesOf
       (Api.getPagePerformanceComparison currentPeriod previousPeriod
          recentPeriod dr o)).
Proof.
  unfold Api.getPagePerformanceComparison, pagesOf. cbv zeta.
  apply Forall_map. apply Forall_forall. intros r _.
  unfold hasPrevious. cbn [isNew previous].
  now destruct (Api.mapGet (Api.mapOfRows previousPeriod) (Api.keys0 r)).
Qed.

(** X9. A page of the comparison is marked new exactly when it has no previous
    metrics, which is exactly when no row of the previous period has its URL;
    otherwise its previous metrics are those of the last row of the previous
    period with its URL (and likewise for the recent period). *)
Theorem comparison_joins_by_url :
  forall (currentPeriod previousPeriod recentPeriod : list Api.Row)
         (dr : DateRanges) (o : Api.Options),
    Forall (fun p =>
              isNew p = negb (seenIn previousPeriod (page p))
              /\ hasPrevious p = seenIn previousPeriod (page p)
              /\ previous p = Api.metricsOrNull (lastRowOf previousPeriod (page p))
              /\ recent p = Api.metricsOrNull (lastRowOf recentPeriod (page p))
              /\ (forall m, previous p = Some m ->
                    exists r before after,
                      previousPeriod = (before ++ r :: after)%list
                      /\ Api.keys0 r = page p /\ Api.metrics r = m
                      /\ seenIn after (page p) = false))
      (pagesOf
         (Api.getPagePerformanceComparison currentPeriod previousPeriod
            recentPeriod dr o)).
Proof.
  intros cur prev rec dr o.
  unfold Api.getPagePerformanceComparison, pagesOf. cbv zeta.
  apply Forall_map. apply Forall_forall. intros r _.
  cbn [isNew page previous recent hasPrevious]. rewrite !mapGet_last.
  pose proof (lastRowOf_seen prev (Api.keys0 r)) as Hseen.
  split; [exact Hseen|]. split; [|split; [reflexivity|split; [reflexivity|]]].
  - destruct (lastRowOf prev (Api.keys0 r)); cbn in *;
      destruct (seenIn prev (Api.keys0 r)); first [reflexivity | discriminate].
  - intros m Hm. destruct (lastRowOf prev (Api.keys0 r)) as [x|] eqn:E;
      [|discriminate].
    cbn in Hm. inversion Hm; subst m.
    destruct (lastRowOf_last _ _ _ E) as (Hk & before & after & Hp & Ha).
    exists x, before, after. repeat split; assumption.
Qed.

(** ** From the periods to the analysis *)

Lemma filter_map_commute {A B : Type} (f : A -> B) (p : B -> bool) (l : list A) :
  filter p (map f l) = map f (filter (fun x => p (f x)) l).
Proof.
  induction l as [|x l IH]; [reflexivity|].
  cbn [map filter]. destruct (p (f x)); cbn [map]; now rewrite IH.
Qed.

Lemma filter_both {A : Type} (p q : A -> bool) (l : list A) :
  filter p (filter q l) = filter (fun x => q x && p x) l.
Proof.
  induction l as [|x l IH]; [reflexivity|].
  cbn [filter]. destruct (q x); cbn [filter andb]; [|exact IH].
  destruct (p x); now rewrite IH.
Qed.

(** X10. Analysing a comparison keeps, up to order, the URLs of the current
    rows that reach the thresholds and have a row in the previous period; no
    page marked new is analysed, and the date ranges are handed through.  When
    the previous period has no rows at all, no page is analysed and the site
    summary is the empty one, with a health score of 100. *)
Theorem analysis_of_a_comparison :
  forall (currentPeriod previousPeriod recentPeriod : list Api.Row)
         (dr : DateRanges) (o : Api.Options) (ro : Revival.Options),
    exists out,
      Revival.analyzeContentDecay
        (Api.getPagePerformanceComparison currentPeriod previousPeriod
           recentPeriod dr o) ro = Some out
      /\ Revival.dateRanges out = Some dr
      /\ Permutation
           (map (fun a => page (base a)) (Revival.pages out))
           (map Api.keys0
              (filter (fun r =>
                         qualifies (impressionsThreshold o) (clicksThreshold o) r
                         && seenIn previousPeriod (Api.keys0 r))
                 currentPeriod))
      /\ Forall (fun a => isNew (base a) = false) (Revival.pages out)
      /\ (previousPeriod = [] ->
          Revival.pages out = []
          /\ Revival.healthScore (Revival.calculateSiteSummary (Revival.pages out))
             = 100%Z).
Proof.
  intros cur prev rec dr o ro.
  set (input := Api.getPagePerformanceComparison cur prev rec dr o).
  destruct (revival_analysis input ro) as (out & Hout & Hperm & _ & _).
  exists out. split; [exact Hout|].
  pose proof (comparison_new_pages cur prev rec dr o) as Hjoin.
  fold input in Hjoin.
  assert (map page (filter hasPrevious (pagesOf input))
          = map Api.keys0
              (filter (fun r =>
                         qualifies (impressionsThreshold o) (clicksThreshold o) r
                         && seenIn prev (Api.keys0 r)) cur)) as Hurls.
  { subst input. unfold Api.getPagePerformanceComparison, pagesOf. cbv zeta.
    fold (impressionsThreshold o) (clicksThreshold o).
    fold (qualifies (impressionsThreshold o) (clicksThreshold o)).
    rewrite filter_map_commute, map_map. cbn [page].
    f_equal. rewrite filter_both.
    apply filter_ext. intros r. f_equal. unfold hasPrevious. cbn [previous].
    rewrite mapGet_last. pose proof (lastRowOf_seen prev (Api.keys0 r)) as Hs.
    destruct (lastRowOf prev (Api.keys0 r)); cbn in *;
      destruct (seenIn prev (Api.keys0 r)); first [reflexivity | discriminate]. }
  assert (Forall (fun p => isNew p = false) (filter hasPrevious (pagesOf input)))
    as Hold.
  { apply Forall_forall. intros p Hp. apply filter_In in Hp as [Hin Hh].
    rewrite (proj1 (Forall_forall _ _) Hjoin p Hin), Hh. reflexivity. }
  split.
  { unfold Revival.analyzeContentDecay in Hout. subst input.
    cbn [Api.getPagePerformanceComparison] in Hout.
    match type of Hout with
    | match ?m with _ => _ end = _ => destruct m; [|discriminate]
    end.
    inversion Hout. reflexivity. }
  split.
  { rewrite <- Hurls, <- (map_map base page). apply Permutation_map. exact Hperm. }
  split.
  { apply Forall_forall. intros a Ha.
    assert (In (base a) (filter hasPrevious (pagesOf input))) as Hin
      by (eapply Permutation_in; [exact Hperm | now apply in_map]).
    exact (proj1 (Forall_forall _ _) Hold _ Hin). }
  intros Hempty.
  assert (Revival.pages out = []) as Hnil.
  { subst prev. cbn [seenIn existsb] in Hurls.
    rewrite (filter_ext
               (fun r => qualifies (impressionsThreshold o) (clicksThreshold o) r
                         && false)
               (fun _ => false)) in Hurls
      by (intros; apply andb_false_r).
    assert (forall (l : list Api.Row), filter (fun _ => false) l = []) as Hf
      by (induction l; auto).
    rewrite Hf in Hurls. cbn [map] in Hurls.
    apply map_eq_nil in Hurls. rewrite Hurls in Hperm.
    apply Permutation_sym, Permutation_nil in Hperm.
    now apply map_eq_nil in Hperm. }
  split; [exact Hnil|]. rewrite Hnil. reflexivity.
Qed.

Lemma analysis_of_a_comparison_witness :
  exists out,
    Revival.analyzeContentDecay
      (Api.getPagePerformanceComparison
         [sampleRow "/a" 12 640; sampleRow "/b" 3 180] [] [] sampleRanges
         (Api.mkOptions None None)) Revival.noOptions = Some out
    /\ Revival.pages out = [].
Proof.
  destruct (analysis_of_a_comparison
              [sampleRow "/a" 12 640; sampleRow "/b" 3 180] [] [] sampleRanges
              (Api.mkOptions None None) Revival.noOptions)
    as (out & Hout & _ & _ & _ & H).
  exists out. split; [exact Hout | exact (proj1 (H eq_refl))].
Defined.

(** ** The queries of a page *)

Lemma sort_ext {A : Type} (cmp cmp' : A -> A -> Q) (l : list A) :
  (forall a b, (0 <? cmp a b) = (0 <? cmp' a b)) -> sort cmp l = sort cmp' l.
Proof.
  intros H. induction l as [|x l IH]; [reflexivity|].
  cbn [sort fold_right]. fold (sort cmp l) (sort cmp' l). rewrite IH.
  generalize (sort cmp' l). intros s. induction s as [|y s IHs]; [reflexivity|].
  cbn [insertSorted]. now rewrite H, IHs.
Qed.

Lemma sorted_weaken {A : Type} (R R' : A -> A -> Prop) (l : list A) :
  (forall a b, R a b -> R' a b) -> StronglySorted R l -> StronglySorted R' l.
Proof.
  intros H. induction 1 as [|x l Hs IH Hx]; constructor; [exact IH|].
  eapply Forall_impl; [|exact Hx]. intros b. apply H.
Qed.

Lemma queryEntry_invariant (prev : list Api.Row) (r : Api.Row) :
  let e := Api.queryEntry (Api.mapOfRows prev) r in
  entryInvariant e
  /\ Api.q_isNew e = negb (seenIn prev (Api.query e))
  /\ Api.q_previous e = previousOf prev (Api.query e)
  /\ Api.query e = Api.keys0 r
  /\ Api.q_current e = Api.metrics r.
Proof.
  unfold Api.queryEntry, entryInvariant, previousOf. cbv zeta.
  cbn [Api.q_current Api.q_previous Api.q_change Api.q_isNew Api.query
       Api.d_clicks Api.d_impressions Api.d_ctr Api.d_position
       clicks impressions ctr position].
  rewrite mapGet_last. pose proof (lastRowOf_seen prev (Api.keys0 r)) as Hs.
  destruct (lastRowOf prev (Api.keys0 r)) as [x|]; cbn [Api.missing] in *.
  - repeat split; try lia; try discriminate; try exact Hs.
    now destruct (Api.metrics x).
  - repeat split; try lia; try discriminate; try exact Hs.
Qed.

(** The change of a rate is the rounded difference of two doubles: for a
    click-through rate that went from 0.03 to 0.01 the previous rate plus the
    change is not the current rate. *)
Lemma query_change_is_a_double :
  let e := Api.queryEntry
             (Api.mapOfRows [Api.mkRow "shoes" (mkMetrics 30 1000 (3 # 100) 4)])
             (Api.mkRow "shoes" (mkMetrics 10 1000 (1 # 100) 4)) in
  Api.q_isNew e = false
  /\ Double.add (Double.ofQ (ctr (Api.q_previous e))) (Api.d_ctr (Api.q_change e))
     <> Double.ofQ (ctr (Api.q_current e))
  /\ Api.d_position (Api.q_change e) = Double.ofZ 0.
Proof. repeat split; vm_compute; discriminate. Qed.

(** X11. Without current rows the query comparison is empty.  Otherwise it
    holds one entry per current row, sorted by current clicks in non-increasing
    order; a query is new exactly when the previous period has no row for it,
    and its previous metrics are those of the last row of the previous period
    for it, zeros when it is new.  The current clicks and impressions are the
    previous value plus the change; the changes of click-through rate and
    position are the differences of the two doubles, and for a new query the
    changes are the current values, with no change of position. *)
Theorem query_comparison :
  forall (r : Api.Row) (currentRows previousRows : list Api.Row) (dr : DateRanges),
    Api.getPageQueryData [] previousRows dr = Api.NoQueryData
    /\ exists qs,
         Api.getPageQueryData (r :: currentRows) previousRows dr
         = Api.QueryComparison qs dr
         /\ Permutation (map Api.query qs) (map Api.keys0 (r :: currentRows))
         /\ List.length qs = List.length (r :: currentRows)
         /\ StronglySorted
              (fun a b => (clicks (Api.q_current b) <= clicks (Api.q_current a))%Z) qs
         /\ Forall (fun e => entryInvariant e
                            /\ Api.q_isNew e = negb (seenIn previousRows (Api.query e))
                            /\ Api.q_previous e = previousOf previousRows (Api.query e))
              qs.
Proof.
  intros r cur prev dr. split; [reflexivity|].
  unfold Api.getPageQueryData. cbv zeta.
  generalize (r :: cur). intros rows.
  set (entries := map (Api.queryEntry (Api.mapOfRows prev)) rows).
  eexists. split; [reflexivity|].
  assert (sort Api.byCurrentClicks entries
          = sort (fun a b => inject_Z (clicks (Api.q_current b))
                             - inject_Z (clicks (Api.q_current a))) entries) as Hs.
  { apply sort_ext. intros a b. unfold Api.byCurrentClicks.
    apply ltb_compat; [reflexivity|]. unfold Zminus.
    rewrite inject_Z_plus, inject_Z_opp. reflexivity. }
  rewrite Hs.
  pose proof (sort_perm (fun e => inject_Z (clicks (Api.q_current e))) entries)
    as Hperm.
  pose proof (sort_descending (fun e => inject_Z (clicks (Api.q_current e))) entries)
    as Hsorted.
  cbv zeta in Hperm, Hsorted.
  assert (Forall (fun e => entryInvariant e
                           /\ Api.q_isNew e = negb (seenIn prev (Api.query e))
                           /\ Api.q_previous e = previousOf prev (Api.query e))
            entries) as Hinv.
  { subst entries. apply Forall_map. apply Forall_forall. intros x _.
    destruct (queryEntry_invariant prev x) as (H1 & H2 & H3 & _).
    split; [exact H1 | split; [exact H2 | exact H3]]. }
  split; [|split; [|split]].
  - rewrite (Permutation_map Api.query Hperm). subst entries.
    rewrite map_map. apply Permutation_refl'. apply map_ext.
    intros x. reflexivity.
  - rewrite (Permutation_length Hperm). subst entries. apply length_map.
  - eapply sorted_weaken; [|exact Hsorted].
    intros a b H. cbn beta in H. now rewrite Zle_Qle.
  - apply (Permutation_Forall (x := entries)); [now symmetry | exact Hinv].
Qed.

(** ** Paging through the rows *)

Lemma rowLimit_pos : (0 < Api.rowLimit)%nat.
Proof. unfold Api.rowLimit. lia. Qed.

Lemma serve_rows (data : list Api.Row) (s : nat) :
  exists d, serve data s = Api.Body d
            /\ Api.rowsOf d = firstn Api.rowLimit (skipn s data).
Proof.
  unfold serve. destruct (firstn Api.rowLimit (skipn s data)) as [|x l];
    eexists; split; reflexivity.
Qed.

Lemma queryAllFrom_serve (data : list Api.Row) (fuel : nat) :
  forall start acc,
    (List.length (skipn start data) < fuel * Api.rowLimit)%nat ->
    Api.queryAllFrom fuel (serve data) start acc
    = Api.Done (acc ++ skipn start data).
Proof.
  pose proof rowLimit_pos as Hpos.
  induction fuel as [|fuel IH]; intros start acc Hlen; [cbn in Hlen; lia|].
  cbn [Api.queryAllFrom]. destruct (serve_rows data start) as (d & -> & ->).
  set (l := skipn start data) in *.
  destruct (Nat.ltb_spec (List.length (firstn Api.rowLimit l)) Api.rowLimit) as [Hs|Hf].
  - rewrite length_firstn in Hs. rewrite firstn_all2 by lia. reflexivity.
  - rewrite length_firstn in Hf. rewrite IH.
    + rewrite <- app_assoc. f_equal. f_equal.
      rewrite Nat.add_comm, <- skipn_skipn. fold l. apply firstn_skipn.
    + rewrite Nat.add_comm, <- skipn_skipn. fold l. rewrite length_skipn.
      rewrite Nat.mul_succ_l in Hlen. lia.
Qed.

Lemma queryAllFrom_short (data : list Api.Row) (fuel : nat) :
  forall start acc,
    (fuel * Api.rowLimit <= List.length (skipn start data))%nat ->
    Api.queryAllFrom fuel (serve data) start acc = Api.StillRunning.
Proof.
  pose proof rowLimit_pos as Hpos.
  induction fuel as [|fuel IH]; intros start acc Hlen; [reflexivity|].
  cbn [Api.queryAllFrom]. destruct (serve_rows data start) as (d & -> & ->).
  set (l := skipn start data) in *. rewrite Nat.mul_succ_l in Hlen.
  destruct (Nat.ltb_spec (List.length (firstn Api.rowLimit l)) Api.rowLimit) as [Hs|Hf].
  - rewrite length_firstn in Hs. lia.
  - apply IH. rewrite Nat.add_comm, <- skipn_skipn. fold l.
    rewrite length_skipn. lia.
Qed.

(** X12. Against an API that holds a fixed list of rows and serves it in pages
    of 25000, the paging loop returns exactly that list, in order, once it may
    make more than [length / 25000] requests, and it is still running after
    fewer: a list whose length is a multiple of 25000 costs one more request,
    which is answered with no rows. *)
Theorem paging_returns_all_rows :
  forall (data : list Api.Row) (fuel : nat),
    ((List.length data < fuel * Api.rowLimit)%nat ->
     Api.queryAllSearchAnalytics fuel (serve data) = Api.Done data)
    /\ ((fuel * Api.rowLimit <= List.length data)%nat ->
        Api.queryAllSearchAnalytics fuel (serve data) = Api.StillRunning)
    /\ Z.of_nat Api.rowLimit = 25000%Z.
Proof.
  intros data fuel. unfold Api.queryAllSearchAnalytics. split; [|split].
  - intros H. rewrite queryAllFrom_serve by exact H. reflexivity.
  - intros H. apply queryAllFrom_short. exact H.
  - unfold Api.rowLimit. lia.
Qed.

Lemma paging_returns_all_rows_witness :
  Api.queryAllSearchAnalytics 1 (serve [sampleRow "/a" 12 640; sampleRow "/b" 3 180])
  = Api.Done [sampleRow "/a" 12 640; sampleRow "/b" 3 180].
Proof.
  apply (paging_returns_all_rows [sampleRow "/a" 12 640; sampleRow "/b" 3 180] 1).
  unfold Api.rowLimit. cbn [List.length]. lia.
Defined.

Lemma queryAllFrom_full (server : nat -> Api.Response) (fuel : nat) :
  alwaysFull server ->
  forall start acc, Api.queryAllFrom fuel server start acc = Api.StillRunning.
Proof.
  intros Hfull. induction fuel as [|fuel IH]; intros start acc; [reflexivity|].
  cbn [Api.queryAllFrom]. destruct (Hfull start) as (rows & -> & Hlen).
  cbn [Api.rowsOf].
  destruct (Nat.ltb_spec (List.length rows) Api.rowLimit); [lia | apply IH].
Qed.

Lemma queryAllFrom_failure (server : nat -> Api.Response) (message : string) (k : nat) :
  forall fuel start acc,
    (forall j, (j < k)%nat ->
       exists rows, server (start + j * Api.rowLimit)%nat = Api.Body (Some rows)
                    /\ (Api.rowLimit <= List.length rows)%nat) ->
    server (start + k * Api.rowLimit)%nat = Api.Failed message ->
    (k < fuel)%nat ->
    Api.queryAllFrom fuel server start acc = Api.Threw message.
Proof.
  induction k as [|k IH]; intros fuel start acc Hfull Hfail Hfuel.
  - destruct fuel as [|fuel]; [lia|]. cbn [Api.queryAllFrom].
    rewrite Nat.mul_0_l, Nat.add_0_r in Hfail. now rewrite Hfail.
  - destruct fuel as [|fuel]; [lia|]. cbn [Api.queryAllFrom].
    destruct (Hfull 0%nat ltac:(lia)) as (rows & Hrows & Hlen).
    rewrite Nat.mul_0_l, Nat.add_0_r in Hrows. rewrite Hrows. cbn [Api.rowsOf].
    destruct (Nat.ltb_spec (List.length rows) Api.rowLimit); [lia|].
    apply IH; [| |lia].
    + intros j Hj. destruct (Hfull (S j) ltac:(lia)) as (rows' & Hr & Hl).
      exists rows'. split; [|exact Hl]. rewrite <- Hr. f_equal.
      rewrite Nat.mul_succ_l. lia.
    + rewrite <- Hfail. f_equal. rewrite Nat.mul_succ_l. lia.
Qed.

(** X13. The paging loop ends only on a page shorter than 25000 rows or on a
    failed request: it is still running after any number of requests to an API
    that always answers full pages; and when the request after [k] full pages
    fails, the call throws that failure and returns none of the rows it has
    fetched. *)
Theorem paging_stops_on_short_page_or_failure :
  forall (server : nat -> Api.Response) (fuel k : nat) (message : string),
    (alwaysFull server ->
     Api.queryAllSearchAnalytics fuel server = Api.StillRunning)
    /\ ((forall j, (j < k)%nat ->
           exists rows, server (j * Api.rowLimit)%nat = Api.Body (Some rows)
                        /\ (Api.rowLimit <= List.length rows)%nat) ->
        server (k * Api.rowLimit)%nat = Api.Failed message ->
        (k < fuel)%nat ->
        Api.queryAllSearchAnalytics fuel server = Api.Threw message).
Proof.
  intros server fuel k message. unfold Api.queryAllSearchAnalytics. split.
  - intros H. now apply queryAllFrom_full.
  - intros Hfull Hfail Hfuel.
    apply (queryAllFrom_failure server message k); auto.
Qed.

Lemma paging_stops_on_short_page_or_failure_witness :
  Api.queryAllSearchAnalytics 3 (fun _ => Api.Failed "Token expired. Please sign in again.")
  = Api.Threw "Token expired. Please sign in again.".
Proof.
  apply (paging_stops_on_short_page_or_failure
           (fun _ => Api.Failed "Token expired. Please sign in again.") 3 0
           "Token expired. Please sign in again.");
    [intros j Hj; lia | reflexivity | lia].
Defined.

(** ** Sudden drops *)

Lemma drop_test (c p : Z) :
  (0 < p)%Z ->
  ((inject_Z c - inject_Z p) / inject_Z p * 100 <? - (30))
  = (10 * c <? 7 * p)%Z.
Proof.
  intros Hp.
  assert (0 < inject_Z p) as HP
    by (change 0 with (inject_Z 0); now rewrite <- Zlt_Qlt).
  set (t := (inject_Z c - inject_Z p) / inject_Z p).
  assert (t * inject_Z p == inject_Z c - inject_Z p) as Ht
    by (unfold t; field; lra).
  assert (t * 100 < - (30) <-> (10 * c < 7 * p)%Z) as Hiff.
  { rewrite Zlt_Qlt, !inject_Z_mult.
    change (inject_Z 10) with 10. change (inject_Z 7) with 7.
    split; intros H.
    - assert (t * inject_Z p < - (3 # 10) * inject_Z p) as A
        by (apply Qmult_lt_r; [exact HP | lra]).
      rewrite Ht in A. lra.
    - assert (t * inject_Z p < - (3 # 10) * inject_Z p) as A
        by (rewrite Ht; lra).
      apply Qmult_lt_r in A; [lra | exact HP]. }
  destruct (ltbP (t * 100) (- (30))) as [H|H];
    destruct (Z.ltb_spec (10 * c) (7 * p)) as [H'|H']; try reflexivity.
  - apply Hiff in H. lia.
  - exfalso. apply H. now apply Hiff.
Qed.

Lemma dailyChanges_drops (prev : History.DataPoint) (rest : list History.DataPoint) :
  map History.dc_date
    (filter (fun d => History.change d <? - (30)) (History.dailyChangesFrom prev rest))
  = suddenDropsFrom prev rest.
Proof.
  revert prev. induction rest as [|curr rest IH]; intros prev; [reflexivity|].
  cbn [History.dailyChangesFrom suddenDropsFrom]. cbv zeta.
  rewrite filter_app, map_app, IH. f_equal.
  destruct (Z.ltb_spec 0 (History.clicks prev)) as [Hp|Hp]; [|reflexivity].
  cbn [filter History.change andb]. rewrite (drop_test _ _ Hp).
  destruct (10 * History.clicks curr <? 7 * History.clicks prev)%Z; reflexivity.
Qed.

Lemma steady_no_drops (prev : History.DataPoint) (rest : list History.DataPoint) :
  steadyFrom prev rest -> suddenDropsFrom prev rest = [].
Proof.
  revert prev. induction rest as [|curr rest IH]; intros prev; [reflexivity|].
  cbn [steadyFrom suddenDropsFrom]. intros [H Hrest]. rewrite (IH _ Hrest).
  destruct (Z.ltb_spec (10 * History.clicks curr) (7 * History.clicks prev));
    [lia|]. now rewrite andb_false_r.
Qed.

(** X14. [identifyDecayPattern] reports at most one pattern, a sudden drop of
    high severity, whose dates are exactly the days, from the second on, whose
    clicks are below 70% of those of the day before when that day had clicks;
    it reports nothing when there is no such day, in particular on a history
    where no day falls below 70% of the day before, and the known algorithm
    dates play no part. *)
Theorem sudden_drop_pattern :
  forall (data : list History.DataPoint) (known known' : list string),
    History.identifyDecayPattern data known
    = match suddenDrops data with
      | [] => []
      | days => [History.mkPattern "sudden_drop" days "high"]
      end
    /\ History.identifyDecayPattern data known
       = History.identifyDecayPattern data known'
    /\ (List.length (History.identifyDecayPattern data known) <= 1)%nat
    /\ (steady data -> History.identifyDecayPattern data known = []).
Proof.
  intros data known known'.
  assert (History.identifyDecayPattern data known
          = match suddenDrops data with
            | [] => []
            | days => [History.mkPattern "sudden_drop" days "high"]
            end) as Heq.
  { unfold History.identifyDecayPattern, suddenDrops. cbv zeta.
    destruct data as [|first rest]; [reflexivity|].
    rewrite <- dailyChanges_drops.
    destruct (filter _ (History.dailyChangesFrom first rest)) as [|d ds];
      reflexivity. }
  split; [exact Heq|]. split; [reflexivity|]. split.
  - rewrite Heq. destruct (suddenDrops data); cbn; lia.
  - intros Hsteady. rewrite Heq. unfold suddenDrops, steady in *.
    destruct data as [|first rest]; [reflexivity|].
    now rewrite (steady_no_drops _ _ Hsteady).
Qed.

Lemma sudden_drop_pattern_witness :
  steady (flatHistory 5 40)
  /\ History.identifyDecayPattern (flatHistory 5 40) [] = [].
Proof.
  assert (steady (flatHistory 5 40)) as H by (cbn; lia).
  split; [exact H|].
  exact (proj2 (proj2 (proj2 (sudden_drop_pattern (flatHistory 5 40) [] []))) H).
Defined.

(** ** Decay velocity *)

Lemma sort_length {A : Type} (cmp : A -> A -> Q) (l : list A) :
  List.length (sort cmp l) = List.length l.
Proof.
  induction l as [|x l IH]; [reflexivity|].
  cbn [sort fold_right List.length]. fold (sort cmp l). rewrite <- IH.
  generalize (sort cmp l). intros s. induction s as [|y s IHs]; [reflexivity|].
  cbn [insertSorted]. destruct (0 <? cmp x y); cbn [List.length]; [|reflexivity].
  now rewrite IHs.
Qed.

(** [Infinity] and [NaN] stay what they are under division, multiplication
    and [Math.round]. *)
Lemma div_not_finite (x y : Double.t) :
  Double.isFinite x = false -> Double.isFinite (Double.div x y) = false.
Proof. destruct x, y; intros H; first [discriminate H | reflexivity]. Qed.

Lemma mul_not_finite (x y : Double.t) :
  Double.isFinite x = false -> Double.isFinite (Double.mul x y) = false.
Proof. destruct x, y; intros H; first [discriminate H | reflexivity]. Qed.

Lemma Math_round_not_finite (x : Double.t) :
  Double.isFinite x = false -> Double.isFinite (Double.Math_round x) = false.
Proof. destruct x; intros H; first [discriminate H | reflexivity]. Qed.

Lemma div_by_zero_not_finite (x : Double.t) :
  Double.isFinite (Double.div x (Double.ofZ 0)) = false.
Proof. destruct x; reflexivity. Qed.

Lemma weeklyRate_no_first_week (last weeks : Z) :
  Double.isFinite (weeklyRate 0 last weeks) = false
  /\ (last = 0%Z -> weeklyRate 0 last weeks = Double.NaN)
  /\ ((0 < last)%Z -> (0 < weeks < 2 ^ 53)%Z -> weeklyRate 0 last weeks = Double.PosInf).
Proof.
  unfold weeklyRate, Double.round1. split; [|split].
  - apply div_not_finite, Math_round_not_finite, mul_not_finite, mul_not_finite,
      div_not_finite, div_by_zero_not_finite.
  - intros ->. destruct (Double.ofZ weeks); reflexivity.
  - intros Hlast Hweeks.
    destruct (ofZ_small weeks Hweeks) as (m & e & ->).
    destruct (ofZ_positive last Hlast) as [(m' & e' & ->)| ->]; reflexivity.
Qed.

(** The rate is rounded from the double: weeks of 40 and of 29 clicks give
    [-13.750000000000002] and a rate of [-13.8], where the exact quotient,
    [-13.75], would be rounded to [-13.7]. *)
Lemma decay_velocity_rounds_the_double :
  History.calculateDecayVelocity lengthClock fadingHistory
  = Some (History.mkVelocity 40 29 (Double.ofQ (- (138 # 10))) 2)
  /\ JS.round1 ((inject_Z 29 - inject_Z 40) / inject_Z 40 / inject_Z 2 * 100)
     == - (137 # 10).
Proof. split; vm_compute; reflexivity. Qed.

(** X15. [calculateDecayVelocity] returns null exactly for fewer than 7 days.
    Otherwise it reports [floor(n / 7)] weeks; with fewer than 14 days the
    weekly rate is 0; with 14 days or more the rate is
    [(last - first) / first / weeks * 100] rounded to one decimal, computed in
    doubles, and it is no finite number when the first week had no clicks:
    [NaN] when the last week had none either, [Infinity] when it had some. *)
Theorem decay_velocity :
  forall (timeOf : string -> Q) (data : list History.DataPoint),
    ((List.length data < 7)%nat <-> History.calculateDecayVelocity timeOf data = None)
    /\ ((7 <= List.length data)%nat ->
        exists v,
          History.calculateDecayVelocity timeOf data = Some v
          /\ History.totalWeeksAnalyzed v = (Z.of_nat (List.length data) / 7)%Z
          /\ ((List.length data < 14)%nat ->
              History.weeklyDecayRate v = Double.ofZ 0)
          /\ ((14 <= List.length data)%nat ->
              History.weeklyDecayRate v
              = weeklyRate (History.firstWeekClicks v) (History.lastWeekClicks v)
                  (History.totalWeeksAnalyzed v)
              /\ (History.firstWeekClicks v = 0%Z ->
                  Double.isFinite (History.weeklyDecayRate v) = false
                  /\ (History.lastWeekClicks v = 0%Z ->
                      History.weeklyDecayRate v = Double.NaN)
                  /\ ((0 < History.lastWeekClicks v)%Z ->
                      (Z.of_nat (List.length data) < 2 ^ 53)%Z ->
                      History.weeklyDecayRate v = Double.PosInf)))).
Proof.
  intros timeOf data. unfold History.calculateDecayVelocity.
  destruct (Nat.ltb_spec (List.length data) 7) as [Hlt|Hge].
  { split; [split; [reflexivity | intros; exact Hlt]|]. intros H. lia. }
  split; [split; [lia | discriminate]|]. intros _.
  rewrite sort_length. cbv zeta.
  set (sorted := sort (History.byDate timeOf) data).
  set (first := History.sumClicks (firstn 7 sorted)).
  set (last := History.sumClicks (skipn (List.length data - 7) sorted)).
  set (weeks := (Z.of_nat (List.length data) / 7)%Z).
  eexists. split; [reflexivity|].
  cbn [History.totalWeeksAnalyzed History.weeklyDecayRate History.firstWeekClicks
       History.lastWeekClicks].
  split; [reflexivity|]. split.
  - intros H14.
    assert (weeks = 1)%Z as Hw
      by (subst weeks; symmetry;
          apply (Z.div_unique _ 7 1 (Z.of_nat (List.length data) - 7)); lia).
    rewrite Hw. reflexivity.
  - intros H14.
    assert (2 <= weeks)%Z as Hw
      by (subst weeks; apply Z.div_le_lower_bound; lia).
    replace (1 <? weeks)%Z with true by (symmetry; apply Z.ltb_lt; lia).
    split; [reflexivity|].
    intros Hfirst. rewrite Hfirst.
    change (Double.div
              (Double.Math_round
                 (Double.mul
                    (Double.mul
                       (Double.div
                          (Double.div (Double.sub (Double.ofZ last) (Double.ofZ 0))
                             (Double.ofZ 0))
                          (Double.ofZ weeks))
                       (Double.ofZ 100))
                    (Double.ofZ 10)))
              (Double.ofZ 10))
      with (weeklyRate 0 last weeks).
    destruct (weeklyRate_no_first_week last weeks) as (H1 & H2 & H3).
    split; [exact H1|]. split; [exact H2|].
    intros Hlast Hlen. apply H3; [exact Hlast|].
    split; [lia|]. subst weeks.
    apply Z.le_lt_trans with (Z.of_nat (List.length data)); [|exact Hlen].
    apply Z.div_le_upper_bound; lia.
Qed.

Lemma decay_velocity_witness :
  (7 <= List.length fadingHistory)%nat
  /\ exists v,
       History.calculateDecayVelocity lengthClock fadingHistory = Some v
       /\ History.totalWeeksAnalyzed v = 2%Z.
Proof.
  assert (7 <= List.length fadingHistory)%nat as H7 by (cbn; lia).
  split; [exact H7|].
  destruct (decay_velocity lengthClock fadingHistory) as [_ H].
  destruct (H H7) as (v & Hv & Hw & _).
  exists v. split; [exact Hv|]. rewrite Hw. reflexivity.
Defined.

(** ** The trend *)

Lemma sort_permutation {A : Type} (cmp : A -> A -> Q) (l : list A) :
  Permutation (sort cmp l) l.
Proof.
  induction l as [|x l IH]; [reflexivity|].
  cbn [sort fold_right]. fold (sort cmp l).
  transitivity (x :: sort cmp l); [|now constructor].
  generalize (sort cmp l). intros s. induction s as [|y s IHs]; [reflexivity|].
  cbn [insertSorted]. destruct (0 <? cmp x y); [|reflexivity].
  rewrite IHs. apply perm_swap.
Qed.

Lemma Forall_firstn {A : Type} (P : A -> Prop) (n : nat) (l : list A) :
  Forall P l -> Forall P (firstn n l).
Proof.
  intros H. revert n. induction H as [|x l Hx _ IH]; intros [|n]; cbn [firstn];
    constructor; auto.
Qed.

Lemma Forall_skipn {A : Type} (P : A -> Prop) (n : nat) (l : list A) :
  Forall P l -> Forall P (skipn n l).
Proof.
  intros H. revert n. induction H as [|x l Hx H IH]; intros [|n]; cbn [skipn];
    auto.
Qed.

Lemma sumClicks_flat (c : Z) (l : list History.DataPoint) :
  Forall (fun d => History.clicks d = c) l ->
  History.sumClicks l = (c * Z.of_nat (List.length l))%Z.
Proof.
  unfold History.sumClicks. intros H.
  assert (forall acc,
             fold_left (fun sum d => (sum + History.clicks d)%Z) l acc
             = (acc + c * Z.of_nat (List.length l))%Z) as G.
  { induction H as [|d l Hd _ IH]; intros acc; cbn [fold_left List.length]; [lia|].
    rewrite IH, Hd. lia. }
  rewrite G. lia.
Qed.

Lemma sumNumbers_flat (c : Q) (l : list Q) :
  Forall (fun q => q == c) l ->
  History.sumNumbers l == c * inject_Z (Z.of_nat (List.length l)).
Proof.
  unfold History.sumNumbers. intros H.
  assert (forall acc,
             fold_left (fun a b => a + b) l acc
             == acc + c * inject_Z (Z.of_nat (List.length l))) as G.
  { induction H as [|q l Hq _ IH]; intros acc; cbn [fold_left List.length].
    - change (inject_Z (Z.of_nat 0)) with 0. ring.
    - rewrite IH, Hq, Nat2Z.inj_succ. unfold Z.succ. rewrite inject_Z_plus.
      change (inject_Z 1) with 1. ring. }
  rewrite G. ring.
Qed.

Lemma average_flat (c : Q) (l : list Q) :
  l <> [] -> Forall (fun q => q == c) l ->
  History.sumNumbers l / inject_Z (Z.of_nat (List.length l)) == c.
Proof.
  intros Hne H. rewrite (sumNumbers_flat c l H).
  assert (0 < inject_Z (Z.of_nat (List.length l))) as Hpos.
  { change 0 with (inject_Z 0). rewrite <- Zlt_Qlt.
    destruct l; [contradiction | cbn [List.length]; lia]. }
  field. lra.
Qed.

Lemma movingAverages_flat (c : Z) (sorted : list History.DataPoint) :
  Forall (fun d => History.clicks d = c) sorted ->
  Forall (fun q => q == inject_Z c) (History.movingAveragesOf sorted)
  /\ List.length (History.movingAveragesOf sorted) = (List.length sorted - 6)%nat.
Proof.
  intros H. unfold History.movingAveragesOf. split.
  - apply Forall_map. apply Forall_forall. intros i Hi. apply in_seq in Hi.
    cbv zeta.
    rewrite (sumClicks_flat c) by (apply Forall_firstn, Forall_skipn, H).
    rewrite length_firstn, length_skipn.
    replace (Nat.min 7 (List.length sorted - (i - 6))) with 7%nat by lia.
    rewrite inject_Z_mult. change (inject_Z (Z.of_nat 7)) with 7. field.
  - now rewrite length_map, length_seq.
Qed.

(** X16. [detectDecayTrend] answers insufficient data for fewer than 14 days.
    With 14 days or more there are [n - 6 >= 8] moving averages, so the second
    check on their number never fires; a history with the same positive number
    of clicks every day is stable, and a history without any click is
    insufficient data however long it is. *)
Theorem decay_trend :
  forall (timeOf : string -> Q) (data : list History.DataPoint) (c : Z),
    ((List.length data < 14)%nat ->
     History.detectDecayTrend timeOf data = History.insufficient_data)
    /\ ((14 <= List.length data)%nat ->
        List.length (History.movingAveragesOf (sort (History.byDate timeOf) data))
        = (List.length data - 6)%nat
        /\ (Forall (fun d => History.clicks d = c) data ->
            (c <> 0%Z -> History.detectDecayTrend timeOf data = History.stable)
            /\ (c = 0%Z ->
                History.detectDecayTrend timeOf data = History.insufficient_data))).
Proof.
  intros timeOf data c. unfold History.detectDecayTrend. split.
  - intros H. now replace (List.length data <? 14)%nat with true
      by (symmetry; apply Nat.ltb_lt; exact H).
  - intros H14.
    replace (List.length data <? 14)%nat with false
      by (symmetry; apply Nat.ltb_ge; exact H14).
    cbv zeta. set (sorted := sort (History.byDate timeOf) data).
    assert (List.length sorted = List.length data) as Hlen by apply sort_length.
    assert (List.length (History.movingAveragesOf sorted)
            = (List.length data - 6)%nat) as Hma
      by (unfold History.movingAveragesOf; now rewrite length_map, length_seq, Hlen).
    split; [exact Hma|]. intros Hflat.
    assert (Forall (fun d => History.clicks d = c) sorted) as Hsorted
      by (apply (Permutation_Forall (x := data));
          [symmetry; apply sort_permutation | exact Hflat]).
    destruct (movingAverages_flat c sorted Hsorted) as [Hall _].
    set (ma := History.movingAveragesOf sorted) in *.
    replace (List.length ma <? 4)%nat with false
      by (symmetry; apply Nat.ltb_ge; lia).
    pose proof (Nat.div_mod_eq (List.length ma) 2) as Hdiv.
    pose proof (Nat.mod_upper_bound (List.length ma) 2 ltac:(lia)) as Hmod.
    set (mid := (List.length ma / 2)%nat) in *.
    assert (History.sumNumbers (firstn mid ma)
            / inject_Z (Z.of_nat (List.length (firstn mid ma))) == inject_Z c) as H1.
    { apply average_flat; [|now apply Forall_firstn].
      intros E. apply (f_equal (@List.length _)) in E.
      rewrite length_firstn in E. cbn [List.length] in E. lia. }
    assert (History.sumNumbers (skipn mid ma)
            / inject_Z (Z.of_nat (List.length (skipn mid ma))) == inject_Z c) as H2.
    { apply average_flat; [|now apply Forall_skipn].
      intros E. apply (f_equal (@List.length _)) in E.
      rewrite length_skipn in E. cbn [List.length] in E. lia. }
    rewrite (eqb_compat _ _ H1 _ _ (Qeq_refl 0)).
    change (inject_Z c =? 0) with (inject_Z c =? inject_Z 0).
    rewrite eqb_inject_Z.
    split; intros Hc.
    + replace (c =? 0)%Z with false by (symmetry; now apply Z.eqb_neq).
      set (a1 := History.sumNumbers (firstn mid ma)
                 / inject_Z (Z.of_nat (List.length (firstn mid ma)))) in *.
      set (a2 := History.sumNumbers (skipn mid ma)
                 / inject_Z (Z.of_nat (List.length (skipn mid ma)))) in *.
      assert (~ inject_Z c == 0) as Hne
        by (intros E; apply Hc; unfold Qeq in E; simpl in E; lia).
      assert ((a2 - a1) / a1 * 100 == 0) as Hz
        by (rewrite H1, H2; field; exact Hne).
      rewrite (ltb_compat _ _ Hz _ _ (Qeq_refl _)).
      rewrite (ltb_compat _ _ (Qeq_refl 15) _ _ Hz). reflexivity.
    + now replace (c =? 0)%Z with true by (symmetry; now apply Z.eqb_eq).
Qed.

Lemma decay_trend_witness :
  (14 <= List.length (flatHistory 21 40))%nat
  /\ Forall (fun d => History.clicks d = 40%Z) (flatHistory 21 40)
  /\ History.detectDecayTrend lengthClock (flatHistory 21 40) = History.stable.
Proof.
  assert (14 <= List.length (flatHistory 21 40))%nat as H14 by (cbn; lia).
  assert (Forall (fun d => History.clicks d = 40%Z) (flatHistory 21 40)) as Hflat
    by (repeat constructor).
  split; [exact H14|]. split; [exact Hflat|].
  destruct (decay_trend lengthClock (flatHistory 21 40) 40) as [_ H].
  destruct (H H14) as [_ H']. destruct (H' Hflat) as [Hs _].
  apply Hs. discriminate.
Defined.

(** ** The storage *)

Section StorageFacts.

Lemma storageGet_remove (s : Worker.Storage) (k k' : string) :
  Worker.storageGet (Worker.storageRemove s k) k'
  = if String.eqb k k' then None else Worker.storageGet s k'.
Proof.
  induction s as [|[x v] s IH]; cbn [Worker.storageRemove filter Worker.storageGet fst].
  - now destruct (String.eqb k k').
  - fold (Worker.storageRemove s k).
    destruct (String.eqb_spec x k) as [->|Hx]; cbn [negb Worker.storageGet].
    + rewrite IH. destruct (String.eqb k k'); reflexivity.
    + rewrite IH. destruct (String.eqb_spec x k') as [->|Hx'].
      * destruct (String.eqb_spec k k') as [->|_]; [contradiction | reflexivity].
      * reflexivity.
Qed.

Lemma storageGet_set (s : Worker.Storage) (k k' : string) (v : Worker.Stored) :
  Worker.storageGet (Worker.storageSet s k v) k'
  = if String.eqb k k' then Some v else Worker.storageGet s k'.
Proof.
  unfold Worker.storageSet. cbn [Worker.storageGet].
  destruct (String.eqb k k') eqn:E; [reflexivity|].
  now rewrite storageGet_remove, E.
Qed.

Lemma storageGet_removeAll (keys : list string) :
  forall (s : Worker.Storage) (k : string),
    Worker.storageGet (Worker.storageRemoveAll s keys) k
    = if existsb (fun x => String.eqb x k) keys then None else Worker.storageGet s k.
Proof.
  unfold Worker.storageRemoveAll.
  induction keys as [|x keys IH]; intros s k; cbn [fold_left existsb]; [reflexivity|].
  rewrite IH, storageGet_remove.
  destruct (String.eqb x k); cbn [orb]; [|reflexivity].
  now destruct (existsb _ keys).
Qed.

Lemma storageGet_In (s : Worker.Storage) (k : string) (v : Worker.Stored) :
  wellFormed s -> (Worker.storageGet s k = Some v <-> In (k, v) s).
Proof.
  unfold wellFormed. induction s as [|[x w] s IH]; cbn [map fst Worker.storageGet].
  - intros _. split; [discriminate | intros []].
  - intros Hnd. inversion Hnd as [|? ? Hx Hrest]; subst.
    destruct (String.eqb_spec x k) as [->|Hxk].
    + split.
      * intros E. inversion E. now left.
      * intros [E|Hin]; [now inversion E|].
        exfalso. apply Hx. now apply (in_map fst) in Hin.
    + rewrite (IH Hrest). split; [now right|].
      intros [E|Hin]; [inversion E; contradiction | exact Hin].
Qed.

Lemma storageGet_keys (s : Worker.Storage) (k : string) :
  Worker.storageGet s k = None <-> ~ In k (map fst s).
Proof.
  induction s as [|[x w] s IH]; cbn [map fst Worker.storageGet In].
  - tauto.
  - destruct (String.eqb_spec x k) as [->|Hxk].
    + split; [discriminate | intros H; exfalso; apply H; now left].
    + rewrite IH. tauto.
Qed.

End StorageFacts.

(** ** The cache of the service worker *)

Lemma basic_analysis_total (ps : list Page) :
  Basic.analyzeContentDecay ps = Some (sort Basic.byScore (basicDiagnoses ps)).
Proof.
  unfold Basic.analyzeContentDecay. now rewrite basic_mapM.
Qed.

Lemma getCachedAnalysis_cached (btoa : string -> string) (s : Worker.Storage)
  (now : Z) (site : string) (c : bool) (a t : option Z) (su : Basic.Summary)
  (pg : list (Analyzed Basic.Decay)) :
  Worker.getCachedAnalysis btoa s now site = Worker.Analysis c a t su pg -> c = true.
Proof.
  unfold Worker.getCachedAnalysis.
  destruct (Worker.storageGet s _) as [[ts su' pg'|?]|]; try discriminate.
  destruct (_ <? _)%Z; [|discriminate]. intros E. now inversion E.
Qed.

(** X18. When no fresh cache answers first (a refresh is forced, or nothing
    younger than 12 hours is cached) and the periods are fetched, the analysis
    is stored under the key of the site at the time it was made, and
    [getCachedAnalysis] serves exactly its summary and pages while it is less
    than 12 hours (43,200,000 ms) old; from 12 hours on it answers that nothing
    is cached.  The export of the site is made from the same pages while the
    cache is fresh. *)
Theorem fresh_analysis_is_cached :
  forall (btoa : string -> string) (s : Worker.Storage) (site : string)
         (o : Worker.Options) (nowCheck nowStore now : Z)
         (currentPeriod previousPeriod : list Api.Row),
    Worker.forceRefresh o = Some true
    \/ Worker.getCachedAnalysis btoa s nowCheck site = Worker.NotCached ->
    Worker.hasAccessToken s = true ->
    exists summary pages,
      Worker.handleAnalyzeSite btoa s site o nowCheck
        (Worker.Periods currentPeriod previousPeriod) nowStore
      = (Worker.Analysis false None None summary pages,
         Worker.storageSet s (Worker.cacheKey btoa site)
           (Worker.CachedAnalysis nowStore summary pages))
      /\ summary = Basic.calculateSiteSummary pages
      /\ let s' := Worker.storageSet s (Worker.cacheKey btoa site)
                     (Worker.CachedAnalysis nowStore summary pages) in
         ((now - nowStore < 43200000)%Z ->
          Worker.getCachedAnalysis btoa s' now site
          = Worker.Analysis true
              (Some (JS.Math_round (inject_Z (now - nowStore) / 1000 / 60)))
              (Some nowStore) summary pages
          /\ Worker.handleExportCSV btoa s' now site
             = Worker.Exported (BasicExport.exportToCSV pages))
         /\ ((43200000 <= now - nowStore)%Z ->
             Worker.getCachedAnalysis btoa s' now site = Worker.NotCached
             /\ Worker.handleExportCSV btoa s' now site
                = Worker.ExportFailure
                    "No analysis data available. Run analysis first.").
Proof.
  intros btoa s site o nowCheck nowStore now cur prev Hmiss Htoken.
  assert (Worker.handleAnalyzeSite btoa s site o nowCheck
            (Worker.Periods cur prev) nowStore
          = (let analyzed :=
               sort Basic.byScore
                 (basicDiagnoses
                    (Api.getPagePerformanceComparisonBasic cur prev
                       (Some match Worker.minImpressions o with
                             | Some n => n
                             | None => 50%Z
                             end))) in
             (Worker.Analysis false None None (Basic.calculateSiteSummary analyzed)
                analyzed,
              Worker.storageSet s (Worker.cacheKey btoa site)
                (Worker.CachedAnalysis nowStore (Basic.calculateSiteSummary analyzed)
                   analyzed)))) as Hfresh.
  { unfold Worker.handleAnalyzeSite, Worker.fetchPeriods. cbv zeta.
    rewrite Htoken, basic_analysis_total.
    destruct Hmiss as [Hforce|Hmiss]; [now rewrite Hforce|].
    rewrite Hmiss.
    now destruct (match Worker.forceRefresh o with Some b => b | None => false end). }
  cbv zeta in Hfresh. rewrite Hfresh.
  eexists. eexists. split; [reflexivity|]. split; [reflexivity|].
  unfold Worker.handleExportCSV, Worker.getCachedAnalysis.
  rewrite storageGet_set, String.eqb_refl. cbv zeta.
  change Worker.maxAge with 43200000%Z. split; intros H.
  - replace (now - nowStore <? 43200000)%Z with true
      by (symmetry; apply Z.ltb_lt; exact H).
    split; reflexivity.
  - replace (now - nowStore <? 43200000)%Z with false
      by (symmetry; apply Z.ltb_ge; exact H).
    split; reflexivity.
Qed.

Lemma fresh_analysis_is_cached_witness :
  exists summary pages,
    Worker.handleAnalyzeSite plainKey tokenOnly "https://example.com/"
      (Worker.mkOptions None None) 1000
      (Worker.Periods [sampleRow "/a" 12 640] [sampleRow "/a" 20 700]) 2000
    = (Worker.Analysis false None None summary pages,
       Worker.storageSet tokenOnly (Worker.cacheKey plainKey "https://example.com/")
         (Worker.CachedAnalysis 2000 summary pages)).
Proof.
  destruct (fresh_analysis_is_cached plainKey tokenOnly "https://example.com/"
              (Worker.mkOptions None None) 1000 2000 3000
              [sampleRow "/a" 12 640] [sampleRow "/a" 20 700]
              (or_intror eq_refl) eq_refl)
    as (summary & pages & H & _).
  exists summary, pages. exact H.
Defined.

(** X19. Unless a refresh is forced, [handleAnalyzeSite] answers from a cache
    that is less than 12 hours old: it returns the cached summary and pages
    and leaves the storage as it is, whatever fetching the periods would have
    given, a failure included. *)
Theorem fresh_cache_short_circuits :
  forall (btoa : string -> string) (s : Worker.Storage) (site : string)
         (o : Worker.Options) (nowCheck nowStore : Z) (fetched : Worker.Fetched)
         (c : bool) (a t : option Z) (su : Basic.Summary)
         (pg : list (Analyzed Basic.Decay)),
    Worker.forceRefresh o <> Some true ->
    Worker.getCachedAnalysis btoa s nowCheck site = Worker.Analysis c a t su pg ->
    Worker.handleAnalyzeSite btoa s site o nowCheck fetched nowStore
    = (Worker.Analysis true a t su pg, s).
Proof.
  intros btoa s site o nowCheck nowStore fetched c a t su pg Hforce Hcache.
  pose proof (getCachedAnalysis_cached _ _ _ _ _ _ _ _ _ Hcache) as ->.
  unfold Worker.handleAnalyzeSite. cbv zeta. rewrite Hcache.
  destruct (Worker.forceRefresh o) as [[|]|]; [contradiction | reflexivity..].
Qed.

Lemma fresh_cache_short_circuits_witness :
  let s := Worker.storageSet tokenOnly (Worker.cacheKey plainKey "https://example.com/")
             (Worker.CachedAnalysis 2000 (Basic.calculateSiteSummary []) []) in
  Worker.handleAnalyzeSite plainKey s "https://example.com/"
    (Worker.mkOptions None None) 5000 (Worker.FetchFailed "Not authenticated") 6000
  = (Worker.Analysis true (Some 0%Z) (Some 2000%Z) (Basic.calculateSiteSummary []) [], s).
Proof.
  intros s.
  apply (fresh_cache_short_circuits plainKey s "https://example.com/"
           (Worker.mkOptions None None) 5000 6000
           (Worker.FetchFailed "Not authenticated") true);
    [discriminate | reflexivity].
Defined.

(** X20. With a token in the storage and the periods fetched,
    [handleAnalyzeSite] always answers with an analysis: the analysis itself
    cannot fail.  When no fresh cache answers first, the other cases are
    failures: without a token the answer is "Not authenticated", whatever the
    API would answer, and an exception of the request is answered with its
    message, the storage being left as it was in both cases; a response with
    status 401 is answered with "Token expired. Please sign in again." and
    takes [accessToken] and [expiresAt] out of the storage, every other entry
    staying as it was. *)
Theorem analysis_fails_only_on_fetch :
  forall (btoa : string -> string) (s : Worker.Storage) (site : string)
         (o : Worker.Options) (nowCheck nowStore : Z)
         (currentPeriod previousPeriod : list Api.Row) (message : string)
         (fetched : Worker.Fetched),
    (Worker.hasAccessToken s = true ->
     exists c a t su pg,
       fst (Worker.handleAnalyzeSite btoa s site o nowCheck
              (Worker.Periods currentPeriod previousPeriod) nowStore)
       = Worker.Analysis c a t su pg)
    /\ (Worker.forceRefresh o = Some true
        \/ Worker.getCachedAnalysis btoa s nowCheck site = Worker.NotCached ->
        (Worker.hasAccessToken s = false ->
         Worker.handleAnalyzeSite btoa s site o nowCheck fetched nowStore
         = (Worker.Failure "Not authenticated", s))
        /\ (Worker.hasAccessToken s = true ->
            Worker.handleAnalyzeSite btoa s site o nowCheck
              (Worker.FetchFailed message) nowStore
            = (Worker.Failure message, s)
            /\ exists s',
                 Worker.handleAnalyzeSite btoa s site o nowCheck
                   Worker.TokenExpired nowStore
                 = (Worker.Failure "Token expired. Please sign in again.", s')
                 /\ Worker.storageGet s' "accessToken" = None
                 /\ Worker.storageGet s' "expiresAt" = None
                 /\ forall k,
                      k <> "accessToken"%string -> k <> "expiresAt"%string ->
                      Worker.storageGet s' k = Worker.storageGet s k)).
Proof.
  intros btoa s site o nowCheck nowStore cur prev message fetched. split.
  - intros Htoken.
    unfold Worker.handleAnalyzeSite, Worker.fetchPeriods. cbv zeta.
    rewrite Htoken, basic_analysis_total.
    destruct (match Worker.forceRefresh o with Some b => b | None => false end);
      [repeat eexists|].
    destruct (Worker.getCachedAnalysis btoa s nowCheck site) as [[|] ? ? ? ?| |];
      repeat eexists.
  - intros Hmiss.
    assert (forall f,
               Worker.handleAnalyzeSite btoa s site o nowCheck f nowStore
               = match Worker.fetchPeriods s f with
                 | (inl m, s') => (Worker.Failure m, s')
                 | (inr (c, p), s') =>
                     let analyzed :=
                       sort Basic.byScore
                         (basicDiagnoses
                            (Api.getPagePerformanceComparisonBasic c p
                               (Some match Worker.minImpressions o with
                                     | Some n => n
                                     | None => 50%Z
                                     end))) in
                     (Worker.Analysis false None None
                        (Basic.calculateSiteSummary analyzed) analyzed,
                      Worker.storageSet s' (Worker.cacheKey btoa site)
                        (Worker.CachedAnalysis nowStore
                           (Basic.calculateSiteSummary analyzed) analyzed))
                 end) as Hfresh.
    { intros f. unfold Worker.handleAnalyzeSite. cbv zeta.
      assert (forall x y : Worker.Reply * Worker.Storage,
                 x = y ->
                 (if match Worker.forceRefresh o with Some b => b | None => false end
                  then x
                  else match Worker.getCachedAnalysis btoa s nowCheck site with
                       | Worker.Analysis true a t su pg =>
                           (Worker.Analysis true a t su pg, s)
                       | _ => x
                       end) = y) as Hskip.
      { intros x y ->. destruct Hmiss as [Hforce|Hmiss]; [now rewrite Hforce|].
        rewrite Hmiss.
        now destruct (match Worker.forceRefresh o with
                      | Some b => b | None => false end). }
      apply Hskip.
      destruct (Worker.fetchPeriods s f) as [[m|[c p]] s']; [reflexivity|].
      now rewrite basic_analysis_total. }
    split.
    + intros Htoken. rewrite Hfresh. unfold Worker.fetchPeriods.
      now rewrite Htoken.
    + intros Htoken. split.
      * rewrite Hfresh. unfold Worker.fetchPeriods. now rewrite Htoken.
      * eexists. split.
        { rewrite Hfresh. unfold Worker.fetchPeriods. rewrite Htoken. reflexivity. }
        split; [|split].
        -- now rewrite storageGet_removeAll.
        -- now rewrite storageGet_removeAll.
        -- intros k H1 H2. rewrite storageGet_removeAll. cbn [existsb].
           destruct (String.eqb_spec "accessToken" k) as [E|_]; [congruence|].
           destruct (String.eqb_spec "expiresAt" k) as [E|_]; [congruence|].
           reflexivity.
Qed.

Lemma analysis_fails_only_on_fetch_witness :
  Worker.handleAnalyzeSite plainKey tokenOnly "https://example.com/"
    (Worker.mkOptions None None) 5000 (Worker.FetchFailed "Not authenticated") 6000
  = (Worker.Failure "Not authenticated", tokenOnly).
Proof.
  destruct (analysis_fails_only_on_fetch plainKey tokenOnly "https://example.com/"
              (Worker.mkOptions None None) 5000 6000 [] [] "Not authenticated"
              Worker.TokenExpired) as [_ H].
  destruct (H (or_intror eq_refl)) as [_ H'].
  exact (proj1 (H' eq_refl)).
Defined.

Lemma existsb_keys (s : Worker.Storage) (p : string * Worker.Stored -> bool)
  (k : string) :
  wellFormed s ->
  existsb (fun x => String.eqb x k) (map fst (filter p s))
  = match Worker.storageGet s k with
    | Some v => p (k, v)
    | None => false
    end.
Proof.
  intros Hwf.
  destruct (existsb _ (map fst (filter p s))) eqn:E.
  - apply existsb_exists in E as (x & Hin & Hx). apply String.eqb_eq in Hx. subst x.
    apply in_map_iff in Hin as ([k' v] & Hk & Hin). cbn in Hk. subst k'.
    apply filter_In in Hin as [Hin Hp].
    apply (storageGet_In s k v Hwf) in Hin. now rewrite Hin.
  - destruct (Worker.storageGet s k) as [v|] eqn:G; [|reflexivity].
    destruct (p (k, v)) eqn:Hp; [|reflexivity].
    apply (storageGet_In s k v Hwf) in G.
    assert (existsb (fun x => String.eqb x k) (map fst (filter p s)) = true) as C.
    { apply existsb_exists. exists k. split; [|apply String.eqb_refl].
      apply in_map_iff. exists (k, v). split; [reflexivity|].
      apply filter_In. now split. }
    congruence.
Qed.

(** X21. [clearOldCache] removes exactly the cached analyses whose key starts
    with [analysis_] and whose time stamp is more than 7 days back, and leaves
    every other entry as it is: the access token stays, and so does a cached
    analysis that is between 12 hours and 7 days old, which is kept in the
    storage although [getCachedAnalysis] no longer serves it. *)
Theorem old_cache_is_cleared :
  forall (btoa : string -> string) (s : Worker.Storage) (now : Z),
    wellFormed s ->
    (forall k,
       Worker.storageGet (Worker.clearOldCache s now) k
       = match Worker.storageGet s k with
         | Some v => if outdated now k v then None else Some v
         | None => None
         end)
    /\ (forall k value,
          Worker.storageGet s k = Some (Worker.Other value) ->
          Worker.storageGet (Worker.clearOldCache s now) k = Some (Worker.Other value))
    /\ (forall site timestamp summary pages,
          Worker.storageGet s (Worker.cacheKey btoa site)
          = Some (Worker.CachedAnalysis timestamp summary pages) ->
          (43200000 <= now - timestamp <= 604800000)%Z ->
          Worker.getCachedAnalysis btoa s now site = Worker.NotCached
          /\ Worker.storageGet (Worker.clearOldCache s now) (Worker.cacheKey btoa site)
             = Some (Worker.CachedAnalysis timestamp summary pages)).
Proof.
  intros btoa s now Hwf.
  assert (forall k,
             Worker.storageGet (Worker.clearOldCache s now) k
             = match Worker.storageGet s k with
               | Some v => if outdated now k v then None else Some v
               | None => None
               end) as Hget.
  { intros k. unfold Worker.clearOldCache. cbv zeta.
    set (p := fun e : string * Worker.Stored =>
                String.prefix "analysis_" (fst e) && Worker.hasTimestamp (snd e)
                && (Worker.maxAgeOld <? now - Worker.timestampOf (snd e))%Z).
    pose proof (existsb_keys s p k Hwf) as Hex.
    destruct (map fst (filter p s)) as [|x keys] eqn:Ekeys.
    - cbn [existsb] in Hex. destruct (Worker.storageGet s k) as [v|]; [|reflexivity].
      unfold outdated. unfold p in Hex. cbn [fst snd] in Hex. now rewrite <- Hex.
    - rewrite storageGet_removeAll, Hex.
      destruct (Worker.storageGet s k) as [v|]; [|reflexivity].
      unfold outdated, p. cbn [fst snd]. reflexivity. }
  split; [exact Hget|]. split.
  - intros k value Hk. rewrite Hget, Hk. unfold outdated.
    cbn [Worker.hasTimestamp]. now rewrite andb_false_r.
  - intros site ts su pg Hk Hage. split.
    + unfold Worker.getCachedAnalysis. rewrite Hk. cbv zeta.
      change Worker.maxAge with 43200000%Z.
      now replace (now - ts <? 43200000)%Z with false
        by (symmetry; apply Z.ltb_ge; lia).
    + rewrite Hget, Hk. unfold outdated. cbn [Worker.timestampOf].
      change Worker.maxAgeOld with 604800000%Z.
      replace (604800000 <? now - ts)%Z with false
        by (symmetry; apply Z.ltb_ge; lia).
      now rewrite andb_false_r.
Qed.

Lemma old_cache_is_cleared_witness :
  wellFormed tokenOnly
  /\ Worker.storageGet (Worker.clearOldCache tokenOnly 999999999999) "accessToken"
     = Some (Worker.Other "ya29.token").
Proof.
  assert (wellFormed tokenOnly) as Hwf
    by (repeat constructor; intros []).
  split; [exact Hwf|].
  destruct (old_cache_is_cleared plainKey tokenOnly 999999999999 Hwf) as (_ & H & _).
  apply H. reflexivity.
Defined.

Lemma prefix_keys (s : Worker.Storage) (k : string) :
  existsb (fun x => String.eqb x k) (filter (String.prefix "analysis_") (map fst s))
  = String.prefix "analysis_" k
    && match Worker.storageGet s k with Some _ => true | None => false end.
Proof.
  destruct (existsb _ _) eqn:E.
  - apply existsb_exists in E as (x & Hin & Hx). apply String.eqb_eq in Hx. subst x.
    apply filter_In in Hin as [Hin Hp]. rewrite Hp.
    destruct (Worker.storageGet s k) eqn:G; [reflexivity|].
    apply storageGet_keys in G. contradiction.
  - destruct (String.prefix "analysis_" k) eqn:Hp; [|reflexivity].
    destruct (Worker.storageGet s k) eqn:G; [|reflexivity].
    assert (In k (map fst s)) as Hin.
    { destruct (in_dec string_dec k (map fst s)) as [H|H]; [exact H|].
      apply storageGet_keys in H. congruence. }
    assert (existsb (fun x => String.eqb x k)
              (filter (String.prefix "analysis_") (map fst s)) = true) as C.
    { apply existsb_exists. exists k. split; [|apply String.eqb_refl].
      apply filter_In. now split. }
    congruence.
Qed.

(** X22. Clearing the cache of a site removes the entry of that site and
    nothing else, so that [getCachedAnalysis] no longer answers for it;
    clearing without a site removes every entry whose key starts with
    [analysis_] and keeps all others, and the empty site URL counts as no
    site. *)
Theorem cache_is_cleared :
  forall (btoa : string -> string) (s : Worker.Storage) (c : ascii) (rest : string)
         (now : Z) (k : string),
    let site := String c rest in
    Worker.getCachedAnalysis btoa (Worker.handleClearCache btoa s (Some site)) now site
    = Worker.NotCached
    /\ (k <> Worker.cacheKey btoa site ->
        Worker.storageGet (Worker.handleClearCache btoa s (Some site)) k
        = Worker.storageGet s k)
    /\ Worker.storageGet (Worker.handleClearCache btoa s None) k
       = (if String.prefix "analysis_" k then None else Worker.storageGet s k)
    /\ Worker.handleClearCache btoa s (Some EmptyString)
       = Worker.handleClearCache btoa s None.
Proof.
  intros btoa s c rest now k site. subst site.
  split; [|split; [|split]].
  - unfold Worker.getCachedAnalysis, Worker.handleClearCache.
    now rewrite storageGet_remove, String.eqb_refl.
  - intros Hk. unfold Worker.handleClearCache. rewrite storageGet_remove.
    destruct (String.eqb_spec (Worker.cacheKey btoa (String c rest)) k) as [E|_];
      [congruence | reflexivity].
  - unfold Worker.handleClearCache. cbv zeta.
    rewrite storageGet_removeAll, prefix_keys.
    destruct (String.prefix "analysis_" k); cbn [andb]; [|reflexivity].
    now destruct (Worker.storageGet s k).
  - reflexivity.
Qed.

Lemma cache_is_cleared_witness :
  Worker.storageGet
    (Worker.handleClearCache plainKey tokenOnly (Some "https://example.com/"%string))
    "accessToken"
  = Worker.storageGet tokenOnly "accessToken".
Proof.
  assert ("accessToken"%string
          <> Worker.cacheKey plainKey "https://example.com/") as H by discriminate.
  exact (proj1 (proj2 (cache_is_cleared plainKey tokenOnly "h" "ttps://example.com/"
                         0 "accessToken")) H).
Defined.

Lemma append_injective (p a b : string) :
  String.append p a = String.append p b -> a = b.
Proof.
  induction p as [|c p IH]; cbn; [auto|]. intros E. inversion E. auto.
Qed.

(** X23. Base64 being injective, the cache entries of two different sites
    never meet: whatever [handleAnalyzeSite] does for one site, fresh analysis
    or not, [getCachedAnalysis] answers for any other site as before. *)
Theorem sites_do_not_share_cache :
  forall (btoa : string -> string) (s : Worker.Storage) (site other : string)
         (o : Worker.Options) (nowCheck nowStore now : Z) (fetched : Worker.Fetched),
    (forall a b, btoa a = btoa b -> a = b) ->
    site <> other ->
    Worker.getCachedAnalysis btoa
      (snd (Worker.handleAnalyzeSite btoa s site o nowCheck fetched nowStore))
      now other
    = Worker.getCachedAnalysis btoa s now other.
Proof.
  intros btoa s site other o nowCheck nowStore now fetched Hinj Hne.
  assert (String.eqb (Worker.cacheKey btoa site) (Worker.cacheKey btoa other) = false)
    as Hkey.
  { apply String.eqb_neq. intros E. apply Hne, Hinj.
    exact (append_injective _ _ _ E). }
  unfold Worker.handleAnalyzeSite. cbv zeta.
  assert (forall f,
             ((exists m, f = (Worker.Failure m, s))
              \/ (exists m,
                    f = (Worker.Failure m,
                         Worker.storageRemoveAll s ["accessToken"; "expiresAt"]%string))
              \/ exists v r, f = (r, Worker.storageSet s (Worker.cacheKey btoa site) v)) ->
             Worker.getCachedAnalysis btoa (snd f) now other
             = Worker.getCachedAnalysis btoa s now other) as Hfresh.
  { intros f [[m ->]|[[m ->]|(v & r & ->)]]; cbn [snd]; try reflexivity.
    - unfold Worker.getCachedAnalysis. now rewrite storageGet_removeAll.
    - unfold Worker.getCachedAnalysis. now rewrite storageGet_set, Hkey. }
  match goal with
  | |- context [if _ then ?f else _] => assert (Worker.getCachedAnalysis btoa (snd f) now other
                                               = Worker.getCachedAnalysis btoa s now other) as Hf
  end.
  { apply Hfresh. unfold Worker.fetchPeriods.
    destruct (Worker.hasAccessToken s); [|left; eexists; reflexivity].
    destruct fetched as [m| |cur prev].
    - left. now exists m.
    - right. left. eexists. reflexivity.
    - rewrite basic_analysis_total. right. right. eexists. eexists. reflexivity. }
  destruct (match Worker.forceRefresh o with Some b => b | None => false end);
    [exact Hf|].
  destruct (Worker.getCachedAnalysis btoa s nowCheck site) as [[|] ? ? ? ?| |];
    first [exact Hf | reflexivity].
Qed.

Lemma sites_do_not_share_cache_witness :
  (forall a b, plainKey a = plainKey b -> a = b)
  /\ Worker.getCachedAnalysis plainKey
       (snd (Worker.handleAnalyzeSite plainKey tokenOnly "https://a.example/"
               (Worker.mkOptions None None) 1000
               (Worker.Periods [sampleRow "/a" 12 640] [sampleRow "/a" 20 700]) 2000))
       3000 "https://b.example/"
     = Worker.getCachedAnalysis plainKey tokenOnly 3000 "https://b.example/".
Proof.
  assert (forall a b, plainKey a = plainKey b -> a = b) as Hinj by (intros a b E; exact E).
  split; [exact Hinj|].
  apply (sites_do_not_share_cache plainKey tokenOnly "https://a.example/"
           "https://b.example/" (Worker.mkOptions None None) 1000 2000 3000
           (Worker.Periods [sampleRow "/a" 12 640] [sampleRow "/a" 20 700]) Hinj).
  discriminate.
Defined.

(** ** The export of the basic analyzer *)

Section BasicExportFacts.
Local Open Scope string_scope.

Lemma join_chars (ok : ascii -> bool) (sep : string) (l : list string) :
  Reader.allChars ok sep = true ->
  Forall (fun c => Reader.allChars ok c = true) l ->
  Reader.allChars ok (Text.join sep l) = true.
Proof.
  intros Hsep H. induction H as [|c l Hc Hl IH]; [reflexivity|].
  destruct l as [|c' l]; [exact Hc|].
  change (Text.join sep (c :: c' :: l)) with (c ++ sep ++ Text.join sep (c' :: l)).
  now rewrite !allChars_app, Hc, Hsep, IH.
Qed.

Lemma signals_plain (l : list Signal) :
  plainText (Text.join "; " (map BasicExport.signal_name l)).
Proof.
  split; (apply join_chars; [reflexivity|]); apply Forall_map, Forall_forall;
    intros s _; destruct s; reflexivity.
Qed.

Lemma csvLine_quotedRow (r : list Revival.Cell) :
  Revival.csvLine r = Reader.quotedRow (map Revival.cellText r).
Proof.
  unfold Revival.csvLine, Reader.quotedRow. now rewrite map_map.
Qed.

Lemma basic_row_readable (a : Analyzed Basic.Decay) :
  plainText (page (base a)) ->
  Reader.parseRow (Reader.quotedRow (basicColumns a)) = Some (basicColumns a)
  /\ Reader.without Text.newline (Reader.quotedRow (basicColumns a)) = true.
Proof.
  intros [Hq Hn]. unfold basicColumns, BasicExport.csvRow.
  cbn [map Revival.cellText].
  destruct (signals_plain (Basic.signals (decay a))) as [Sq Sn].
  split.
  - match goal with
    | |- Reader.parseRow (Reader.quotedRow [?c1; ?c2; ?c3; ?c4; ?c5; ?c6; ?c7;
                                            ?c8; ?c9; ?c10]) = _ =>
        apply (parseRow_quotedRow [c1; c2; c3; c4; c5; c6; c7; c8; c9] c10)
    end.
    + repeat constructor;
        first [exact Hq | apply severity_name_plain | apply Number_toString_plain].
    + unfold closesRow. rewrite cells_end by exact Sq. reflexivity.
  - apply quotedRow_chars; [reflexivity | reflexivity |].
    repeat constructor;
      first [exact Hn | exact Sn | apply severity_name_plain
            | apply Number_toString_plain].
Qed.

Lemma basic_export_read (l : list (Analyzed Basic.Decay)) :
  Forall (fun a => plainText (page (base a))) l ->
  Reader.parseQuotedCSV (BasicExport.exportToCSV l) = Some (map basicColumns l).
Proof.
  intros Hl. unfold BasicExport.exportToCSV, Reader.parseQuotedCSV.
  cbn [map]. rewrite splitLines_join.
  - cbn [mapM].
    replace (Reader.parseRow (Revival.csvLine BasicExport.headers))
      with (Some (map Revival.cellText BasicExport.headers))
      by (vm_compute; reflexivity).
    assert (mapM Reader.parseRow (map Revival.csvLine (map BasicExport.csvRow l))
            = Some (map basicColumns l)) as ->; [|reflexivity].
    induction Hl as [|a l Ha _ IH]; [reflexivity|].
    cbn [map mapM]. rewrite csvLine_quotedRow.
    fold (basicColumns a). destruct (basic_row_readable a Ha) as [-> _].
    now rewrite IH.
  - constructor; [reflexivity|].
    apply Forall_map, Forall_map. eapply Forall_impl; [|exact Hl].
    intros a Ha. rewrite csvLine_quotedRow. now apply basic_row_readable.
Qed.

End BasicExportFacts.

(** X17. The export of the basic analyzer loses nothing on pages whose URLs
    contain neither a double quote nor a line feed: two such lists of analyzed
    pages that are exported to the same text have the same length and, page by
    page, the same cells (URL, severity, score, changes, clicks and signals),
    in particular the same URLs and severities. *)
Theorem basic_export_is_injective :
  forall l l' : list (Analyzed Basic.Decay),
    Forall (fun a => plainText (page (base a))) l ->
    Forall (fun a => plainText (page (base a))) l' ->
    BasicExport.exportToCSV l = BasicExport.exportToCSV l' ->
    map basicColumns l = map basicColumns l'
    /\ List.length l = List.length l'
    /\ map (fun a => page (base a)) l = map (fun a => page (base a)) l'
    /\ map (fun a => Basic.severity (decay a)) l
       = map (fun a => Basic.severity (decay a)) l'.
Proof.
  intros l l' Hl Hl' E.
  assert (map basicColumns l = map basicColumns l') as Hcols.
  { pose proof (basic_export_read l Hl) as H. rewrite E in H.
    rewrite (basic_export_read l' Hl') in H. now inversion H. }
  split; [exact Hcols|]. split.
  - apply (f_equal (@List.length _)) in Hcols. now rewrite !length_map in Hcols.
  - clear E Hl Hl'. revert l' Hcols.
    induction l as [|a l IH]; intros [|a' l'] H; try discriminate;
      [split; reflexivity|].
    cbn [map] in *. inversion H as [[Hpage Hsev Hrest]].
    destruct (IH l') as [IH1 IH2].
    { congruence. }
    split; [now rewrite Hpage, IH1|].
    rewrite IH2. f_equal.
    destruct (Basic.severity (decay a)), (Basic.severity (decay a'));
      first [reflexivity | discriminate Hsev].
Qed.

Lemma basic_export_is_injective_witness :
  Forall (fun a => plainText (page (base a))) (basicDiagnoses [lossesExample])
  /\ List.length (basicDiagnoses [lossesExample])
     = List.length (basicDiagnoses [lossesExample]).
Proof.
  assert (Forall (fun a => plainText (page (base a))) (basicDiagnoses [lossesExample]))
    as H by (repeat constructor).
  split; [exact H|].
  exact (proj1 (proj2 (basic_export_is_injective _ _ H H eq_refl))).
Defined.

(** ** Recommendations and the top pages *)

Lemma getRecommendation_length (sev : Severity) (signals : list Signal) :
  let flag s := if includes signals s then 1%nat else 0%nat in
  List.length (Basic.getRecommendation sev signals)
  = ((match sev with healthy => 1 | _ => 2 end)
     + 3 * flag visibility_drop + 4 * flag ctr_decline
     + 4 * flag ranking_drop + 4 * flag traffic_loss)%nat.
Proof.
  unfold Basic.getRecommendation. cbv zeta.
  destruct (includes signals visibility_drop), (includes signals ctr_decline),
    (includes signals ranking_drop), (includes signals traffic_loss), sev;
    reflexivity.
Qed.

(** X24. Every diagnosis carries at least one recommendation, so that the
    first recommendation always exists.  The basic analyzer gives the two
    lines of the severity (one line for a healthy page) plus three lines for a
    visibility drop and four for each of the other three signals; the
    classifier gives one line, or two for a zombie, whatever the signals. *)
Theorem recommendations_are_never_empty :
  forall (cur prev : Metrics) (c : Class.t) (signals signals' : list Signal) (x : Q),
    let d := Basic.calculateDecayMetrics cur prev in
    let flag s := if includes (Basic.signals d) s then 1%nat else 0%nat in
    List.length (Basic.recommendation d)
    = ((match Basic.severity d with healthy => 1 | _ => 2 end)
       + 3 * flag visibility_drop + 4 * flag ctr_decline
       + 4 * flag ranking_drop + 4 * flag traffic_loss)%nat
    /\ (1 <= List.length (Basic.recommendation d))%nat
    /\ List.length (Revival.getRevivalRecommendations c signals x)
       = (match c with Class.zombie => 2 | _ => 1 end)%nat
    /\ hd EmptyString (Revival.getRevivalRecommendations c signals x)
       = hd EmptyString (Revival.getRevivalRecommendations c signals' 0)
    /\ hd EmptyString (Revival.getRevivalRecommendations c signals x) <> EmptyString.
Proof.
  intros cur prev c signals signals' x d flag.
  assert (List.length (Basic.recommendation d)
          = ((match Basic.severity d with healthy => 1 | _ => 2 end)
             + 3 * flag visibility_drop + 4 * flag ctr_decline
             + 4 * flag ranking_drop + 4 * flag traffic_loss)%nat) as Hlen
    by (apply getRecommendation_length).
  split; [exact Hlen|]. split.
  - rewrite Hlen. destruct (Basic.severity d); lia.
  - destruct c; repeat split; cbn; discriminate.
Qed.

Lemma firstn_In {A : Type} (n : nat) (l : list A) (x : A) :
  In x (firstn n l) -> In x l.
Proof.
  intros H. rewrite <- (firstn_skipn n l). apply in_or_app. now left.
Qed.

(** X25. The summary of the basic analyzer lists at most 15 top pages: the
    first 10 critical pages followed by the first 10 warning pages, cut at 15.
    Each of them is a critical or warning page of the analysis, there are
    [min(15, min(10, criticalCount) + min(10, warningCount))] of them, and
    there is none for the empty analysis. *)
Theorem top_decaying_pages :
  forall l : list (Analyzed Basic.Decay),
    let s := Basic.calculateSiteSummary l in
    (List.length (Basic.topDecayingPages s) <= 15)%nat
    /\ Z.of_nat (List.length (Basic.topDecayingPages s))
       = Z.min 15 (Z.min 10 (Basic.criticalCount s) + Z.min 10 (Basic.warningCount s))
    /\ Forall (fun a => In a l
                        /\ (Basic.severity (decay a) = critical
                            \/ Basic.severity (decay a) = warning))
         (Basic.topDecayingPages s)
    /\ (exists rest,
          Basic.topDecayingPages s
          = (firstn 10 (filter (fun a => Severity_eqb (Basic.severity (decay a)) critical) l)
             ++ rest)%list
          /\ Forall (fun a => Basic.severity (decay a) = warning) rest).
Proof.
  intros l s. subst s. unfold Basic.calculateSiteSummary.
  destruct l as [|a l]; [cbn; repeat split; try lia; try constructor;
                         exists []; split; [reflexivity | constructor]|].
  replace (Basic.len (a :: l) =? 0)%Z with false
    by (symmetry; apply Z.eqb_neq; unfold Basic.len; cbn [List.length]; lia).
  cbv zeta.
  cbn [Basic.topDecayingPages Basic.criticalCount Basic.warningCount
       Basic.groupByDecaySeverity Basic.criticalPages Basic.warningPages].
  set (crit := filter (fun p => Severity_eqb (Basic.severity (decay p)) critical)
                 (a :: l)).
  set (warn := filter (fun p => Severity_eqb (Basic.severity (decay p)) warning)
                 (a :: l)).
  assert (forall x, In x crit -> In x (a :: l) /\ Basic.severity (decay x) = critical)
    as Hcrit.
  { intros x Hx. apply filter_In in Hx as [Hin Hs]. split; [exact Hin|].
    now destruct (Basic.severity (decay x)). }
  assert (forall x, In x warn -> In x (a :: l) /\ Basic.severity (decay x) = warning)
    as Hwarn.
  { intros x Hx. apply filter_In in Hx as [Hin Hs]. split; [exact Hin|].
    now destruct (Basic.severity (decay x)). }
  split; [rewrite length_firstn; lia|]. split.
  - rewrite length_firstn, length_app, !length_firstn. unfold Basic.len. lia.
  - split.
    + apply Forall_forall. intros x Hx. apply firstn_In in Hx.
      apply in_app_or in Hx as [Hx|Hx]; apply firstn_In in Hx.
      * destruct (Hcrit x Hx). split; [assumption | now left].
      * destruct (Hwarn x Hx). split; [assumption | now right].
    + assert (List.length (firstn 10 crit) <= 10)%nat as Hc
        by (rewrite length_firstn; lia).
      exists (firstn (15 - List.length (firstn 10 crit)) (firstn 10 warn)). split.
      * rewrite firstn_app. rewrite (firstn_all2 (n := 15)) by lia. reflexivity.
      * apply Forall_forall. intros x Hx. do 2 apply firstn_In in Hx.
        now destruct (Hwarn x Hx).
Qed.
